(** * Spookyball: ball lifecycle and physics debug visualisation

    A shallow embedding of the two systems of the repository:
    - [BallSystem] (ball spawn, launch, speed floor, loss, respawn, bonus
      balls), and
    - [Physics2DVisualizerSystem] (per-frame collider outlines with a
      per-body cache of outline meshes).

    In [BallSystem] and [Visualizer] JavaScript numbers are embedded as
    real numbers: arithmetic there is the exact arithmetic the source
    formulas denote. What depends on how the machine rounds (whether a
    rescaled velocity has exactly the length asked for) is settled on a
    second embedding of the launch and of the speed floor, [Doubles], over
    IEEE 754 binary64 numbers with the binary32 storage of gl-matrix
    vectors. A JavaScript exception is an explicit outcome that carries the
    state reached when it was raised. *)

From Stdlib Require Import Reals Lra ZArith.
From Stdlib Require Floats.PrimFloat Floats.SpecFloat Floats.FloatOps
  Floats.FloatAxioms.
From stdpp Require Import gmap list strings.

#[local] Open Scope R_scope.

(** ** Vectors *)

(** A three element array: a gl-matrix [vec3] or a JS array literal
    [[a, b, c]]. *)
Record Vec3 : Type := mkVec3 { c0 : R; c1 : R; c2 : R }.

(** An object [{ x, y }] as Matter.js uses for positions and velocities. *)
Record Vec2 : Type := mkVec2 { vx : R; vy : R }.

#[global] Instance Vec3_inhabited : Inhabited Vec3 := populate (mkVec3 0 0 0).

(** [Math.sqrt(a ** 2 + b ** 2)] *)
Definition magnitude (v : Vec2) : R := sqrt (vx v ^ 2 + vy v ^ 2).

(** ** The store of gl-matrix vectors

    gl-matrix functions write their result into an [out] argument that may
    be the very array they read from, so vectors live in a store and are
    passed by reference. *)

Inductive idx : Type := I0 | I1 | I2.

Definition comp (v : Vec3) (i : idx) : R :=
  match i with I0 => c0 v | I1 => c1 v | I2 => c2 v end.

Definition setComp (v : Vec3) (i : idx) (a : R) : Vec3 :=
  match i with
  | I0 => mkVec3 a (c1 v) (c2 v)
  | I1 => mkVec3 (c0 v) a (c2 v)
  | I2 => mkVec3 (c0 v) (c1 v) a
  end.

(** [a[i]] *)
Definition rd (h : gmap positive Vec3) (a : positive) (i : idx) : R :=
  comp (h !!! a) i.

(** [out[i] = val] *)
Definition wr (h : gmap positive Vec3) (out : positive) (i : idx) (val : R)
  : gmap positive Vec3 :=
  <[out := setComp (h !!! out) i val]> h.

(** Modelled from the spec: gl-matrix is an external library, the
    repository only calls it. [vec3.fromValues(x, y, z)] allocates a new
    array. *)
Definition vec3_fromValues (x y z : R) (h : gmap positive Vec3)
  : positive * gmap positive Vec3 :=
  let r := fresh (dom h) in (r, <[r := mkVec3 x y z]> h).

(** Modelled from the spec: [vec3.normalize(out, a)] of gl-matrix. The zero
    vector is mapped to itself; the components are written to [out] one
    after the other, each read from [a] at the time of its write. *)
Definition vec3_normalize (out a : positive) (h : gmap positive Vec3)
  : gmap positive Vec3 :=
  let x := rd h a I0 in
  let y := rd h a I1 in
  let z := rd h a I2 in
  let len := x * x + y * y + z * z in
  let len := if Rlt_dec 0 len then 1 / sqrt len else len in
  let h := wr h out I0 (rd h a I0 * len) in
  let h := wr h out I1 (rd h a I1 * len) in
  wr h out I2 (rd h a I2 * len).

(** Modelled from the spec: [vec3.scale(out, a, b)] of gl-matrix. *)
Definition vec3_scale (out a : positive) (b : R) (h : gmap positive Vec3)
  : gmap positive Vec3 :=
  let h := wr h out I0 (rd h a I0 * b) in
  let h := wr h out I1 (rd h a I1 * b) in
  wr h out I2 (rd h a I2 * b).

(** The Euclidean length of a [vec3]. *)
Definition norm3 (v : Vec3) : R := sqrt (c0 v ^ 2 + c1 v ^ 2 + c2 v ^ 2).

(** ** Runs that may raise

    What a run over a state of type [St] produces: a value and the state,
    or a [TypeError] raised by a property access on [undefined], with the
    state reached by then. *)
Inductive Outcome (St A : Type) : Type :=
| Done (a : A) (s : St)
| Threw (s : St).
Arguments Done {St A} a s.
Arguments Threw {St A} s.

Definition M (St A : Type) : Type := St -> Outcome St A.

Definition ret {St A : Type} (a : A) : M St A := fun s => Done a s.

Definition bind {St A B : Type} (m : M St A) (f : A -> M St B) : M St B :=
  fun s => match m s with
           | Done a s' => f a s'
           | Threw s' => Threw s'
           end.

Notation "'do' x <- m ; k" := (bind m (fun x => k))
  (at level 10, x name, m at level 100, k at level 200).
Notation "m >> k" := (bind m (fun _ => k))
  (at level 65, right associativity).

(** The state in which a run ends, raised or not. *)
Definition finalState {St A : Type} (o : Outcome St A) : St :=
  match o with Done _ s => s | Threw s => s end.

Definition completes {St A : Type} (o : Outcome St A) : bool :=
  match o with Done _ _ => true | Threw _ => false end.

Module BallSystem.

(** *** Components *)

(** [class Ball] with its field initialisers. *)
Record Ball : Type := mkBall {
  waitingForLaunch : bool;
  speed : R;
  glowIntensity : R;
  color : Vec3
}.

Definition new_Ball : Ball := mkBall true 0.5 45 (mkVec3 0.0 0.5 1.0).

(** The Matter.js body behind a [Physics2DBody], as far as this system
    reads and writes it. *)
Record MatterBody : Type := mkMatterBody {
  position : Vec2;
  velocity : Vec2
}.

(** Modelled from the spec: [Matter.Body.setPosition] and
    [Matter.Body.setVelocity] belong to the external physics engine; they
    are the position and velocity setters of the body handle. *)
Definition Body_setPosition (b : MatterBody) (p : Vec2) : MatterBody :=
  mkMatterBody p (velocity b).

Definition Body_setVelocity (b : MatterBody) (v : Vec2) : MatterBody :=
  mkMatterBody (position b) v.

(** [launchBall(ball, body, direction)]: [direction] is a reference into
    the vector store, normalised and scaled in place. The numbers are
    exact here; [Doubles.launchBall] is the same function on the numbers
    of the machine. *)
Definition launchBall (ball : Ball) (body : MatterBody) (direction : positive)
    (h : gmap positive Vec3) : Ball * MatterBody * gmap positive Vec3 :=
  let h := vec3_normalize direction direction h in
  let h := vec3_scale direction direction (speed ball) h in
  let body := Body_setVelocity body (mkVec2 (rd h direction I0) (rd h direction I2)) in
  (mkBall false (speed ball) (glowIntensity ball) (color ball), body, h).

(** The speed floor of the per-ball callback ("Maintain constant speed").
    The numbers are exact here; [Doubles.maintainSpeed] is the same step on
    the numbers of the machine. *)
Definition maintainSpeed (ball : Ball) (body : MatterBody) : MatterBody :=
  let speed' := magnitude (velocity body) in
  if Req_dec_T speed' 0 then body
  else if Rlt_dec speed' (speed ball) then
    let scaleFactor := speed ball / speed' in
    Body_setVelocity body
      (mkVec2 (vx (velocity body) * scaleFactor) (vy (velocity body) * scaleFactor))
  else body.

(** Modelled from the spec: the [Physics2DBody] class of physics-2d.js,
    which is outside the sources at hand. It wraps the engine body and
    keeps the shape kind, the size and the material options it was built
    with. *)
Record Physics2DBody : Type := mkPhysics2DBody {
  shape : string;
  radius : R;
  friction : R;
  restitution : R;
  frictionAir : R;
  body : MatterBody
}.

Definition withBody (pb : Physics2DBody) (b : MatterBody) : Physics2DBody :=
  mkPhysics2DBody (shape pb) (radius pb) (friction pb) (restitution pb)
    (frictionAir pb) b.

(** [new Physics2DBody('circle', x, y, r, options)]: a body at rest. *)
Definition new_Physics2DBody (x y r fr re fa : R) : Physics2DBody :=
  mkPhysics2DBody "circle" r fr re fa (mkMatterBody (mkVec2 x y) (mkVec2 0 0)).

Record PointLight : Type := mkPointLight {
  lcolor : Vec3;
  lintensity : R;
  lrange : R
}.

(** The fields of [Paddle] the system reads. *)
Record Paddle : Type := mkPaddle { px : R; launch : bool }.

(** The [GameState] singleton; [lives] and [level] are integer counters. *)
Record GameState : Type := mkGameState {
  lives : Z;
  level : Z;
  levelStarting : bool
}.

(** [gpu.flags] *)
Record Flags : Type := mkFlags { ballShadows : bool; lucasMode : bool }.

(** *** Entities

    Modelled from the spec: the entity and query engine
    (engine/core/ecs.js) is outside the sources at hand. An entity is the
    set of components it carries; a query matches the entities carrying all
    of its components and visits them in store order; [add] on a tag is
    idempotent. *)
Record Entity : Type := mkEntity {
  e_ball : option Ball;
  e_body : option Physics2DBody;
  e_transform : option Vec3;          (* Transform, by its position *)
  e_light : option PointLight;
  e_paddle : option Paddle;
  e_bonusBall : bool;                 (* BonusBall *)
  e_dead : bool;                      (* Tag('dead') *)
  e_damage : option Z;                (* ImpactDamage *)
  e_shadow : bool;                    (* ShadowCastingLight *)
  e_name : string
}.

(** The state a tick works on: the entity store in creation order, the
    singleton, whether [this.ballScene] has been set by the loader, and two
    observers of the tick's effects: how many times [Math.random()] was
    called and on which entities [add(Tag('dead'))] was called. *)
Record State : Type := mkState {
  entities : list Entity;
  gameState : GameState;
  ballScene : bool;
  drawn : nat;
  tagged : list nat
}.

(** The [let] variables of [execute], with the two observers threaded
    through the ball loop. *)
Record Locals : Type := mkLocals {
  ballCount : nat;
  lostBall : bool;
  waitingBallCount : nat;
  l_drawn : nat;
  l_tagged : list nat
}.

(** [paddleQuery.forEach]: the callback stores the paddle and returns
    [false], which ends the iteration at the first match. *)
Fixpoint paddleLoop (es : list Entity) (paddleState : option Paddle)
  : option Paddle :=
  match es with
  | [] => paddleState
  | e :: es' =>
    match e_paddle e with
    | Some paddle => Some paddle
    | None => paddleLoop es' paddleState
    end
  end.

(** The launch direction of a waiting ball, from one [Math.random()]. *)
Definition launchDirection (r : R) : Vec3 :=
  mkVec3 ((r * 2.0 - 1.0) * 0.5) 0 (-1.5).

(** "Position ball on paddle before launch". The direction is a fresh
    array, unreachable once [launchBall] has returned. *)
Definition positionOnPaddle (paddleState : option Paddle) (rnd : nat -> R)
    (ball : Ball) (b : MatterBody) (loc : Locals)
  : Ball * MatterBody * Locals :=
  if waitingForLaunch ball then
    match paddleState with
    | Some paddle =>
      let b := Body_setPosition b (mkVec2 (px paddle) 23) in
      if launch paddle then
        let d := launchDirection (rnd (l_drawn loc)) in
        let '(direction, h) := vec3_fromValues (c0 d) (c1 d) (c2 d) ∅ in
        let '(ball, b, _) := launchBall ball b direction h in
        (ball, b,
         mkLocals (ballCount loc) (lostBall loc) (waitingBallCount loc)
           (S (l_drawn loc)) (l_tagged loc))
      else
        (ball, b,
         mkLocals (ballCount loc) (lostBall loc) (S (waitingBallCount loc))
           (l_drawn loc) (l_tagged loc))
    | None => (ball, b, loc)
    end
  else (ball, b, loc).

(** "Dynamic color based on speed": [speed'] is the speed measured before
    the floor was applied. *)
Definition colorBySpeed (time speed' : R) (ball : Ball) : Ball :=
  let intensity := Rmin (speed' * 70) 200 in
  let hue := Rabs (sin (time * 0.5)) * 0.6 + 0.2 in
  mkBall (waitingForLaunch ball) (speed ball) (30 + intensity * 0.5)
    (mkVec3 hue (0.5 + 0.5 * sin time) (1.0 - hue)).

(** "Curve the motion slightly for fun" *)
Definition curveMotion (time : R) (ball : Ball) (b : MatterBody) : MatterBody :=
  if waitingForLaunch ball then b
  else
    let curve := sin (time * 2.0) * 0.0015 in
    Body_setVelocity b (mkVec2 (vx (velocity b) + curve) (vy (velocity b))).

(** The callback of [ballQuery.forEach], on the entity of index [i]. *)
Definition ballCallback (paddleState : option Paddle) (time : R)
    (rnd : nat -> R) (i : nat) (entity : Entity) (ball : Ball)
    (pb : Physics2DBody) (transform : Vec3) (loc : Locals)
  : Entity * Locals :=
  let '(ball, b, loc) := positionOnPaddle paddleState rnd ball (body pb) loc in
  let speed' := magnitude (velocity b) in
  let b := maintainSpeed ball b in
  let ball := colorBySpeed time speed' ball in
  let light :=
    match e_light entity with
    | Some l => Some (mkPointLight (color ball) (glowIntensity ball) (lrange l))
    | None => None
    end in
  let b := curveMotion time ball b in
  (* Ball lost check *)
  if Rlt_dec 30 (c2 transform) then
    (mkEntity (Some ball) (Some (withBody pb b)) (Some transform) light
       (e_paddle entity) (e_bonusBall entity) true (e_damage entity)
       (e_shadow entity) (e_name entity),
     mkLocals (ballCount loc) true (waitingBallCount loc) (l_drawn loc)
       (l_tagged loc ++ [i]))
  else
    (mkEntity (Some ball) (Some (withBody pb b)) (Some transform) light
       (e_paddle entity) (e_bonusBall entity) (e_dead entity) (e_damage entity)
       (e_shadow entity) (e_name entity),
     mkLocals (S (ballCount loc)) (lostBall loc) (waitingBallCount loc)
       (l_drawn loc) (l_tagged loc)).

(** [ballQuery.forEach]: entities carrying [Ball], [Physics2DBody] and
    [Transform], visited in store order; [i] is the index of the head. An
    entity the query does not match is passed over. *)
Definition ballVisit (paddleState : option Paddle) (time : R) (rnd : nat -> R)
    (i : nat) (e : Entity) (loc : Locals) : Entity * Locals :=
  match e_ball e, e_body e, e_transform e with
  | Some ball, Some pb, Some transform =>
    ballCallback paddleState time rnd i e ball pb transform loc
  | _, _, _ => (e, loc)
  end.

Fixpoint ballLoop (paddleState : option Paddle) (time : R) (rnd : nat -> R)
    (i : nat) (es : list Entity) (loc : Locals) : list Entity * Locals :=
  match es with
  | [] => ([], loc)
  | e :: es' =>
    let '(e', loc') := ballVisit paddleState time rnd i e loc in
    let '(es'', loc'') := ballLoop paddleState time rnd (S i) es' loc' in
    (e' :: es'', loc'')
  end.

(** Modelled from the spec: [ballScene.createInstance(world)] belongs to
    the glTF scene of the engine; it instantiates the visual representation
    as a new entity that carries a [Transform]. *)
Definition createInstance : Entity :=
  mkEntity None None (Some (mkVec3 0 0 0)) None None false false None false "".

(** [spawnBall(position, velocity = null, castShadow = false)]. The result
    is the index of the new entity, or [None] for [undefined]. *)
Definition spawnBall (position : Vec3) (velocity : option positive)
    (castShadow : bool) (h : gmap positive Vec3)
  : M State (option nat * gmap positive Vec3) :=
  fun s =>
  if negb (ballScene s) then Done (None, h) s
  else
    let pb := new_Physics2DBody (c0 position) (c2 position) 0.8 0 1 0 in
    let ballState :=
      mkBall (waitingForLaunch new_Ball)
        (0.5 + IZR (level (gameState s)) * 0.04)
        (glowIntensity new_Ball) (color new_Ball) in
    let '(ballState, b, h) :=
      match velocity with
      | Some direction => launchBall ballState (body pb) direction h
      | None => (ballState, body pb, h)
      end in
    let ball := createInstance in
    let ball :=
      mkEntity (Some ballState) (Some (withBody pb b)) (Some position)
        (Some (mkPointLight (color ballState) (glowIntensity ballState) 30))
        (e_paddle ball) (e_bonusBall ball) (e_dead ball) (Some 1%Z)
        (if castShadow then true else e_shadow ball) "The Ball" in
    Done (Some (length (entities s)), h)
      (mkState (entities s ++ [ball]) (gameState s) (ballScene s) (drawn s)
         (tagged s)).

(** [bonusLight.color = [1.0, 0.4, 0.2]; bonusLight.intensity = 60], under
    [if (bonusLight)]. *)
Definition fieryLight (e : Entity) : Entity :=
  match e_light e with
  | Some l =>
    mkEntity (e_ball e) (e_body e) (e_transform e)
      (Some (mkPointLight (mkVec3 1.0 0.4 0.2) 60 (lrange l)))
      (e_paddle e) (e_bonusBall e) (e_dead e) (e_damage e) (e_shadow e)
      (e_name e)
  | None => e
  end.

(** The callback of [bonusQuery.forEach]: two [Math.random()] calls, left
    to right, then [spawnBall], then [bonus.get(PointLight)], which raises
    when [bonus] is [undefined]. *)
Definition bonusCallback (flags : Flags) (rnd : nat -> R) (transform : Vec3)
  : M State unit :=
  fun s =>
  let '(direction, h) :=
    vec3_fromValues (rnd (drawn s) * 2.0 - 1.0) 0
      (- (rnd (S (drawn s)) * 2.0 - 1.0)) ∅ in
  let s := mkState (entities s) (gameState s) (ballScene s) (S (S (drawn s)))
             (tagged s) in
  (do r <- spawnBall (mkVec3 (c0 transform) 1 (c2 transform))
             (Some direction) (ballShadows flags) h;
   match fst r with
   | None => fun s' => Threw s'
   | Some bonus =>
     fun s' =>
       Done tt (mkState (alter fieryLight bonus (entities s')) (gameState s')
                  (ballScene s') (drawn s') (tagged s'))
   end) s.

(** The entities [bonusQuery] matches ([Transform], [BonusBall],
    [Tag('dead')]), by their transform, in store order. *)
Definition bonusRequests (es : list Entity) : list Vec3 :=
  omap (fun e => if e_bonusBall e && e_dead e then e_transform e else None) es.

(** [bonusQuery.forEach] *)
Fixpoint bonusLoop (flags : Flags) (rnd : nat -> R) (requests : list Vec3)
  : M State unit :=
  match requests with
  | [] => ret tt
  | transform :: rest =>
    bonusCallback flags rnd transform >> bonusLoop flags rnd rest
  end.

(** [gameState.lives--] *)
Definition loseLife (s : State) : State :=
  mkState (entities s)
    (mkGameState (lives (gameState s) - 1) (level (gameState s))
       (levelStarting (gameState s)))
    (ballScene s) (drawn s) (tagged s).

(** "Respawn if no balls left". The position array [[paddleState.x, 1, 23]]
    is evaluated before [spawnBall] is entered. *)
Definition respawn (paddleState : option Paddle) (flags : Flags) (loc : Locals)
  : M State unit :=
  fun s =>
  if Nat.eqb (ballCount loc) 0 then
    let s := if lostBall loc then loseLife s else s in
    if negb (levelStarting (gameState s)) && (0 <? lives (gameState s))%Z then
      match paddleState with
      | Some paddle =>
        (spawnBall (mkVec3 (px paddle) 1 23) None (ballShadows flags) ∅
         >> ret tt) s
      | None => Threw s
      end
    else Done tt s
  else Done tt s.

(** The [lucasMode] spawn that ends [execute]. *)
Definition autoLaunch (paddleState : option Paddle) (flags : Flags)
    (loc : Locals) : M State unit :=
  if lucasMode flags && Nat.eqb (waitingBallCount loc) 0 then
    match paddleState with
    | Some paddle =>
      spawnBall (mkVec3 (px paddle) 1 23) None (ballShadows flags) ∅ >> ret tt
    | None => ret tt
    end
  else ret tt.

(** [execute(delta, time, gpu)]: one tick. [rnd n] is the value of the
    [n]-th call of [Math.random()]. *)
Definition execute (time : R) (flags : Flags) (rnd : nat -> R) : M State unit :=
  fun s =>
  let paddleState := paddleLoop (entities s) None in
  let '(es, loc) :=
    ballLoop paddleState time rnd 0 (entities s)
      (mkLocals 0 false 0 (drawn s) (tagged s)) in
  let s := mkState es (gameState s) (ballScene s) (l_drawn loc) (l_tagged loc) in
  (bonusLoop flags rnd (bonusRequests es) >>
   respawn paddleState flags loc >>
   autoLaunch paddleState flags loc) s.

End BallSystem.

Module Visualizer.

(** *** Bodies, meshes and draw instances *)

(** The Matter.js body behind a [Physics2DBody], as far as this system
    reads it; [velocity] is read through [?.], so it may be absent. *)
Record MatterBody : Type := mkMatterBody {
  position : Vec2;
  angle : R;
  velocity : option Vec2;
  vertices : list Vec2
}.

(** A [Physics2DBody] component: [ident] stands for the identity of the JS
    object, which is what the [WeakMap] of outline meshes is keyed by. *)
Record Physics2DBody : Type := mkPhysics2DBody {
  ident : positive;
  type : string;
  width : R;
  height : R;
  radius : R;
  body : MatterBody
}.

(** A gl-matrix quaternion [[x, y, z, w]]. *)
Record Quat : Type := mkQuat { qx : R; qy : R; qz : R; qw : R }.

(** A [Mesh]: the vertices of its geometry and its [UnlitMaterial]. *)
Record Mesh : Type := mkMesh {
  m_vertices : list Vec3;
  m_drawCount : nat;
  m_topology : string;
  baseColorFactor : Vec3;
  depthCompare : string;
  emissiveFactor : Vec3;
  m_name : string
}.

#[global] Instance Mesh_inhabited : Inhabited Mesh :=
  populate (mkMesh [] 0 "" (mkVec3 0 0 0) "" (mkVec3 0 0 0) "").

(** What [gpu.addFrameMeshInstance(mesh, new StaticTransform({...}))]
    receives; [i_scale] is [None] when the transform is built without a
    [scale]. *)
Record Instance : Type := mkInstance {
  i_mesh : positive;
  i_position : Vec3;
  i_scale : option Vec3;
  i_orientation : Quat
}.

(** The state the pass works on: the mesh objects by identity, the two
    shared meshes of the system, the module level [WeakMap] and scratch
    quaternion, the instances submitted to the gpu for the frame, and an
    observer of the build path: the bodies an outline mesh was built for,
    in build order. *)
Record RState : Type := mkRState {
  meshes : gmap positive Mesh;
  rectMesh : positive;
  circleMesh : positive;
  verticesMeshes : gmap positive positive;
  tmpQuat : Quat;
  frame : list Instance;
  built : list positive
}.

(** Modelled from the spec: [quat.identity(out)] and
    [quat.rotateZ(out, a, rad)] of gl-matrix, an external library. *)
Definition quat_identity : Quat := mkQuat 0 0 0 1.

Definition quat_rotateZ (a : Quat) (rad : R) : Quat :=
  let rad := rad * 0.5 in
  let bz := sin rad in
  let bw := cos rad in
  mkQuat (qx a * bw + qy a * bz) (qy a * bw - qx a * bz)
         (qz a * bw + qw a * bz) (qw a * bw - qz a * bz).

(** [new Mesh(...)]: a new object in the mesh store. *)
Definition new_Mesh (m : Mesh) : M RState positive :=
  fun s =>
  let r := fresh (dom (meshes s)) in
  Done r (mkRState (<[r := m]> (meshes s)) (rectMesh s) (circleMesh s)
            (verticesMeshes s) (tmpQuat s) (frame s) (built s)).

Definition rectangleMesh : Mesh :=
  mkMesh [mkVec3 0.5 0.0 0.5; mkVec3 (-0.5) 0.0 0.5; mkVec3 (-0.5) 0.0 (-0.5);
          mkVec3 0.5 0.0 (-0.5); mkVec3 0.5 0.0 0.5]
    5 "line-strip" (mkVec3 1.0 1.0 0.0) "less-equal" (mkVec3 0.1 0.4 0.1)
    "Physics 2D Rectangle Visualization Mesh".

Definition ringSegments : nat := 16.

(** [createCircleMesh]: 17 vertices around the unit circle, at height 0.
    Sine and cosine are the exact functions here; what the machine makes
    of them is not part of the embedding, and nothing below compares the
    horizontal coordinates of these vertices. *)
Definition circleMeshValue : Mesh :=
  mkMesh
    (map (fun i : nat =>
            let u := (INR i / INR ringSegments) * PI * 2 in
            mkVec3 (cos u) 0 (sin u))
         (seq 0 (ringSegments + 1)))
    (ringSegments + 1) "line-strip" (mkVec3 0.0 1.0 0.0) "less-equal"
    (mkVec3 0.1 0.4 0.1) "Physics 2D Circle Visualization Mesh".

(** The closed outline of [verts], recentred on [pos]: one vertex per
    entry, the height left at the zero the buffer is created with, and the
    first vertex once more. *)
Definition outlineVertices (verts : list Vec2) (first pos : Vec2) : list Vec3 :=
  map (fun v => mkVec3 (vx v - vx pos) 0 (vy v - vy pos)) verts
  ++ [mkVec3 (vx first - vx pos) 0 (vy first - vy pos)].

(** [getOrCreateVerticesMesh(gpu, body)]. With no vertex, [verts[0].x]
    raises. *)
Definition getOrCreateVerticesMesh (b : Physics2DBody) : M RState positive :=
  fun s =>
  match verticesMeshes s !! ident b with
  | Some mesh => Done mesh s
  | None =>
    let verts := vertices (body b) in
    match verts with
    | [] => Threw s
    | first :: _ =>
      (do mesh <- new_Mesh
                    (mkMesh (outlineVertices verts first (position (body b)))
                       (length verts + 1) "line-strip" (mkVec3 0.0 1.0 0.2)
                       "less-equal" (mkVec3 0.1 0.4 0.1)
                       "Vertices Visualization Mesh");
       fun s' =>
         Done mesh
           (mkRState (meshes s') (rectMesh s') (circleMesh s')
              (<[ident b := mesh]> (verticesMeshes s')) (tmpQuat s')
              (frame s') (built s' ++ [ident b]))) s
    end
  end.

(** [init(gpu)] *)
Definition init : RState :=
  let s0 := mkRState ∅ 1%positive 1%positive ∅ (mkQuat 0 0 0 1) [] [] in
  match new_Mesh rectangleMesh s0 with
  | Done rect s1 =>
    match new_Mesh circleMeshValue s1 with
    | Done circ s2 =>
      mkRState (meshes s2) rect circ (verticesMeshes s2) (tmpQuat s2)
        (frame s2) (built s2)
    | Threw s => s
    end
  | Threw s => s
  end.

(** [mesh.material.baseColorFactor.set(color)]: the mesh object is
    changed in place, whoever holds it sees the new colour. *)
Definition withColor (c : Vec3) (m : Mesh) : Mesh :=
  mkMesh (m_vertices m) (m_drawCount m) (m_topology m) c (depthCompare m)
    (emissiveFactor m) (m_name m).

Definition setBaseColor (mesh : positive) (c : Vec3) : M RState unit :=
  fun s =>
  Done tt
    (mkRState (alter (withColor c) mesh (meshes s))
       (rectMesh s) (circleMesh s) (verticesMeshes s) (tmpQuat s) (frame s)
       (built s)).

(** Modelled from the spec: [gpu.addFrameMeshInstance] and
    [StaticTransform] belong to the engine's renderer. The call
    [gpu.addFrameMeshInstance(mesh, new StaticTransform({...}))] submits a
    transient instance for the current frame; its transform takes the
    values the arguments have at the call. *)
Definition addFrameMeshInstance (mesh : positive) (pos : Vec3)
    (scale : option Vec3) : M RState unit :=
  fun s =>
  Done tt
    (mkRState (meshes s) (rectMesh s) (circleMesh s) (verticesMeshes s)
       (tmpQuat s)
       (frame s ++ [mkInstance mesh pos scale (tmpQuat s)]) (built s)).

(** [quat.identity(tmpQuat); quat.rotateZ(tmpQuat, tmpQuat, angle)] *)
Definition orient (a : R) : M RState unit :=
  fun s =>
  Done tt
    (mkRState (meshes s) (rectMesh s) (circleMesh s) (verticesMeshes s)
       (quat_rotateZ quat_identity a) (frame s) (built s)).

(** [velocity?.x || 0] *)
Definition orZero (o : option R) : R :=
  match o with
  | Some a => if Req_dec_T a 0 then 0 else a
  | None => 0
  end.

(** The colour of "Velocity-based color animation". *)
Definition velocityColor (b : Physics2DBody) : Vec3 :=
  let vx' := orZero (option_map vx (velocity (body b))) in
  let vy' := orZero (option_map vy (velocity (body b))) in
  let speed := magnitude (mkVec2 vx' vy') in
  let t := Rmin (speed / 10) 1.0 in
  mkVec3 t (1.0 - t) 0.2.

(** The factor of "Pulsing scale animation". *)
Definition pulse (time : R) : R := 1 + 0.05 * sin (time * 5).

(** The callback of [bodyQuery.forEach]. *)
Definition bodyCallback (time : R) (b : Physics2DBody) : M RState unit :=
  let pos := mkVec3 (vx (position (body b))) 0 (vy (position (body b))) in
  orient (angle (body b)) >>
  let color := velocityColor b in
  let pulse := pulse time in
  if String.eqb (type b) "rectangle" then
    do mesh <- (fun s => Done (rectMesh s) s);
    setBaseColor mesh color >>
    addFrameMeshInstance mesh pos
      (Some (mkVec3 (width b * pulse) 1 (height b * pulse)))
  else if String.eqb (type b) "circle" then
    do mesh <- (fun s => Done (circleMesh s) s);
    setBaseColor mesh color >>
    addFrameMeshInstance mesh pos
      (Some (mkVec3 (radius b * pulse) 1 (radius b * pulse)))
  else if String.eqb (type b) "fromVertices" then
    do mesh <- getOrCreateVerticesMesh b;
    setBaseColor mesh color >>
    addFrameMeshInstance mesh pos None
  else ret tt.

(** [execute(delta, time, gpu)]: [bodies] are the components the query
    matches, in store order. *)
Fixpoint execute (time : R) (bodies : list Physics2DBody) : M RState unit :=
  match bodies with
  | [] => ret tt
  | b :: rest => bodyCallback time b >> execute time rest
  end.

End Visualizer.

(** * Launch and speed floor in machine arithmetic

    A JavaScript number is an IEEE 754 binary64 number and every operation
    on numbers rounds to nearest, ties to even. gl-matrix makes a [vec3] a
    [Float32Array]: a store into it rounds the number once more, to
    binary32. The functions of [BallSystem] whose result depends on this
    are embedded here over [PrimFloat.float]. *)
Module Doubles.
Import PrimFloat.
#[local] Open Scope float_scope.

(** [Math.fround(x)], which is what [a[i] = x] keeps of [x] when [a] is a
    [Float32Array]: the binary32 number nearest to [x], ties to even. *)
Definition fround (x : float) : float :=
  match FloatOps.Prim2SF x with
  | SpecFloat.S754_finite s m e =>
    FloatOps.SF2Prim
      (SpecFloat.binary_normalize 24 128 (if s then Zneg m else Zpos m) e s)
  | _ => x
  end.

(** Three numbers: the elements of a [vec3] or of an array literal. *)
Record Vec3 : Type := mkVec3 { c0 : float; c1 : float; c2 : float }.

(** An object [{ x, y }] of Matter.js. *)
Record Vec2 : Type := mkVec2 { vx : float; vy : float }.

#[global] Instance Vec3_inhabited : Inhabited Vec3 := populate (mkVec3 0 0 0).

(** [Math.sqrt(a ** 2 + b ** 2)]; the square [a ** 2] is taken as the
    rounded product [a * a], which is what a correctly rounded power
    gives. *)
Definition magnitude (v : Vec2) : float :=
  sqrt (vx v * vx v + vy v * vy v).

Definition comp (v : Vec3) (i : idx) : float :=
  match i with I0 => c0 v | I1 => c1 v | I2 => c2 v end.

Definition setComp (v : Vec3) (i : idx) (a : float) : Vec3 :=
  match i with
  | I0 => mkVec3 a (c1 v) (c2 v)
  | I1 => mkVec3 (c0 v) a (c2 v)
  | I2 => mkVec3 (c0 v) (c1 v) a
  end.

(** [a[i]] *)
Definition rd (h : gmap positive Vec3) (a : positive) (i : idx) : float :=
  comp (h !!! a) i.

(** [out[i] = val], [out] a [Float32Array] *)
Definition wr (h : gmap positive Vec3) (out : positive) (i : idx) (val : float)
  : gmap positive Vec3 :=
  <[out := setComp (h !!! out) i (fround val)]> h.

(** Modelled from the spec: gl-matrix is an external library, the
    repository only calls it. [vec3.fromValues(x, y, z)] allocates a new
    [Float32Array] and stores the three numbers. *)
Definition vec3_fromValues (x y z : float) (h : gmap positive Vec3)
  : positive * gmap positive Vec3 :=
  let r := fresh (dom h) in (r, <[r := mkVec3 (fround x) (fround y) (fround z)]> h).

(** Modelled from the spec: [vec3.normalize(out, a)] of gl-matrix;
    [len > 0] is false for a zero and for a NaN. *)
Definition vec3_normalize (out a : positive) (h : gmap positive Vec3)
  : gmap positive Vec3 :=
  let x := rd h a I0 in
  let y := rd h a I1 in
  let z := rd h a I2 in
  let len := x * x + y * y + z * z in
  let len := if 0 <? len then 1 / sqrt len else len in
  let h := wr h out I0 (rd h a I0 * len) in
  let h := wr h out I1 (rd h a I1 * len) in
  wr h out I2 (rd h a I2 * len).

(** Modelled from the spec: [vec3.scale(out, a, b)] of gl-matrix. *)
Definition vec3_scale (out a : positive) (b : float) (h : gmap positive Vec3)
  : gmap positive Vec3 :=
  let h := wr h out I0 (rd h a I0 * b) in
  let h := wr h out I1 (rd h a I1 * b) in
  wr h out I2 (rd h a I2 * b).

(** [class Ball] with its field initialisers. *)
Record Ball : Type := mkBall {
  waitingForLaunch : bool;
  speed : float;
  glowIntensity : float;
  color : Vec3
}.

Definition new_Ball : Ball := mkBall true 0.5 45 (mkVec3 0 0.5 1).

Record MatterBody : Type := mkMatterBody {
  position : Vec2;
  velocity : Vec2
}.

(** Modelled from the spec: the position and velocity setters of the
    external physics engine. *)
Definition Body_setPosition (b : MatterBody) (p : Vec2) : MatterBody :=
  mkMatterBody p (velocity b).

Definition Body_setVelocity (b : MatterBody) (v : Vec2) : MatterBody :=
  mkMatterBody (position b) v.

(** [launchBall(ball, body, direction)] *)
Definition launchBall (ball : Ball) (body : MatterBody) (direction : positive)
    (h : gmap positive Vec3) : Ball * MatterBody * gmap positive Vec3 :=
  let h := vec3_normalize direction direction h in
  let h := vec3_scale direction direction (speed ball) h in
  let body := Body_setVelocity body (mkVec2 (rd h direction I0) (rd h direction I2)) in
  (mkBall false (speed ball) (glowIntensity ball) (color ball), body, h).

(** The speed floor of the per-ball callback ("Maintain constant speed"):
    [speed !== 0 && speed < ball.speed]. *)
Definition maintainSpeed (ball : Ball) (body : MatterBody) : MatterBody :=
  let speed' := magnitude (velocity body) in
  if negb (speed' =? 0) && (speed' <? speed ball) then
    let scaleFactor := speed ball / speed' in
    Body_setVelocity body
      (mkVec2 (vx (velocity body) * scaleFactor) (vy (velocity body) * scaleFactor))
  else body.

(** The fields of [Paddle] the system reads. *)
Record Paddle : Type := mkPaddle { px : float; launch : bool }.

(** The three arguments of [vec3.fromValues] at a launch from the paddle,
    [random] being the value of [Math.random()]. *)
Definition launchDirection (random : float) : Vec3 :=
  mkVec3 ((random * 2.0 - 1.0) * 0.5) 0 (-1.5).

(** "Position ball on paddle before launch", with the counter of waiting
    balls. *)
Definition positionOnPaddle (paddleState : option Paddle) (random : float)
    (ball : Ball) (b : MatterBody) (waitingBallCount : nat)
  : Ball * MatterBody * nat :=
  if waitingForLaunch ball then
    match paddleState with
    | Some paddle =>
      let b := Body_setPosition b (mkVec2 (px paddle) 23) in
      if launch paddle then
        let d := launchDirection random in
        let '(direction, h) := vec3_fromValues (c0 d) (c1 d) (c2 d) ∅ in
        let '(ball, b, _) := launchBall ball b direction h in
        (ball, b, waitingBallCount)
      else (ball, b, S waitingBallCount)
    | None => (ball, b, waitingBallCount)
    end
  else (ball, b, waitingBallCount).

(** The factor [vec3.normalize] multiplies by. *)
Definition normFactor (v : Vec3) : float :=
  let len := c0 v * c0 v + c1 v * c1 v + c2 v * c2 v in
  if 0 <? len then 1 / sqrt len else len.

(** What a [Float32Array] holding [v] holds once it has been normalised
    and scaled by [b] in place: each element is multiplied by the factor
    and stored, then multiplied by [b] and stored. *)
Definition launched (v : Vec3) (b : float) : Vec3 :=
  mkVec3 (fround (fround (c0 v * normFactor v) * b))
         (fround (fround (c1 v * normFactor v) * b))
         (fround (fround (c2 v * normFactor v) * b)).

End Doubles.

(** * Notions used to state the properties *)

(** The factor [vec3.normalize] multiplies by. *)
Definition normFactor (v : Vec3) : R :=
  let len := c0 v * c0 v + c1 v * c1 v + c2 v * c2 v in
  if Rlt_dec 0 len then 1 / sqrt len else len.

(** [v] multiplied by the scalar [k]. *)
Definition scaled (v : Vec3) (k : R) : Vec3 :=
  mkVec3 (c0 v * k) (c1 v * k) (c2 v * k).

(** Whether [ballQuery] matches an entity. *)
Definition inBallQuery (e : BallSystem.Entity) : bool :=
  match BallSystem.e_ball e, BallSystem.e_body e, BallSystem.e_transform e with
  | Some _, Some _, Some _ => true
  | _, _, _ => false
  end.

(** Whether the entity's depth coordinate is beyond the loss threshold. *)
Definition beyondLoss (e : BallSystem.Entity) : bool :=
  match BallSystem.e_transform e with
  | Some t => if Rlt_dec 30 (c2 t) then true else false
  | None => false
  end.

(** The balls of the store the loss check counts alive. *)
Fixpoint aliveBalls (es : list BallSystem.Entity) : nat :=
  match es with
  | [] => 0%nat
  | e :: es' =>
    if inBallQuery e && negb (beyondLoss e) then S (aliveBalls es')
    else aliveBalls es'
  end.

(** Whether some ball of the store is beyond the loss threshold. *)
Fixpoint anyLost (es : list BallSystem.Entity) : bool :=
  match es with
  | [] => false
  | e :: es' => (inBallQuery e && beyondLoss e) || anyLost es'
  end.

(** The ball the bonus pass makes for a request at [transform], from the
    two [Math.random()] values [r1] and [r2], at level [lvl]. *)
Definition bonusBallFor (lvl : Z) (castShadow : bool) (r1 r2 : R)
    (transform : Vec3) : BallSystem.Entity :=
  let speed := 0.5 + IZR lvl * 0.04 in
  let d := mkVec3 (r1 * 2.0 - 1.0) 0 (- (r2 * 2.0 - 1.0)) in
  let v := scaled (scaled d (normFactor d)) speed in
  BallSystem.mkEntity
    (Some (BallSystem.mkBall false speed 45 (mkVec3 0.0 0.5 1.0)))
    (Some (BallSystem.mkPhysics2DBody "circle" 0.8 0 1 0
             (BallSystem.mkMatterBody (mkVec2 (c0 transform) (c2 transform))
                (mkVec2 (c0 v) (c2 v)))))
    (Some (mkVec3 (c0 transform) 1 (c2 transform)))
    (Some (BallSystem.mkPointLight (mkVec3 1.0 0.4 0.2) 60 30))
    None false false (Some 1%Z) (if castShadow then true else false)
    "The Ball".

(** The balls the bonus pass makes for [requests], the first [Math.random()]
    call being the [n]-th. *)
Fixpoint bonusBalls (lvl : Z) (castShadow : bool) (rnd : nat -> R) (n : nat)
    (requests : list Vec3) : list BallSystem.Entity :=
  match requests with
  | [] => []
  | transform :: rest =>
    bonusBallFor lvl castShadow (rnd n) (rnd (S n)) transform
    :: bonusBalls lvl castShadow rnd (S (S n)) rest
  end.

(** What every step after the ball loop leaves alone, up to [lives]: the
    flag of the loaded asset, the tag calls, the level, and the entities
    that exist (new ones come after them). *)
Definition keeps (s s' : BallSystem.State) : Prop :=
  BallSystem.ballScene s' = BallSystem.ballScene s
  /\ BallSystem.tagged s' = BallSystem.tagged s
  /\ BallSystem.level (BallSystem.gameState s')
     = BallSystem.level (BallSystem.gameState s)
  /\ BallSystem.levelStarting (BallSystem.gameState s')
     = BallSystem.levelStarting (BallSystem.gameState s)
  /\ BallSystem.entities s `prefix_of` BallSystem.entities s'.

(** *** States used as examples *)

(** No entity at all, three lives, the level under way, the asset loaded. *)
Definition noPaddleState : BallSystem.State :=
  BallSystem.mkState [] (BallSystem.mkGameState 3 0 false) true 0 [].

Definition paddleEntity : BallSystem.Entity :=
  BallSystem.mkEntity None None None None
    (Some (BallSystem.mkPaddle 2 false)) false false None false "".

(** A bonus request as [bonusQuery] matches it: a transform, the
    [BonusBall] tag and the dead tag. *)
Definition requestEntity : BallSystem.Entity :=
  BallSystem.mkEntity None None (Some (mkVec3 5 7 10)) None None true true None
    false "".

(** A paddle and a bonus request, before the ball asset has loaded. *)
Definition notLoadedState : BallSystem.State :=
  BallSystem.mkState [paddleEntity; requestEntity]
    (BallSystem.mkGameState 3 0 false) false 0 [].

(** A paddle and a bonus request while the level starts, asset loaded. *)
Definition requestState : BallSystem.State :=
  BallSystem.mkState [paddleEntity; requestEntity]
    (BallSystem.mkGameState 3 0 true) true 0 [].

(** A ball in flight at depth [depth], with its light. *)
Definition ballAt (depth : R) : BallSystem.Entity :=
  BallSystem.mkEntity
    (Some (BallSystem.mkBall false 0.5 45 (mkVec3 0.0 0.5 1.0)))
    (Some (BallSystem.mkPhysics2DBody "circle" 0.8 0 1 0
             (BallSystem.mkMatterBody (mkVec2 0 depth) (mkVec2 0 0.5))))
    (Some (mkVec3 0 1 depth))
    (Some (BallSystem.mkPointLight (mkVec3 0.0 0.5 1.0) 45 30))
    None false false (Some 1%Z) false "The Ball".

(** A paddle and one ball at depth [depth], three lives. *)
Definition oneBallState (depth : R) : BallSystem.State :=
  BallSystem.mkState [paddleEntity; ballAt depth]
    (BallSystem.mkGameState 3 0 false) true 0 [].

(** *** Notions for the debug visualisation *)

Section VisualizerNotions.
Import Visualizer.

(** Which mesh object a body is drawn with: one of the two shared ones, or
    the outline mesh of the body itself. *)
Inductive Key : Type := KRect | KCircle | KVerts (b : positive).

#[global] Instance Key_eq_dec : EqDecision Key.
Proof. solve_decision. Defined.

(** The [switch (body.type)], as the mesh it selects; [None] when no case
    matches. *)
Definition keyOf (b : Physics2DBody) : option Key :=
  if String.eqb (type b) "rectangle" then Some KRect
  else if String.eqb (type b) "circle" then Some KCircle
  else if String.eqb (type b) "fromVertices" then Some (KVerts (ident b))
  else None.

Definition meshOf (s : RState) (k : Key) : option positive :=
  match k with
  | KRect => Some (rectMesh s)
  | KCircle => Some (circleMesh s)
  | KVerts b => verticesMeshes s !! b
  end.

(** The mesh objects in use are distinct objects of the mesh store. *)
Definition wellFormed (s : RState) : Prop :=
  (forall k m, meshOf s k = Some m -> is_Some (meshes s !! m))
  /\ (forall k1 k2 m, meshOf s k1 = Some m -> meshOf s k2 = Some m -> k1 = k2).

(** The position, scale and orientation a body is submitted with. *)
Definition positionOf (b : Physics2DBody) : Vec3 :=
  mkVec3 (vx (position (body b))) 0 (vy (position (body b))).

Definition orientationOf (b : Physics2DBody) : Quat :=
  quat_rotateZ quat_identity (angle (body b)).

Definition scaleOf (time : R) (b : Physics2DBody) : option Vec3 :=
  match keyOf b with
  | Some KRect => Some (mkVec3 (width b * pulse time) 1 (height b * pulse time))
  | Some KCircle => Some (mkVec3 (radius b * pulse time) 1 (radius b * pulse time))
  | _ => None
  end.

(** The colour the material of the mesh [k] holds once the pass over
    [bodies] has ended: the one of the last body drawn with it, if any. *)
Fixpoint lastColor (bodies : list Physics2DBody) (k : Key) : option Vec3 :=
  match bodies with
  | [] => None
  | b :: rest =>
    match lastColor rest k with
    | Some c => Some c
    | None => if decide (keyOf b = Some k) then Some (velocityColor b) else None
    end
  end.

(** The parameters of a draw instance: where, how turned, how scaled, and
    in which colour. *)
Record Params : Type := mkParams {
  p_position : Vec3;
  p_orientation : Quat;
  p_scale : option Vec3;
  p_color : Vec3
}.

(** The parameters of an instance, the colour being the one its mesh's
    material holds in state [s]. *)
Definition paramsOf (s : RState) (i : Instance) : Params :=
  mkParams (i_position i) (i_orientation i) (i_scale i)
    (baseColorFactor (meshes s !!! i_mesh i)).

(** The instances a pass from [s] to [s'] has submitted. *)
Definition submitted (s s' : RState) : list Instance :=
  drop (length (frame s)) (frame s').

(** The bodies a pass from [s] to [s'] has built an outline mesh for. *)
Definition builtIn (s s' : RState) : list positive :=
  drop (length (built s)) (built s').

(** The parameters a pass over [bodies] at [time] is to submit, from the
    bodies and the time alone; [all] is the whole list of the pass. *)
Definition expectedOf (time : R) (all : list Physics2DBody)
    (b : Physics2DBody) : option Params :=
  match keyOf b with
  | Some k =>
    match lastColor all k with
    | Some c => Some (mkParams (positionOf b) (orientationOf b) (scaleOf time b) c)
    | None => None
    end
  | None => None
  end.

Definition expected (time : R) (bodies : list Physics2DBody) : list Params :=
  omap (expectedOf time bodies) bodies.

(** The instances of a pass over [bodies], with the meshes of state [s]. *)
Definition instanceOf (time : R) (s : RState) (b : Physics2DBody)
  : option Instance :=
  match keyOf b with
  | Some k =>
    match meshOf s k with
    | Some m => Some (mkInstance m (positionOf b) (scaleOf time b) (orientationOf b))
    | None => None
    end
  | None => None
  end.

(** The build observer agrees with the cache and holds no body twice. *)
Definition cacheInv (s : RState) : Prop :=
  NoDup (built s)
  /\ (forall b : positive, b ∈ built s <-> is_Some (verticesMeshes s !! b)).

(** Frame after frame: each pass starts from the state the previous one
    ended in, raised or not. *)
Fixpoint runFrames (frames : list (R * list Physics2DBody)) (s : RState)
  : RState :=
  match frames with
  | [] => s
  | (time, bodies) :: rest =>
    runFrames rest (finalState (execute time bodies s))
  end.

End VisualizerNotions.

(** *** Bodies used as examples *)

Definition rectBody : Visualizer.Physics2DBody :=
  Visualizer.mkPhysics2DBody 5 "rectangle" 4 2 0
    (Visualizer.mkMatterBody (mkVec2 1 2) 0 (Some (mkVec2 3 4))
       [mkVec2 (-1) 1; mkVec2 3 1; mkVec2 3 3; mkVec2 (-1) 3]).

Definition triangleBody : Visualizer.Physics2DBody :=
  Visualizer.mkPhysics2DBody 7 "fromVertices" 0 0 0
    (Visualizer.mkMatterBody (mkVec2 0 0) 0 None
       [mkVec2 0 1; mkVec2 1 (-1); mkVec2 (-1) (-1)]).

(** *** Notions for the properties beyond the claims *)

(** The transform under which an entity is a bonus request once the ball
    loop has run: it carries [BonusBall] and a transform, and it is tagged
    dead, from before or by the loss check of this very tick. *)
Definition requestAfter (e : BallSystem.Entity) : option Vec3 :=
  if BallSystem.e_bonusBall e
     && (BallSystem.e_dead e || (inBallQuery e && beyondLoss e))
  then BallSystem.e_transform e else None.

(** The ball a spawn without direction makes at [position], at level
    [lvl]. *)
Definition waitingBallAt (lvl : Z) (castShadow : bool) (position : Vec3)
  : BallSystem.Entity :=
  BallSystem.mkEntity
    (Some (BallSystem.mkBall true (0.5 + IZR lvl * 0.04) 45 (mkVec3 0.0 0.5 1.0)))
    (Some (BallSystem.mkPhysics2DBody "circle" 0.8 0 1 0
             (BallSystem.mkMatterBody (mkVec2 (c0 position) (c2 position))
                (mkVec2 0 0))))
    (Some position)
    (Some (BallSystem.mkPointLight (mkVec3 0.0 0.5 1.0) 45 30))
    None false false (Some 1%Z) (if castShadow then true else false)
    "The Ball".

(** A line strip in the ground plane whose draw count is its number of
    vertices; the ring has 17 of them, and every other mesh ends on the
    vertex it starts from. Whether the ring does depends on what the
    machine makes of the sine and cosine of a full turn, which is not
    compared here. *)
Definition groundStrip (mesh : Visualizer.Mesh) : Prop :=
  Visualizer.m_drawCount mesh = length (Visualizer.m_vertices mesh)
  /\ Visualizer.m_topology mesh = "line-strip"
  /\ Forall (fun v => c1 v = 0) (Visualizer.m_vertices mesh)
  /\ (Visualizer.m_name mesh = "Physics 2D Circle Visualization Mesh" ->
      length (Visualizer.m_vertices mesh) = 17%nat)
  /\ (Visualizer.m_name mesh <> "Physics 2D Circle Visualization Mesh" ->
      head (Visualizer.m_vertices mesh) = last (Visualizer.m_vertices mesh)).

(** A store with a paddle and nothing else. *)
Definition paddleOnlyState : BallSystem.State :=
  BallSystem.mkState [paddleEntity] (BallSystem.mkGameState 3 0 false) true 0 [].

(** * The vector store *)

Section VectorStore.

Implicit Types (h : gmap positive Vec3) (d r : positive) (v : Vec3).


Lemma rd_wr_same h d i a : rd (wr h d i a) d i = a.
Proof. unfold rd, wr. rewrite lookup_total_insert_eq. by destruct i. Qed.

Lemma rd_wr_other h d i j a : i <> j -> rd (wr h d i a) d j = rd h d j.
Proof.
  intros Hij. unfold rd, wr. rewrite lookup_total_insert_eq.
  by destruct i, j.
Qed.

Lemma wr_frame h d r i a : r <> d -> wr h d i a !! r = h !! r.
Proof. intros Hr. unfold wr. by rewrite lookup_insert_ne. Qed.

(** Writing the three components of [d] in turn, each computed from the
    component it replaces, is one update of the whole vector: reading and
    writing the same array is harmless here. *)
Lemma wr3_in_place h d (f : R -> R) :
  wr (wr (wr h d I0 (f (rd h d I0))) d I1
        (f (rd (wr h d I0 (f (rd h d I0))) d I1))) d I2
     (f (rd (wr (wr h d I0 (f (rd h d I0))) d I1
               (f (rd (wr h d I0 (f (rd h d I0))) d I1))) d I2))
  = <[d := mkVec3 (f (c0 (h !!! d))) (f (c1 (h !!! d))) (f (c2 (h !!! d)))]> h.
Proof.
  unfold wr, rd. rewrite !lookup_total_insert_eq, !insert_insert_eq. simpl.
  reflexivity.
Qed.

Lemma vec3_normalize_in_place h d :
  vec3_normalize d d h = <[d := scaled (h !!! d) (normFactor (h !!! d))]> h.
Proof.
  unfold vec3_normalize.
  set (len := if Rlt_dec 0 _ then _ else _).
  assert (Hlen : len = normFactor (h !!! d)) by reflexivity.
  rewrite (wr3_in_place h d (fun a => a * len)). by rewrite Hlen.
Qed.

Lemma vec3_scale_in_place h d k :
  vec3_scale d d k h = <[d := scaled (h !!! d) k]> h.
Proof. unfold vec3_scale. by rewrite (wr3_in_place h d (fun a => a * k)). Qed.

Lemma normFactor_nonzero v :
  v <> mkVec3 0 0 0 -> 0 < norm3 v /\ normFactor v = 1 / norm3 v.
Proof.
  intros Hv. unfold normFactor, norm3.
  assert (Hpos : 0 < c0 v * c0 v + c1 v * c1 v + c2 v * c2 v).
  { destruct v as [a b c]; simpl in *.
    destruct (Req_dec_T a 0) as [->|Ha]; [|nra].
    destruct (Req_dec_T b 0) as [->|Hb]; [|nra].
    destruct (Req_dec_T c 0) as [->|Hc]; [|nra].
    by destruct Hv. }
  replace (c0 v ^ 2 + c1 v ^ 2 + c2 v ^ 2)
    with (c0 v * c0 v + c1 v * c1 v + c2 v * c2 v) by ring.
  split; [by apply sqrt_lt_R0|].
  by destruct (Rlt_dec 0 _).
Qed.

End VectorStore.

(** * Launching a ball *)

Section Launch.
Import BallSystem.

Implicit Types (ball : Ball) (b : MatterBody) (h : gmap positive Vec3).

Lemma magnitude_nonneg (v : Vec2) : 0 <= magnitude v.
Proof. apply sqrt_pos. Qed.


Lemma magnitude_zero_iff (v : Vec2) : magnitude v = 0 <-> v = mkVec2 0 0.
Proof.
  destruct v as [x y]. unfold magnitude. cbn [vx vy]. split.
  - intros H0. apply sqrt_eq_0 in H0; [|nra].
    assert (x = 0) by nra. assert (y = 0) by nra. by subst.
  - intros [= -> ->]. replace (0 ^ 2 + 0 ^ 2) with 0 by ring. apply sqrt_0.
Qed.

(** [launchBall] in one step: the array behind [direction] is overwritten
    with its normalised, scaled value, and the body takes components 0 and
    2 of the overwritten array. *)
Lemma launchBall_unfold ball b d h :
  let v' := scaled (scaled (h !!! d) (normFactor (h !!! d))) (speed ball) in
  launchBall ball b d h =
  (mkBall false (speed ball) (glowIntensity ball) (color ball),
   Body_setVelocity b (mkVec2 (c0 v') (c2 v')),
   <[d := v']> h).
Proof.
  unfold launchBall.
  rewrite vec3_normalize_in_place, vec3_scale_in_place.
  rewrite lookup_total_insert_eq, insert_insert_eq.
  unfold rd. rewrite lookup_total_insert_eq. reflexivity.
Qed.


End Launch.

Section MachineLaunch.
Import PrimFloat Doubles.

Implicit Types (ball : Ball) (b : MatterBody) (h : gmap positive Vec3)
  (d r : positive).

(** Writing the three elements of [d] in turn, each computed from the
    element it replaces: every element is rounded as it is stored, and
    reading and writing the same array is harmless. *)
Lemma doubles_wr3_in_place h d (f : float -> float) :
  wr (wr (wr h d I0 (f (rd h d I0))) d I1
        (f (rd (wr h d I0 (f (rd h d I0))) d I1))) d I2
     (f (rd (wr (wr h d I0 (f (rd h d I0))) d I1
               (f (rd (wr h d I0 (f (rd h d I0))) d I1))) d I2))
  = <[d := mkVec3 (fround (f (c0 (h !!! d)))) (fround (f (c1 (h !!! d))))
            (fround (f (c2 (h !!! d))))]> h.
Proof.
  unfold wr, rd. rewrite !lookup_total_insert_eq, !insert_insert_eq.
  cbn [comp setComp c0 c1 c2]. reflexivity.
Qed.

(** [launchBall] on binary64 numbers in one step: the array behind
    [direction] is overwritten, and the body takes elements 0 and 2 of the
    overwritten array. *)
Lemma doubles_launchBall_unfold ball b d h :
  launchBall ball b d h =
  (mkBall false (speed ball) (glowIntensity ball) (color ball),
   mkMatterBody (position b)
     (mkVec2 (c0 (launched (h !!! d) (speed ball)))
        (c2 (launched (h !!! d) (speed ball)))),
   <[d := launched (h !!! d) (speed ball)]> h).
Proof.
  unfold launchBall, vec3_normalize, vec3_scale.
  set (len := if (0 <? _)%float then _ else _).
  assert (Hlen : len = normFactor (h !!! d)) by reflexivity.
  rewrite (doubles_wr3_in_place h d (fun a => (a * len)%float)).
  rewrite (doubles_wr3_in_place _ d (fun a => (a * speed ball)%float)).
  rewrite lookup_total_insert_eq, insert_insert_eq. cbn [c0 c1 c2].
  unfold rd. rewrite lookup_total_insert_eq. cbn [comp c0 c2].
  unfold launched, Body_setVelocity. by rewrite Hlen.
Qed.





End MachineLaunch.

Section ExactLaunch.
Import BallSystem.

Implicit Types (ball : Ball) (b : MatterBody) (h : gmap positive Vec3).

(** [launchBall] in exact arithmetic, on a direction that is not zero:
    the array holds the original value divided by its length and
    multiplied by [ball.speed], which is the original value exactly when
    that length is [ball.speed]. *)
Lemma launchBall_exact ball b (d : positive) h :
  h !!! d <> mkVec3 0 0 0 ->
  let v := h !!! d in
  let '(ball', b', h') := launchBall ball b d h in
  h' !!! d = mkVec3 (c0 v / norm3 v * speed ball) (c1 v / norm3 v * speed ball)
               (c2 v / norm3 v * speed ball)
  /\ (h' !!! d = v <-> norm3 v = speed ball)
  /\ velocity b' = mkVec2 (c0 (h' !!! d)) (c2 (h' !!! d))
  /\ (forall r : positive, r <> d -> h' !! r = h !! r)
  /\ position b' = position b
  /\ waitingForLaunch ball' = false.
Proof.
  intros Hv v.
  pose proof (launchBall_unfold ball b d h) as Hl. cbv zeta in Hl. rewrite Hl.
  rewrite lookup_total_insert_eq. fold v.
  destruct (normFactor_nonzero v Hv) as [Hn Hf]. rewrite Hf.
  assert (Heq : scaled (scaled v (1 / norm3 v)) (speed ball) =
                mkVec3 (c0 v / norm3 v * speed ball) (c1 v / norm3 v * speed ball)
                  (c2 v / norm3 v * speed ball)).
  { unfold scaled. cbn [c0 c1 c2]. f_equal; field; lra. }
  rewrite Heq. change (v <> mkVec3 0 0 0) in Hv. clear Hl Heq Hf. clearbody v.
  split; [reflexivity|]. split; [|split; [reflexivity|split; [|by split]]].
  - split.
    + intros Hsame.
      assert (Hk : forall a : R, a / norm3 v * speed ball = a -> a <> 0 ->
                                 norm3 v = speed ball).
      { intros a Ha Ha0.
        assert (a * speed ball = a * norm3 v)
          by (apply (f_equal (fun t => t * norm3 v)) in Ha;
              field_simplify in Ha; lra).
        nra. }
      destruct v as [x y z]. cbn [c0 c1 c2] in *. injection Hsame as Hx Hy Hz.
      destruct (Req_dec_T x 0) as [->|Hx0]; [|by apply (Hk x)].
      destruct (Req_dec_T y 0) as [->|Hy0]; [|by apply (Hk y)].
      destruct (Req_dec_T z 0) as [->|Hz0]; [|by apply (Hk z)].
      by destruct Hv.
    + intros <-. destruct v as [x y z]. cbn [c0 c1 c2] in *.
      f_equal; field; lra.
  - intros r Hr. by rewrite lookup_insert_ne.
Qed.



End ExactLaunch.

Section LaunchClaims.
Import PrimFloat.

(** The claim C10 fails where it says that the array is not left
    unchanged and that it equals the scaled normalisation. The direction
    [[0.5, 0, 0]] handed to [launchBall] with a ball of speed 0.5 is
    normalised to [[1, 0, 0]] and scaled back to [[0.5, 0, 0]]: the
    caller's array is left as it was, on the numbers of the machine and in
    exact arithmetic alike. And where the array does change, it holds
    rounded numbers: from [[3, 0, -4]] at speed 0.5 it holds the binary32
    neighbours of 0.3 and -0.4, which are neither 0.3 and -0.4 nor their
    binary64 neighbours. *)
Lemma C10_direction_may_be_left_unchanged :
  (let h := {[1%positive := Doubles.mkVec3 0.5 0 0]} in
   let '(_, _, h') :=
     Doubles.launchBall Doubles.new_Ball
       (Doubles.mkMatterBody (Doubles.mkVec2 0 0) (Doubles.mkVec2 0 0)) 1 h in
   h' !!! 1%positive = h !!! 1%positive)
  /\ (let h := {[1%positive := Doubles.mkVec3 3 0 (-4)]} in
      let '(_, b', h') :=
        Doubles.launchBall Doubles.new_Ball
          (Doubles.mkMatterBody (Doubles.mkVec2 0 0) (Doubles.mkVec2 0 0)) 1 h in
      h' !!! 1%positive
      = Doubles.mkVec3 0x1.333334p-2 0 (-0x1.99999ap-2)
      /\ (Doubles.c0 (h' !!! 1%positive) =? 3 / 5 * 0.5)%float = false
      /\ Doubles.velocity b' = Doubles.mkVec2 0x1.333334p-2 (-0x1.99999ap-2))
  /\ (let h := {[1%positive := mkVec3 0.5 0 0]} in
      let '(_, _, h') :=
        BallSystem.launchBall BallSystem.new_Ball
          (BallSystem.mkMatterBody (mkVec2 0 0) (mkVec2 0 0)) 1 h in
      h !!! 1%positive <> mkVec3 0 0 0 /\ h' !!! 1%positive = h !!! 1%positive).
Proof.
  split; [|split]; cbv zeta.
  - rewrite doubles_launchBall_unfold.
    rewrite !lookup_total_insert_eq, !lookup_total_singleton_eq. reflexivity.
  - rewrite doubles_launchBall_unfold.
    rewrite !lookup_total_insert_eq, !lookup_total_singleton_eq.
    by repeat split.
  - assert (Hv : ({[1%positive := mkVec3 0.5 0 0]} : gmap positive Vec3) !!! 1%positive
                 <> mkVec3 0 0 0).
    { rewrite lookup_total_singleton_eq. intros [= H5]. lra. }
    pose proof (launchBall_exact BallSystem.new_Ball
                  (BallSystem.mkMatterBody (mkVec2 0 0) (mkVec2 0 0)) 1%positive _ Hv)
      as H.
    cbv zeta in H.
    destruct (BallSystem.launchBall _ _ _ _) as [[ball' b'] h'].
    split; [exact Hv|]. apply (proj1 (proj2 H)).
    rewrite lookup_total_singleton_eq. unfold norm3. cbn [c0 c1 c2 BallSystem.speed
      BallSystem.new_Ball].
    replace (0.5 ^ 2 + 0 ^ 2 + 0 ^ 2) with (0.5 ^ 2) by ring.
    apply sqrt_pow2. lra.
Qed.

(** C10, amended: [launchBall] overwrites its [direction] argument in
    place. After the call the caller's array holds, element by element,
    the original number multiplied by the normalisation factor and stored,
    then multiplied by [ball.speed] and stored, each store rounding to
    binary32; the velocity of the body is made of elements 0 and 2 of the
    array as it then stands; no other array is touched, nor the position of
    the body; the ball is no longer waiting. In exact arithmetic, for a
    direction that is not zero, what the array holds is the original value
    divided by its length and multiplied by [ball.speed], and this is the
    original value exactly when that length is [ball.speed]. *)
Theorem C10_launchBall_mutates_direction :
  (forall (ball : Doubles.Ball) (b : Doubles.MatterBody) (d : positive)
          (h : gmap positive Doubles.Vec3),
      let v' := Doubles.launched (h !!! d) (Doubles.speed ball) in
      Doubles.launchBall ball b d h =
      (Doubles.mkBall false (Doubles.speed ball) (Doubles.glowIntensity ball)
         (Doubles.color ball),
       Doubles.mkMatterBody (Doubles.position b)
         (Doubles.mkVec2 (Doubles.c0 v') (Doubles.c2 v')),
       <[d := v']> h))
  /\ (forall (ball : Doubles.Ball) (b : Doubles.MatterBody) (d : positive)
             (h : gmap positive Doubles.Vec3),
        let '(ball', b', h') := Doubles.launchBall ball b d h in
        Doubles.velocity b'
        = Doubles.mkVec2 (Doubles.c0 (h' !!! d)) (Doubles.c2 (h' !!! d))
        /\ (forall r : positive, r <> d -> h' !! r = h !! r)
        /\ Doubles.position b' = Doubles.position b
        /\ Doubles.waitingForLaunch ball' = false)
  /\ (forall (ball : BallSystem.Ball) (b : BallSystem.MatterBody) (d : positive)
             (h : gmap positive Vec3),
        h !!! d <> mkVec3 0 0 0 ->
        let v := h !!! d in
        let '(ball', b', h') := BallSystem.launchBall ball b d h in
        h' !!! d = mkVec3 (c0 v / norm3 v * BallSystem.speed ball)
                     (c1 v / norm3 v * BallSystem.speed ball)
                     (c2 v / norm3 v * BallSystem.speed ball)
        /\ (h' !!! d = v <-> norm3 v = BallSystem.speed ball)
        /\ BallSystem.velocity b' = mkVec2 (c0 (h' !!! d)) (c2 (h' !!! d))
        /\ (forall r : positive, r <> d -> h' !! r = h !! r)
        /\ BallSystem.position b' = BallSystem.position b
        /\ BallSystem.waitingForLaunch ball' = false).
Proof.
  split; [|split].
  - intros ball b d h. cbv zeta. apply doubles_launchBall_unfold.
  - intros ball b d h. rewrite doubles_launchBall_unfold.
    rewrite lookup_total_insert_eq. split; [reflexivity|].
    split; [|by split]. intros r Hr. by rewrite lookup_insert_ne.
  - intros ball b d h. apply launchBall_exact.
Qed.

Lemma C10_launchBall_mutates_direction_witness :
  let '(_, b', h') :=
    BallSystem.launchBall BallSystem.new_Ball
      (BallSystem.mkMatterBody (mkVec2 0 0) (mkVec2 0 0)) 1
      {[1%positive := mkVec3 3 0 (-4)]} in
  BallSystem.velocity b' = mkVec2 (c0 (h' !!! 1%positive)) (c2 (h' !!! 1%positive)).
Proof.
  assert (Hv : ({[1%positive := mkVec3 3 0 (-4)]} : gmap positive Vec3) !!! 1%positive
               <> mkVec3 0 0 0).
  { rewrite lookup_total_singleton_eq. intros [= H3 _]. lra. }
  pose proof (proj2 (proj2 C10_launchBall_mutates_direction) BallSystem.new_Ball
                (BallSystem.mkMatterBody (mkVec2 0 0) (mkVec2 0 0)) 1%positive _ Hv)
    as H.
  cbv zeta in H.
  destruct (BallSystem.launchBall _ _ _ _) as [[ball' b'] h'].
  exact (proj1 (proj2 (proj2 H))).
Defined.







End LaunchClaims.

(** * One tick of the ball system *)

Section Tick.
Import BallSystem.

Implicit Types (s : State) (es : list Entity) (loc : Locals).

Lemma keeps_refl s : keeps s s.
Proof. by repeat split. Qed.

Lemma keeps_trans s1 s2 s3 : keeps s1 s2 -> keeps s2 s3 -> keeps s1 s3.
Proof.
  intros (?&?&?&?&?) (?&?&?&?&?). repeat split; try congruence.
  by etrans.
Qed.

Lemma finalState_bind {St A B : Type} (m : M St A) (f : A -> M St B) (st : St) :
  finalState (bind m f st) =
  match m st with
  | Done a s' => finalState (f a s')
  | Threw s' => s'
  end.
Proof. unfold bind. by destruct (m st). Qed.

(** Before the asset is loaded [spawnBall] returns [undefined] and changes
    nothing. *)
Lemma spawnBall_not_loaded position velocity castShadow h s :
  ballScene s = false ->
  spawnBall position velocity castShadow h s = Done (None, h) s.
Proof. intros Hb. unfold spawnBall. by rewrite Hb. Qed.

(** Once it is loaded, a spawn without direction appends a waiting ball
    at rest. *)
Lemma spawnBall_waiting position castShadow h s :
  ballScene s = true ->
  spawnBall position None castShadow h s =
  Done (Some (length (entities s)), h)
    (mkState
       (entities s ++
        [mkEntity
           (Some (mkBall true (0.5 + IZR (level (gameState s)) * 0.04) 45
                    (mkVec3 0.0 0.5 1.0)))
           (Some (mkPhysics2DBody "circle" 0.8 0 1 0
                    (mkMatterBody (mkVec2 (c0 position) (c2 position))
                       (mkVec2 0 0))))
           (Some position)
           (Some (mkPointLight (mkVec3 0.0 0.5 1.0) 45 30))
           None false false (Some 1%Z) (if castShadow then true else false)
    "The Ball"])
       (gameState s) (ballScene s) (drawn s) (tagged s)).
Proof. intros Hb. unfold spawnBall. by rewrite Hb. Qed.

Lemma spawnBall_keeps position velocity castShadow h s :
  exists r s', spawnBall position velocity castShadow h s = Done r s'
               /\ keeps s s' /\ gameState s' = gameState s
               /\ drawn s' = drawn s.
Proof.
  unfold spawnBall. destruct (ballScene s) eqn:Hb; simpl.
  - destruct velocity as [d|].
    + destruct (launchBall _ _ d h) as [[ballState b] h'].
      eexists _, _. split; [reflexivity|]. repeat split; try done.
      by apply prefix_app_r.
    + eexists _, _. split; [reflexivity|]. repeat split; try done.
      by apply prefix_app_r.
  - eexists _, _. split; [reflexivity|]. repeat split; done.
Qed.

Lemma alter_at_end {A : Type} (f : A -> A) (l : list A) (x : A) :
  alter f (length l) (l ++ [x]) = l ++ [f x].
Proof. induction l as [|a l IH]; [done|]. simpl. by f_equal. Qed.

(** With the asset loaded, the bonus callback appends one launched ball
    with the fiery light and calls no [add]. *)
Lemma bonusCallback_loaded flags rnd transform s :
  ballScene s = true ->
  bonusCallback flags rnd transform s =
  Done tt
    (mkState
       (entities s ++
        [bonusBallFor (level (gameState s)) (ballShadows flags)
           (rnd (drawn s)) (rnd (S (drawn s))) transform])
       (gameState s) (ballScene s) (S (S (drawn s))) (tagged s)).
Proof.
  intros Hb. unfold bonusCallback, vec3_fromValues. cbv zeta.
  unfold bind, spawnBall. cbn [ballScene gameState entities drawn tagged].
  rewrite Hb. cbn [negb].
  match goal with
  | |- context [launchBall ?ball ?b ?d ?h] =>
    pose proof (launchBall_unfold ball b d h) as Hu
  end.
  cbv zeta in Hu. rewrite Hu. clear Hu.
  rewrite lookup_total_insert_eq.
  cbn [fst entities gameState ballScene drawn tagged].
  rewrite alter_at_end. reflexivity.
Qed.

Lemma bonusCallback_keeps flags rnd transform s :
  keeps s (finalState (bonusCallback flags rnd transform s))
  /\ gameState (finalState (bonusCallback flags rnd transform s)) = gameState s.
Proof.
  destruct (ballScene s) eqn:Hb.
  - rewrite bonusCallback_loaded by done. cbn [finalState].
    repeat split; try done. by apply prefix_app_r.
  - unfold bonusCallback, vec3_fromValues. cbv zeta. unfold bind.
    rewrite spawnBall_not_loaded by done. cbn [fst finalState].
    repeat split; done.
Qed.

Lemma bonusLoop_loaded flags rnd requests s :
  ballScene s = true ->
  bonusLoop flags rnd requests s =
  Done tt
    (mkState
       (entities s ++
        bonusBalls (level (gameState s)) (ballShadows flags) rnd (drawn s)
          requests)
       (gameState s) (ballScene s)
       (drawn s + 2 * length requests)%nat (tagged s)).
Proof.
  revert s. induction requests as [|t rest IH]; intros s Hb.
  - cbn [bonusLoop bonusBalls length]. unfold ret.
    rewrite app_nil_r, Nat.mul_0_r, Nat.add_0_r. by destruct s.
  - cbn [bonusLoop]. unfold bind at 1. rewrite bonusCallback_loaded by done.
    rewrite IH by done. cbn [entities gameState ballScene drawn tagged bonusBalls length].
    rewrite <- app_assoc. do 2 f_equal. lia.
Qed.

Lemma bonusLoop_keeps flags rnd requests s :
  keeps s (finalState (bonusLoop flags rnd requests s))
  /\ gameState (finalState (bonusLoop flags rnd requests s)) = gameState s.
Proof.
  revert s. induction requests as [|t rest IH]; intros s.
  - cbn. split; [apply keeps_refl|done].
  - cbn [bonusLoop]. rewrite finalState_bind.
    destruct (bonusCallback_keeps flags rnd t s) as [Hk Hg].
    destruct (bonusCallback flags rnd t s) as [[] s1|s1]; cbn [finalState] in *.
    + destruct (IH s1) as [Hk' Hg']. split; [by eapply keeps_trans|congruence].
    + done.
Qed.

End Tick.

Section TickSteps.
Import BallSystem.

Implicit Types (s : State) (es : list Entity) (loc : Locals).

Lemma loseLife_keeps s : keeps s (loseLife s).
Proof. by repeat split. Qed.

(** The respawn step: what it does to [lives], and that it leaves the rest
    alone. *)
Lemma respawn_lives paddleState flags loc s :
  let s' := finalState (respawn paddleState flags loc s) in
  keeps s s'
  /\ lives (gameState s') =
     (if Nat.eqb (ballCount loc) 0 && lostBall loc
      then lives (gameState s) - 1 else lives (gameState s))%Z.
Proof.
  unfold respawn. destruct (Nat.eqb (ballCount loc) 0); cbn [andb finalState].
  2: { split; [apply keeps_refl|done]. }
  set (s1 := if lostBall loc then loseLife s else s).
  assert (H1 : keeps s s1 /\ lives (gameState s1) =
               (if lostBall loc then lives (gameState s) - 1 else lives (gameState s))%Z).
  { subst s1. destruct (lostBall loc); split;
      [apply loseLife_keeps|done|apply keeps_refl|done]. }
  destruct H1 as [Hk Hl].
  destruct (negb (levelStarting (gameState s1)) && (0 <? lives (gameState s1))%Z).
  2: { done. }
  destruct paddleState as [paddle|]; [|done].
  unfold bind, ret.
  destruct (spawnBall_keeps (mkVec3 (px paddle) 1 23) None (ballShadows flags) ∅ s1)
    as (r & s2 & -> & Hk2 & Hg & _).
  cbn [finalState]. split; [by eapply keeps_trans|congruence].
Qed.

(** Without a paddle the respawn step raises as soon as a ball is due:
    the position array reads [paddleState.x]. *)
Lemma respawn_without_paddle flags loc s :
  ballCount loc = 0%nat ->
  levelStarting (gameState s) = false ->
  ((if lostBall loc then 1 else 0) < lives (gameState s))%Z ->
  completes (respawn None flags loc s) = false.
Proof.
  intros Hc Hs Hl. unfold respawn. rewrite Hc. cbn [Nat.eqb].
  destruct (lostBall loc); cbn [loseLife gameState levelStarting lives];
    rewrite Hs; cbn [negb andb].
  - destruct (Z.ltb_spec 0 (lives (gameState s) - 1)); [done|lia].
  - destruct (Z.ltb_spec 0 (lives (gameState s))); [done|lia].
Qed.

(** A respawn ball appears only with a paddle, outside the starting phase
    and with lives left. *)
Lemma respawn_spawns_only_if paddleState flags loc s s' :
  respawn paddleState flags loc s = Done tt s' ->
  entities s' <> entities s ->
  is_Some paddleState /\ levelStarting (gameState s') = false
  /\ (0 < lives (gameState s'))%Z /\ ballCount loc = 0%nat.
Proof.
  unfold respawn. destruct (Nat.eqb_spec (ballCount loc) 0) as [Hc|Hc].
  2: { intros [= <-]. done. }
  set (s1 := if lostBall loc then loseLife s else s).
  assert (He : entities s1 = entities s) by (subst s1; by destruct (lostBall loc)).
  destruct (levelStarting (gameState s1)) eqn:Hs; cbn [negb andb].
  { intros [= <-]. done. }
  destruct (Z.ltb_spec 0 (lives (gameState s1))) as [Hl|Hl].
  2: { intros [= <-]. done. }
  destruct paddleState as [paddle|]; [|done].
  unfold bind, ret.
  destruct (spawnBall_keeps (mkVec3 (px paddle) 1 23) None (ballShadows flags) ∅ s1)
    as (r & s2 & -> & Hk2 & Hg & _).
  intros [= <-] _. rewrite Hg. by repeat split.
Qed.

(** The auto-launch step checks for the paddle and never raises. *)
Lemma autoLaunch_keeps paddleState flags loc s :
  exists s', autoLaunch paddleState flags loc s = Done tt s'
             /\ keeps s s' /\ gameState s' = gameState s.
Proof.
  unfold autoLaunch.
  destruct (lucasMode flags && Nat.eqb (waitingBallCount loc) 0).
  2: { exists s. split; [done|]. split; [apply keeps_refl|done]. }
  destruct paddleState as [paddle|].
  2: { exists s. split; [done|]. split; [apply keeps_refl|done]. }
  unfold bind, ret.
  destruct (spawnBall_keeps (mkVec3 (px paddle) 1 23) None (ballShadows flags) ∅ s)
    as (r & s2 & -> & Hk2 & Hg & _).
  by exists s2.
Qed.

(** *** The ball loop *)

Lemma ballVisit_outside paddleState time rnd i e loc :
  inBallQuery e = false -> ballVisit paddleState time rnd i e loc = (e, loc).
Proof.
  unfold inBallQuery, ballVisit.
  by destruct (e_ball e), (e_body e), (e_transform e).
Qed.

Lemma positionOnPaddle_spec paddleState rnd ball b loc :
  let '(ball', b', loc') := positionOnPaddle paddleState rnd ball b loc in
  speed ball' = speed ball
  /\ ballCount loc' = ballCount loc /\ lostBall loc' = lostBall loc
  /\ l_tagged loc' = l_tagged loc
  /\ (waitingForLaunch ball = false -> ball' = ball /\ b' = b /\ loc' = loc)
  /\ (waitingForLaunch ball' = true -> waitingForLaunch ball = true)
  /\ (waitingForLaunch ball = true -> waitingForLaunch ball' = false ->
      exists paddle, paddleState = Some paddle /\ launch paddle = true).
Proof.
  unfold positionOnPaddle. destruct (waitingForLaunch ball) eqn:Hw.
  2: { repeat split; try done; congruence. }
  destruct paddleState as [paddle|].
  2: { repeat split; try done; congruence. }
  destruct (launch paddle) eqn:Hl.
  - unfold vec3_fromValues. cbv zeta.
    match goal with
    | |- context [launchBall ?ball ?b ?d ?h] =>
      pose proof (launchBall_unfold ball b d h) as Hu
    end.
    cbv zeta in Hu. rewrite Hu. clear Hu.
    cbn [speed waitingForLaunch ballCount lostBall l_tagged].
    repeat split; try done. intros _ _. by exists paddle.
  - cbn [speed waitingForLaunch ballCount lostBall l_tagged].
    repeat split; try done; congruence.
Qed.

End TickSteps.

Section BallLoop.
Import BallSystem.

Implicit Types (s : State) (es : list Entity) (loc : Locals) (e : Entity).

Variables (paddleState : option Paddle) (time : R) (rnd : nat -> R).

(** The loss check of the callback, and what the callback keeps of the
    entity. *)
Lemma ballCallback_loss i e ball pb transform loc :
  let '(e', loc') := ballCallback paddleState time rnd i e ball pb transform loc in
  e_transform e' = Some transform
  /\ (30 < c2 transform ->
        e_dead e' = true /\ lostBall loc' = true
        /\ ballCount loc' = ballCount loc /\ l_tagged loc' = l_tagged loc ++ [i])
  /\ (c2 transform <= 30 ->
        e_dead e' = e_dead e /\ lostBall loc' = lostBall loc
        /\ ballCount loc' = S (ballCount loc) /\ l_tagged loc' = l_tagged loc).
Proof.
  unfold ballCallback.
  pose proof (positionOnPaddle_spec paddleState rnd ball (body pb) loc) as Hp.
  destruct (positionOnPaddle paddleState rnd ball (body pb) loc) as [[ball1 b1] loc1].
  destruct Hp as (_ & Hc & Hl & Ht & _).
  destruct (Rlt_dec 30 (c2 transform)) as [Hlt|Hge];
    cbn [e_transform e_dead lostBall ballCount l_tagged].
  - split; [done|]. split; [|lra]. intros _. by rewrite Hc, Ht.
  - split; [done|]. split; [lra|]. intros _. by rewrite Hc, Hl, Ht.
Qed.

(** The callback and the [waitingForLaunch] flag. *)
Lemma ballCallback_flag i e ball pb transform loc :
  exists ball',
    e_ball (ballCallback paddleState time rnd i e ball pb transform loc).1 = Some ball'
    /\ speed ball' = speed ball
    /\ (waitingForLaunch ball = false -> waitingForLaunch ball' = false)
    /\ (waitingForLaunch ball = true -> waitingForLaunch ball' = false ->
        exists paddle, paddleState = Some paddle /\ launch paddle = true).
Proof.
  unfold ballCallback.
  pose proof (positionOnPaddle_spec paddleState rnd ball (body pb) loc) as Hp.
  destruct (positionOnPaddle paddleState rnd ball (body pb) loc) as [[ball1 b1] loc1].
  destruct Hp as (Hs & _ & _ & _ & Hf & _ & Hw).
  exists (colorBySpeed time (magnitude (velocity b1)) ball1).
  split; [by destruct (Rlt_dec 30 (c2 transform))|].
  cbn [colorBySpeed speed waitingForLaunch]. split; [done|]. split; [|done].
  intros Hfalse. by destruct (Hf Hfalse) as (-> & _).
Qed.

Lemma ballVisit_counts i e loc :
  let '(e', loc') := ballVisit paddleState time rnd i e loc in
  ballCount loc' =
    (ballCount loc + if inBallQuery e && negb (beyondLoss e) then 1 else 0)%nat
  /\ lostBall loc' = lostBall loc || (inBallQuery e && beyondLoss e).
Proof.
  unfold ballVisit, inBallQuery, beyondLoss.
  destruct (e_ball e) as [ball|]; [|cbn; split; [lia|by rewrite orb_false_r]].
  destruct (e_body e) as [pb|]; [|cbn; split; [lia|by rewrite orb_false_r]].
  destruct (e_transform e) as [t|] eqn:Ht;
    [|cbn; split; [lia|by rewrite orb_false_r]].
  pose proof (ballCallback_loss i e ball pb t loc) as Hc.
  destruct (ballCallback _ _ _ i e ball pb t loc) as [e' loc'].
  destruct Hc as (_ & Hlost & Halive).
  destruct (Rlt_dec 30 (c2 t)) as [Hlt|Hge]; cbn [andb negb].
  - destruct (Hlost Hlt) as (_ & -> & -> & _). split; [lia|by rewrite orb_true_r].
  - destruct Halive as (_ & -> & -> & _); [lra|]. split; [lia|by rewrite orb_false_r].
Qed.

(** The ball loop counts the balls within the threshold and records
    whether one is beyond it. *)
Lemma ballLoop_counts es i loc :
  let '(es', loc') := ballLoop paddleState time rnd i es loc in
  ballCount loc' = (ballCount loc + aliveBalls es)%nat
  /\ lostBall loc' = lostBall loc || anyLost es
  /\ length es' = length es.
Proof.
  revert i loc. induction es as [|e es IH]; intros i loc.
  - cbn. split; [lia|]. by rewrite orb_false_r.
  - cbn [ballLoop aliveBalls anyLost].
    pose proof (ballVisit_counts i e loc) as Hv.
    destruct (ballVisit paddleState time rnd i e loc) as [e1 loc1].
    destruct Hv as [Hc Hl].
    specialize (IH (S i) loc1).
    destruct (ballLoop paddleState time rnd (S i) es loc1) as [es2 loc2].
    destruct IH as (Hc2 & Hl2 & Hlen).
    split; [|split].
    + rewrite Hc2, Hc. destruct (inBallQuery e && negb (beyondLoss e)); lia.
    + rewrite Hl2, Hl. by rewrite orb_assoc.
    + cbn. by rewrite Hlen.
Qed.

(** Every entity of the store is, after the loop, what the visit made of
    it. *)
Lemma ballLoop_lookup es i loc j e :
  es !! j = Some e ->
  exists loc0,
    (ballLoop paddleState time rnd i es loc).1 !! j
    = Some (ballVisit paddleState time rnd (i + j) e loc0).1.
Proof.
  revert i loc j. induction es as [|e0 es IH]; intros i loc j Hj; [done|].
  cbn [ballLoop].
  destruct (ballVisit paddleState time rnd i e0 loc) as [e1 loc1] eqn:Hv.
  destruct (ballLoop paddleState time rnd (S i) es loc1) as [es2 loc2] eqn:Hl.
  destruct j as [|j]; cbn in Hj |- *.
  - injection Hj as ->. exists loc. by rewrite Nat.add_0_r, Hv.
  - destruct (IH (S i) loc1 j Hj) as [loc0 H0]. exists loc0.
    rewrite Hl in H0. cbn in H0. by rewrite <- Nat.add_succ_comm.
Qed.

End BallLoop.

(** * The tick as a whole *)

Section TickClaims.
Import BallSystem.

Implicit Types (s : State) (es : list Entity) (loc : Locals) (e : Entity).

Lemma execute_unfold time flags rnd s :
  execute time flags rnd s =
  let ps := paddleLoop (entities s) None in
  let r := ballLoop ps time rnd 0 (entities s)
             (mkLocals 0 false 0 (drawn s) (tagged s)) in
  (bonusLoop flags rnd (bonusRequests r.1) >>
   respawn ps flags r.2 >> autoLaunch ps flags r.2)
    (mkState r.1 (gameState s) (ballScene s) (l_drawn r.2) (l_tagged r.2)).
Proof. unfold execute. cbv zeta. by destruct (ballLoop _ _ _ _ _ _). Qed.

(** The three steps that follow the ball loop. *)
Lemma afterLoop_spec flags rnd requests ps loc s :
  let m := bonusLoop flags rnd requests >>
           respawn ps flags loc >> autoLaunch ps flags loc in
  keeps s (finalState (m s))
  /\ lives (gameState (finalState (m s))) =
     (if completes (bonusLoop flags rnd requests s)
         && Nat.eqb (ballCount loc) 0 && lostBall loc
      then lives (gameState s) - 1 else lives (gameState s))%Z.
Proof.
  cbv zeta. rewrite finalState_bind.
  destruct (bonusLoop_keeps flags rnd requests s) as [Hk Hg].
  destruct (bonusLoop flags rnd requests s) as [[] s1|s1];
    cbn [finalState completes andb] in *; [|by rewrite Hg].
  rewrite finalState_bind.
  destruct (respawn_lives ps flags loc s1) as [Hk2 Hl2].
  destruct (respawn ps flags loc s1) as [[] s2|s2]; cbn [finalState] in *.
  - destruct (autoLaunch_keeps ps flags loc s2) as (s3 & -> & Hk3 & Hg3).
    cbn [finalState]. split.
    + eapply keeps_trans; [exact Hk|]. by eapply keeps_trans.
    + by rewrite Hg3, Hl2, Hg.
  - split; [by eapply keeps_trans|]. by rewrite Hl2, Hg.
Qed.

(** What a tick does to [lives]: one less when the bonus pass went
    through, no ball was counted alive and one was lost; unchanged
    otherwise. *)
Lemma execute_lives time flags rnd s :
  let ps := paddleLoop (entities s) None in
  let r := ballLoop ps time rnd 0 (entities s)
             (mkLocals 0 false 0 (drawn s) (tagged s)) in
  lives (gameState (finalState (execute time flags rnd s))) =
  (if completes (bonusLoop flags rnd (bonusRequests r.1)
                   (mkState r.1 (gameState s) (ballScene s) (l_drawn r.2)
                      (l_tagged r.2)))
      && Nat.eqb (aliveBalls (entities s)) 0 && anyLost (entities s)
   then lives (gameState s) - 1 else lives (gameState s))%Z.
Proof.
  cbv zeta. rewrite execute_unfold. cbv zeta.
  pose proof (ballLoop_counts (paddleLoop (entities s) None) time rnd
                (entities s) 0 (mkLocals 0 false 0 (drawn s) (tagged s))) as Hc.
  destruct (ballLoop _ _ _ _ _ _) as [es1 loc1]. cbn [fst snd].
  destruct Hc as (Hc & Hl & _). cbn [ballCount lostBall] in Hc, Hl.
  destruct (afterLoop_spec flags rnd (bonusRequests es1)
              (paddleLoop (entities s) None) loc1
              (mkState es1 (gameState s) (ballScene s) (l_drawn loc1)
                 (l_tagged loc1))) as [_ Hlives].
  cbv zeta in Hlives. rewrite Hlives. cbn [gameState].
  by rewrite Hc, Hl.
Qed.

(** Without a paddle, a tick that counts no ball alive raises whenever a
    respawn is due: the asset loaded, the level under way, a life left
    after the loss if there was one. *)
Lemma execute_without_paddle time flags rnd s :
  paddleLoop (entities s) None = None ->
  aliveBalls (entities s) = 0%nat ->
  ballScene s = true ->
  levelStarting (gameState s) = false ->
  ((if anyLost (entities s) then 1 else 0) < lives (gameState s))%Z ->
  completes (execute time flags rnd s) = false.
Proof.
  intros Hp Ha Hb Hs Hl. rewrite execute_unfold. cbv zeta. rewrite Hp.
  pose proof (ballLoop_counts None time rnd (entities s) 0
                (mkLocals 0 false 0 (drawn s) (tagged s))) as Hc.
  destruct (ballLoop _ _ _ _ _ _) as [es1 loc1]. cbn [fst snd].
  destruct Hc as (Hc & Hlost & _). cbn [ballCount lostBall] in Hc, Hlost.
  rewrite Ha in Hc. cbn [orb] in Hlost.
  unfold bind at 1. rewrite bonusLoop_loaded by done.
  unfold bind at 1.
  match goal with
  | |- context [respawn None flags loc1 ?st] =>
    pose proof (respawn_without_paddle flags loc1 st Hc Hs) as Hr;
    destruct (respawn None flags loc1 st)
  end.
  - cbn [gameState] in Hr. rewrite Hlost in Hr. by specialize (Hr Hl).
  - reflexivity.
Qed.

(** C1: with zero balls alive and no paddle the respawn step is not
    skipped. In the state with no entity, three lives and the level under
    way, the paddle query finds nothing, no ball is alive, and the tick
    raises at [paddleState.x]; the auto-launch step on the same inputs,
    which tests the paddle first, goes through. *)
Theorem C1_respawn_without_paddle_raises time flags rnd :
  paddleLoop (entities noPaddleState) None = None
  /\ aliveBalls (entities noPaddleState) = 0%nat
  /\ execute time flags rnd noPaddleState = Threw noPaddleState
  /\ autoLaunch None flags (mkLocals 0 false 0 0 []) noPaddleState
     = Done tt noPaddleState.
Proof.
  repeat split. unfold autoLaunch.
  by destruct (lucasMode flags && Nat.eqb (waitingBallCount (mkLocals 0 false 0 0 [])) 0).
Qed.

(** C2: before the ball asset is loaded [spawnBall] creates nothing and
    returns [undefined], but the bonus pass then reads
    [bonus.get(PointLight)] from that result: with a paddle and one bonus
    request in the store the tick raises, the two random numbers drawn and
    no entity added. *)
Theorem C2_bonus_before_asset_loaded_raises time flags rnd :
  (forall position velocity castShadow h,
      spawnBall position velocity castShadow h notLoadedState
      = Done (None, h) notLoadedState)
  /\ execute time flags rnd notLoadedState
     = Threw (mkState [paddleEntity; requestEntity] (mkGameState 3 0 false)
                false 2 []).
Proof. split; reflexivity. Qed.

End TickClaims.

Section LossAndFlag.
Import BallSystem.

Implicit Types (s : State) (es : list Entity) (loc : Locals) (e : Entity).

(** C5: the loss check and [lives]. In the callback, a ball whose depth
    coordinate is at most 30 (29, say) is counted alive, keeps its tags
    and causes no [add(Tag('dead'))] call; a ball whose depth coordinate
    is above 30 (30.1, say) is tagged dead, by a call on its own entity,
    and sets [lostBall]. Over a tick in which no ball is counted alive,
    [lives] goes down by exactly 1 when a ball was lost (the asset being
    loaded, as it is once a ball exists) and stays as it is when none
    was. *)
Theorem C5_loss_check_and_lives :
  (forall paddleState time rnd i e ball pb transform loc,
      let '(e', loc') :=
        ballCallback paddleState time rnd i e ball pb transform loc in
      (c2 transform <= 30 ->
         e_dead e' = e_dead e /\ l_tagged loc' = l_tagged loc
         /\ ballCount loc' = S (ballCount loc) /\ lostBall loc' = lostBall loc)
      /\ (30 < c2 transform ->
            e_dead e' = true /\ l_tagged loc' = l_tagged loc ++ [i]
            /\ lostBall loc' = true /\ ballCount loc' = ballCount loc))
  /\ (forall time flags rnd s,
        let s' := finalState (execute time flags rnd s) in
        (aliveBalls (entities s) = 0%nat -> anyLost (entities s) = true ->
         ballScene s = true ->
         lives (gameState s') = (lives (gameState s) - 1)%Z)
        /\ (aliveBalls (entities s) = 0%nat -> anyLost (entities s) = false ->
            lives (gameState s') = lives (gameState s))).
Proof.
  split.
  - intros paddleState time rnd i e ball pb transform loc.
    pose proof (ballCallback_loss paddleState time rnd i e ball pb transform loc) as H.
    destruct (ballCallback _ _ _ _ _ _ _ _ _) as [e' loc'].
    destruct H as (_ & Hlost & Halive). split.
    + intros Hle. by destruct (Halive Hle) as (? & ? & ? & ?).
    + intros Hlt. by destruct (Hlost Hlt) as (? & ? & ? & ?).
  - intros time flags rnd s. cbv zeta.
    pose proof (execute_lives time flags rnd s) as Hl. cbv zeta in Hl.
    split.
    + intros Ha Hany Hb. rewrite Hl, Ha, Hany.
      rewrite bonusLoop_loaded by done. reflexivity.
    + intros Ha Hany. rewrite Hl, Hany. by rewrite andb_false_r.
Qed.

Lemma beyondLoss_ballAt (depth : R) :
  beyondLoss (ballAt depth) = if Rlt_dec 30 depth then true else false.
Proof. reflexivity. Qed.

Lemma C5_loss_check_and_lives_witness :
  (let '(e', loc') :=
     ballCallback None 0 (fun _ => 0) 1 (ballAt 29)
       (mkBall false 0.5 45 (mkVec3 0.0 0.5 1.0))
       (mkPhysics2DBody "circle" 0.8 0 1 0
          (mkMatterBody (mkVec2 0 29) (mkVec2 0 0.5)))
       (mkVec3 0 1 29) (mkLocals 0 false 0 0 []) in
   e_dead e' = false /\ ballCount loc' = 1%nat)
  /\ (let '(e', loc') :=
        ballCallback None 0 (fun _ => 0) 1 (ballAt 30.1)
          (mkBall false 0.5 45 (mkVec3 0.0 0.5 1.0))
          (mkPhysics2DBody "circle" 0.8 0 1 0
             (mkMatterBody (mkVec2 0 30.1) (mkVec2 0 0.5)))
          (mkVec3 0 1 30.1) (mkLocals 0 false 0 0 []) in
      e_dead e' = true /\ lostBall loc' = true /\ l_tagged loc' = [1%nat])
  /\ lives (gameState (finalState
              (execute 0 (mkFlags false false) (fun _ => 0) (oneBallState 30.1))))
     = 2%Z.
Proof.
  destruct C5_loss_check_and_lives as [Hcb Htick].
  split; [|split].
  - pose proof (Hcb None 0 (fun _ => 0) 1%nat (ballAt 29)
                  (mkBall false 0.5 45 (mkVec3 0.0 0.5 1.0))
                  (mkPhysics2DBody "circle" 0.8 0 1 0
                     (mkMatterBody (mkVec2 0 29) (mkVec2 0 0.5)))
                  (mkVec3 0 1 29) (mkLocals 0 false 0 0 [])) as H.
    destruct (ballCallback _ _ _ _ _ _ _ _ _) as [e' loc'].
    destruct H as [H _]. cbn [c2] in H.
    destruct H as (Hd & _ & Hc & _); [lra|]. by rewrite Hd, Hc.
  - pose proof (Hcb None 0 (fun _ => 0) 1%nat (ballAt 30.1)
                  (mkBall false 0.5 45 (mkVec3 0.0 0.5 1.0))
                  (mkPhysics2DBody "circle" 0.8 0 1 0
                     (mkMatterBody (mkVec2 0 30.1) (mkVec2 0 0.5)))
                  (mkVec3 0 1 30.1) (mkLocals 0 false 0 0 [])) as H.
    destruct (ballCallback _ _ _ _ _ _ _ _ _) as [e' loc'].
    destruct H as [_ H]. cbn [c2] in H.
    destruct H as (Hd & Ht & Hl & _); [lra|]. by rewrite Hd, Ht, Hl.
  - destruct (Htick 0 (mkFlags false false) (fun _ : nat => 0) (oneBallState 30.1))
      as [Hdec _].
    cbv zeta in Hdec. rewrite Hdec; [reflexivity| | |reflexivity].
    + cbn [oneBallState entities aliveBalls]. rewrite beyondLoss_ballAt.
      destruct (Rlt_dec 30 30.1); [reflexivity|lra].
    + cbn [oneBallState entities anyLost]. rewrite beyondLoss_ballAt.
      destruct (Rlt_dec 30 30.1); [reflexivity|lra].
Defined.

Lemma ballVisit_flag paddleState time rnd i e loc ball :
  e_ball e = Some ball ->
  exists ball',
    e_ball (ballVisit paddleState time rnd i e loc).1 = Some ball'
    /\ (waitingForLaunch ball = false -> waitingForLaunch ball' = false)
    /\ (waitingForLaunch ball = true -> waitingForLaunch ball' = false ->
        inBallQuery e = true
        /\ exists paddle, paddleState = Some paddle /\ launch paddle = true).
Proof.
  intros Hb. unfold ballVisit, inBallQuery. rewrite Hb.
  destruct (e_body e) as [pb|]; [|exists ball; cbn; split; [done|split; congruence]].
  destruct (e_transform e) as [t|]; [|exists ball; cbn; split; [done|split; congruence]].
  destruct (ballCallback_flag paddleState time rnd i e ball pb t loc)
    as (ball' & He & _ & Hf & Hw).
  exists ball'. split; [done|]. split; [done|].
  intros H1 H2. split; [done|]. by apply Hw.
Qed.

(** C6: the [waitingForLaunch] flag goes one way. Over a tick, raised or
    not, every ball of the store is still there, a ball in flight stays in
    flight, and a waiting ball is in flight afterwards only if the ball
    query matches it and the paddle found by the tick signals a launch.
    [launchBall] always leaves the flag cleared, and a ball made by
    [spawnBall] is in flight exactly when a direction was passed. *)
Theorem C6_waiting_flag_one_way :
  (forall time flags rnd s i e ball,
      entities s !! i = Some e -> e_ball e = Some ball ->
      exists e' ball',
        entities (finalState (execute time flags rnd s)) !! i = Some e'
        /\ e_ball e' = Some ball'
        /\ (waitingForLaunch ball = false -> waitingForLaunch ball' = false)
        /\ (waitingForLaunch ball = true -> waitingForLaunch ball' = false ->
            inBallQuery e = true
            /\ exists paddle, paddleLoop (entities s) None = Some paddle
                              /\ launch paddle = true))
  /\ (forall ball b d h, waitingForLaunch (launchBall ball b d h).1.1 = false)
  /\ (forall position velocity castShadow h s r s',
        spawnBall position velocity castShadow h s = Done r s' ->
        entities s' = entities s
        \/ exists e ball,
             entities s' = entities s ++ [e] /\ e_ball e = Some ball
             /\ waitingForLaunch ball
                = match velocity with Some _ => false | None => true end).
Proof.
  split; [|split].
  - intros time flags rnd s i e ball Hi Hb.
    rewrite execute_unfold. cbv zeta.
    set (ps := paddleLoop (entities s) None).
    set (loc := mkLocals 0 false 0 (drawn s) (tagged s)).
    destruct (ballLoop_lookup ps time rnd (entities s) 0 loc i e Hi) as [loc0 Hlk].
    destruct (ballVisit_flag ps time rnd (0 + i) e loc0 ball Hb)
      as (ball' & He & Hf & Hw).
    destruct (afterLoop_spec flags rnd
                (bonusRequests (ballLoop ps time rnd 0 (entities s) loc).1) ps
                (ballLoop ps time rnd 0 (entities s) loc).2
                (mkState (ballLoop ps time rnd 0 (entities s) loc).1
                   (gameState s) (ballScene s)
                   (l_drawn (ballLoop ps time rnd 0 (entities s) loc).2)
                   (l_tagged (ballLoop ps time rnd 0 (entities s) loc).2)))
      as [(_ & _ & _ & _ & Hpre) _].
    cbn [entities] in Hpre.
    exists (ballVisit ps time rnd (0 + i) e loc0).1, ball'.
    split; [by eapply prefix_lookup_Some|].
    split; [exact He|]. split; [exact Hf|exact Hw].
  - intros ball b d h. unfold launchBall. reflexivity.
  - intros position velocity castShadow h s r s'. unfold spawnBall.
    destruct (ballScene s); cbn [negb].
    2: { intros [= _ <-]. by left. }
    destruct velocity as [d|].
    + pose proof (launchBall_unfold
                    (mkBall (waitingForLaunch new_Ball)
                       (0.5 + IZR (level (gameState s)) * 0.04)
                       (glowIntensity new_Ball) (color new_Ball))
                    (body (new_Physics2DBody (c0 position) (c2 position) 0.8 0 1 0))
                    d h) as Hu.
      cbv zeta in Hu. rewrite Hu. intros [= _ <-]. right.
      eexists _, _. cbn [entities]. split; [reflexivity|]. by split.
    + intros [= _ <-]. right.
      eexists _, _. cbn [entities]. split; [reflexivity|]. by split.
Qed.

End LossAndFlag.

Section BonusPass.
Import BallSystem.

Implicit Types (s : State) (es : list Entity) (e : Entity).

Lemma C6_waiting_flag_one_way_witness :
  exists e' ball',
    entities (finalState (execute 0 (mkFlags false false) (fun _ => 0)
                            (oneBallState 29))) !! 1%nat = Some e'
    /\ e_ball e' = Some ball' /\ waitingForLaunch ball' = false.
Proof.
  destruct C6_waiting_flag_one_way as [Htick _].
  destruct (Htick 0 (mkFlags false false) (fun _ : nat => 0) (oneBallState 29)
              1%nat (ballAt 29) (mkBall false 0.5 45 (mkVec3 0.0 0.5 1.0))
              eq_refl eq_refl) as (e' & ball' & Hi & Hb & Hf & _).
  exists e', ball'. split; [exact Hi|]. split; [exact Hb|]. by apply Hf.
Defined.

Lemma bonusRequests_already_dead es (t : Vec3) :
  t ∈ bonusRequests es ->
  exists e, e ∈ es /\ e_transform e = Some t
            /\ e_bonusBall e = true /\ e_dead e = true.
Proof.
  unfold bonusRequests. intros Ht. apply list_elem_of_omap in Ht.
  destruct Ht as (e & He & Hm). exists e. split; [done|].
  destruct (e_bonusBall e), (e_dead e); cbn in Hm; try done.
Qed.

(** The claim C9 fails where it says that the pass tags the request. In the
    state with a paddle and one bonus request (which carries the dead tag,
    as the query demands), the level starting, the tick goes through and
    spawns the bonus ball, the request entity is what it was, and no
    [add(Tag('dead'))] call was made on it or on anything else. *)
Lemma C9_request_not_tagged_by_pass :
  exists s',
    execute 0 (mkFlags false false) (fun _ => 0) requestState = Done tt s'
    /\ length (entities s') = 3%nat
    /\ entities s' !! 1%nat = Some requestEntity
    /\ 1%nat ∉ tagged s'.
Proof.
  rewrite execute_unfold. cbv zeta.
  assert (Hloop :
    ballLoop (paddleLoop (entities requestState) None) 0 (fun _ => 0) 0
      (entities requestState)
      (mkLocals 0 false 0 (drawn requestState) (tagged requestState))
    = ([paddleEntity; requestEntity], mkLocals 0 false 0 0 [])) by reflexivity.
  rewrite Hloop. cbn [fst snd l_drawn l_tagged].
  unfold bind at 1. rewrite bonusLoop_loaded by reflexivity.
  eexists. split; [reflexivity|].
  cbn [entities tagged]. split; [reflexivity|]. split; [reflexivity|].
  apply not_elem_of_nil.
Qed.

(** C9, as the code has it: while the ball asset is loaded, every request
    the bonus pass processes is an entity that already carries the dead
    tag; for each of them, in order, the pass appends one ball in flight,
    placed at the request's transform position with its height set to 1,
    launched in the direction made of two [Math.random()] values, with a
    point light of colour [1.0, 0.4, 0.2] and intensity 60, which is not
    the colour a regular ball is spawned with; the pass itself makes no
    tag call and leaves the existing entities as they are. *)
Theorem C9_bonus_pass_spawns_fiery_balls flags rnd es s :
  ballScene s = true ->
  (forall t : Vec3, t ∈ bonusRequests es ->
     exists e, e ∈ es /\ e_transform e = Some t
               /\ e_bonusBall e = true /\ e_dead e = true)
  /\ bonusLoop flags rnd (bonusRequests es) s =
     Done tt
       (mkState
          (entities s ++
           bonusBalls (level (gameState s)) (ballShadows flags) rnd (drawn s)
             (bonusRequests es))
          (gameState s) (ballScene s)
          (drawn s + 2 * length (bonusRequests es))%nat (tagged s))
  /\ (forall lvl castShadow r1 r2 (t : Vec3),
        let b := bonusBallFor lvl castShadow r1 r2 t in
        let d := mkVec3 (r1 * 2.0 - 1.0) 0 (- (r2 * 2.0 - 1.0)) in
        e_transform b = Some (mkVec3 (c0 t) 1 (c2 t))
        /\ e_light b = Some (mkPointLight (mkVec3 1.0 0.4 0.2) 60 30)
        /\ mkVec3 1.0 0.4 0.2 <> color new_Ball
        /\ e_dead b = false
        /\ exists ball pb,
             e_ball b = Some ball /\ e_body b = Some pb
             /\ waitingForLaunch ball = false
             /\ speed ball = 0.5 + IZR lvl * 0.04
             /\ position (body pb) = mkVec2 (c0 t) (c2 t)
             /\ velocity (body pb)
                = mkVec2 (c0 (scaled (scaled d (normFactor d)) (speed ball)))
                    (c2 (scaled (scaled d (normFactor d)) (speed ball)))).
Proof.
  intros Hb. split; [|split].
  - intros t. apply bonusRequests_already_dead.
  - by apply bonusLoop_loaded.
  - intros lvl castShadow r1 r2 t. cbv zeta.
    split; [reflexivity|]. split; [reflexivity|].
    split; [intros [= H1 H2 H3]; lra|]. split; [reflexivity|].
    eexists _, _. split; [reflexivity|]. split; [reflexivity|].
    repeat split.
Qed.

Lemma C9_bonus_pass_spawns_fiery_balls_witness :
  bonusLoop (mkFlags false false) (fun _ => 0)
    (bonusRequests (entities requestState)) requestState =
  Done tt
    (mkState
       ([paddleEntity; requestEntity] ++
        [bonusBallFor 0 false 0 0 (mkVec3 5 7 10)])
       (mkGameState 3 0 true) true 2 []).
Proof.
  exact (proj1 (proj2 (C9_bonus_pass_spawns_fiery_balls (mkFlags false false)
                         (fun _ => 0) (entities requestState) requestState
                         eq_refl))).
Defined.

End BonusPass.

(** * The debug visualisation pass *)

Section VisualizerCallback.
Import Visualizer.

Implicit Types (s : RState) (b : Physics2DBody) (k : Key) (m : positive).

(** The four ways of the [switch]. *)
Lemma keyOf_cases b :
  (keyOf b = Some KRect /\ String.eqb (type b) "rectangle" = true)
  \/ (keyOf b = Some KCircle /\ String.eqb (type b) "rectangle" = false
      /\ String.eqb (type b) "circle" = true)
  \/ (keyOf b = Some (KVerts (ident b)) /\ String.eqb (type b) "rectangle" = false
      /\ String.eqb (type b) "circle" = false
      /\ String.eqb (type b) "fromVertices" = true)
  \/ (keyOf b = None /\ String.eqb (type b) "rectangle" = false
      /\ String.eqb (type b) "circle" = false
      /\ String.eqb (type b) "fromVertices" = false).
Proof.
  unfold keyOf.
  destruct (String.eqb (type b) "rectangle"); [by left|].
  destruct (String.eqb (type b) "circle"); [by right; left|].
  destruct (String.eqb (type b) "fromVertices"); [by right; right; left|].
  by right; right; right.
Qed.

Lemma scaleOf_rect time b :
  keyOf b = Some KRect ->
  scaleOf time b = Some (mkVec3 (width b * pulse time) 1 (height b * pulse time)).
Proof. unfold scaleOf. by intros ->. Qed.

Lemma scaleOf_circle time b :
  keyOf b = Some KCircle ->
  scaleOf time b = Some (mkVec3 (radius b * pulse time) 1 (radius b * pulse time)).
Proof. unfold scaleOf. by intros ->. Qed.

Lemma scaleOf_verts time b i : keyOf b = Some (KVerts i) -> scaleOf time b = None.
Proof. unfold scaleOf. by intros ->. Qed.

(** The callback on a rectangle. *)
Lemma bodyCallback_rect time b s :
  keyOf b = Some KRect ->
  bodyCallback time b s =
  Done tt
    (mkRState (alter (withColor (velocityColor b)) (rectMesh s) (meshes s))
       (rectMesh s) (circleMesh s) (verticesMeshes s) (orientationOf b)
       (frame s ++ [mkInstance (rectMesh s) (positionOf b) (scaleOf time b)
                      (orientationOf b)])
       (built s)).
Proof.
  intros Hk. rewrite (scaleOf_rect time b Hk).
  destruct (keyOf_cases b) as [[_ H1]|[[H _]|[[H _]|[H _]]]]; try congruence.
  unfold bodyCallback. rewrite H1. reflexivity.
Qed.

(** The callback on a circle. *)
Lemma bodyCallback_circle time b s :
  keyOf b = Some KCircle ->
  bodyCallback time b s =
  Done tt
    (mkRState (alter (withColor (velocityColor b)) (circleMesh s) (meshes s))
       (rectMesh s) (circleMesh s) (verticesMeshes s) (orientationOf b)
       (frame s ++ [mkInstance (circleMesh s) (positionOf b) (scaleOf time b)
                      (orientationOf b)])
       (built s)).
Proof.
  intros Hk. rewrite (scaleOf_circle time b Hk).
  destruct (keyOf_cases b) as [[H _]|[(_ & H1 & H2)|[[H _]|[H _]]]]; try congruence.
  unfold bodyCallback. rewrite H1, H2. reflexivity.
Qed.

(** The callback on a body of no known shape: nothing is drawn. *)
Lemma bodyCallback_other time b s :
  keyOf b = None ->
  bodyCallback time b s =
  Done tt
    (mkRState (meshes s) (rectMesh s) (circleMesh s) (verticesMeshes s)
       (orientationOf b) (frame s) (built s)).
Proof.
  intros Hk.
  destruct (keyOf_cases b) as [[H _]|[[H _]|[[H _]|(_ & H1 & H2 & H3)]]];
    try congruence.
  unfold bodyCallback. rewrite H1, H2, H3. reflexivity.
Qed.

(** The callback on a [fromVertices] body whose outline mesh is cached:
    the cached mesh is drawn, nothing is built. *)
Lemma bodyCallback_cached time b s m :
  keyOf b = Some (KVerts (ident b)) ->
  verticesMeshes s !! ident b = Some m ->
  bodyCallback time b s =
  Done tt
    (mkRState (alter (withColor (velocityColor b)) m (meshes s))
       (rectMesh s) (circleMesh s) (verticesMeshes s) (orientationOf b)
       (frame s ++ [mkInstance m (positionOf b) None (orientationOf b)])
       (built s)).
Proof.
  intros Hk Hm.
  destruct (keyOf_cases b) as [[H _]|[[H _]|[(_ & H1 & H2 & H3)|[H _]]]];
    try congruence.
  unfold bodyCallback. rewrite H1, H2, H3.
  unfold bind, orient, getOrCreateVerticesMesh. cbn [verticesMeshes].
  rewrite Hm. reflexivity.
Qed.

(** The callback on a [fromVertices] body seen for the first time: a mesh
    is built, cached and drawn. *)
Lemma bodyCallback_first_sight time b s first rest :
  keyOf b = Some (KVerts (ident b)) ->
  verticesMeshes s !! ident b = None ->
  vertices (body b) = first :: rest ->
  let m := fresh (dom (meshes s)) in
  bodyCallback time b s =
  Done tt
    (mkRState
       (alter (withColor (velocityColor b)) m
          (<[m := mkMesh (outlineVertices (vertices (body b)) first
                            (position (body b)))
                    (length (vertices (body b)) + 1) "line-strip"
                    (mkVec3 0.0 1.0 0.2) "less-equal" (mkVec3 0.1 0.4 0.1)
                    "Vertices Visualization Mesh"]> (meshes s)))
       (rectMesh s) (circleMesh s) (<[ident b := m]> (verticesMeshes s))
       (orientationOf b)
       (frame s ++ [mkInstance m (positionOf b) None (orientationOf b)])
       (built s ++ [ident b])).
Proof.
  intros Hk Hm Hv.
  destruct (keyOf_cases b) as [[H _]|[[H _]|[(_ & H1 & H2 & H3)|[H _]]]];
    try congruence.
  unfold bodyCallback. rewrite H1, H2, H3.
  unfold bind, orient, getOrCreateVerticesMesh. cbn [verticesMeshes].
  rewrite Hm, Hv. reflexivity.
Qed.

(** The callback on a [fromVertices] body seen for the first time that has
    no vertex: [verts[0].x] raises, nothing is built or drawn. *)
Lemma bodyCallback_no_vertex time b s :
  keyOf b = Some (KVerts (ident b)) ->
  verticesMeshes s !! ident b = None ->
  vertices (body b) = [] ->
  bodyCallback time b s =
  Threw
    (mkRState (meshes s) (rectMesh s) (circleMesh s) (verticesMeshes s)
       (orientationOf b) (frame s) (built s)).
Proof.
  intros Hk Hm Hv.
  destruct (keyOf_cases b) as [[H _]|[[H _]|[(_ & H1 & H2 & H3)|[H _]]]];
    try congruence.
  unfold bodyCallback. rewrite H1, H2, H3.
  unfold bind, orient, getOrCreateVerticesMesh. cbn [verticesMeshes].
  rewrite Hm, Hv. reflexivity.
Qed.

Lemma keyOf_verts b i : keyOf b = Some (KVerts i) -> i = ident b.
Proof.
  intros Hk.
  destruct (keyOf_cases b) as [[H _]|[[H _]|[[H _]|[H _]]]]; congruence.
Qed.

End VisualizerCallback.

Section VisualizerInvariant.
Import Visualizer.

Implicit Types (s : RState) (b : Physics2DBody) (k : Key) (m : positive).

(** What one callback that draws with the mesh [k] does to the meshes. *)
Lemma bodyCallback_spec time b s s' k :
  wellFormed s -> keyOf b = Some k -> bodyCallback time b s = Done tt s' ->
  exists m,
    meshOf s' k = Some m
    /\ (meshOf s k = Some m \/ (meshOf s k = None /\ meshes s !! m = None))
    /\ (forall k', k' <> k -> meshOf s' k' = meshOf s k')
    /\ (exists mesh, meshes s' !! m = Some mesh
                     /\ baseColorFactor mesh = velocityColor b)
    /\ (forall m', m' <> m -> meshes s' !! m' = meshes s !! m')
    /\ frame s' = frame s ++ [mkInstance m (positionOf b) (scaleOf time b)
                                (orientationOf b)].
Proof.
  intros [Hdom Hinj] Hk Hrun.
  assert (Hshared : forall m0, is_Some (meshes s !! m0) ->
            exists mesh, alter (withColor (velocityColor b)) m0 (meshes s) !! m0
                         = Some mesh
                         /\ baseColorFactor mesh = velocityColor b).
  { intros m0 [mesh0 H0]. exists (withColor (velocityColor b) mesh0).
    by rewrite lookup_alter_eq, H0. }
  destruct k as [| |i].
  - rewrite bodyCallback_rect in Hrun by done. injection Hrun as <-.
    exists (rectMesh s). cbn [meshOf rectMesh meshes frame].
    split; [done|]. split; [by left|]. split; [by intros [| |]|].
    split; [apply Hshared; by apply (Hdom KRect)|].
    split; [|done]. intros m' Hm'. by rewrite lookup_alter_ne.
  - rewrite bodyCallback_circle in Hrun by done. injection Hrun as <-.
    exists (circleMesh s). cbn [meshOf circleMesh meshes frame].
    split; [done|]. split; [by left|]. split; [by intros [| |]|].
    split; [apply Hshared; by apply (Hdom KCircle)|].
    split; [|done]. intros m' Hm'. by rewrite lookup_alter_ne.
  - pose proof (keyOf_verts b i Hk) as ->.
    rewrite (scaleOf_verts time b _ Hk).
    destruct (verticesMeshes s !! ident b) as [m|] eqn:Hc.
    + rewrite (bodyCallback_cached time b s m) in Hrun by done.
      injection Hrun as <-. exists m.
      cbn [meshOf verticesMeshes meshes frame].
      split; [done|]. split; [by left|]. split; [by intros [| |]|].
      split; [apply Hshared; by apply (Hdom (KVerts (ident b)))|].
      split; [|done]. intros m' Hm'. by rewrite lookup_alter_ne.
    + destruct (vertices (body b)) as [|first rest] eqn:Hv.
      { by rewrite bodyCallback_no_vertex in Hrun. }
      rewrite (bodyCallback_first_sight time b s first rest) in Hrun by done.
      cbv zeta in Hrun. injection Hrun as <-.
      exists (fresh (dom (meshes s))).
      cbn [meshOf verticesMeshes meshes frame].
      split; [by rewrite lookup_insert_eq|].
      split.
      { right. split; [done|]. apply not_elem_of_dom, is_fresh. }
      split.
      { intros [| |j] Hj; cbn [meshOf verticesMeshes rectMesh circleMesh];
          try done.
        rewrite lookup_insert_ne; [done|congruence]. }
      split.
      { eexists. rewrite lookup_alter_eq, lookup_insert_eq. by split. }
      split; [|done].
      intros m' Hm'. by rewrite lookup_alter_ne, lookup_insert_ne.
Qed.

Lemma wellFormed_after s s' k m :
  wellFormed s ->
  meshOf s' k = Some m ->
  (meshOf s k = Some m \/ (meshOf s k = None /\ meshes s !! m = None)) ->
  (forall k', k' <> k -> meshOf s' k' = meshOf s k') ->
  is_Some (meshes s' !! m) ->
  (forall m', m' <> m -> meshes s' !! m' = meshes s !! m') ->
  wellFormed s'.
Proof.
  intros [Hdom Hinj] Hk Hold Hother Hm Hrest. split.
  - intros k0 m0 H0. destruct (decide (k0 = k)) as [->|Hne].
    + congruence.
    + rewrite Hother in H0 by done.
      destruct (decide (m0 = m)) as [->|Hm0]; [done|].
      rewrite Hrest by done. by eapply Hdom.
  - assert (Hclash : forall k0, k0 <> k -> meshOf s k0 = Some m -> False).
    { intros k0 Hne H0. destruct Hold as [Hs|[_ Hnone]].
      - by apply Hne, (Hinj k0 k m).
      - destruct (Hdom k0 m H0) as [? ?]. congruence. }
    intros k1 k2 m0 H1 H2.
    destruct (decide (k1 = k)) as [->|Hn1], (decide (k2 = k)) as [->|Hn2];
      try done.
    + rewrite Hother in H2 by done. exfalso. apply (Hclash k2); congruence.
    + rewrite Hother in H1 by done. exfalso. apply (Hclash k1); congruence.
    + rewrite Hother in H1, H2 by done. by eapply Hinj.
Qed.

(** The meshes in use stay distinct objects over a callback, raised or
    not. *)
Lemma wellFormed_callback time b s :
  wellFormed s -> wellFormed (finalState (bodyCallback time b s)).
Proof.
  intros Hwf. destruct (keyOf b) as [k|] eqn:Hk.
  - destruct (bodyCallback time b s) as [[] s'|s'] eqn:Hrun.
    + destruct (bodyCallback_spec time b s s' k Hwf Hk Hrun)
        as (m & H1 & H2 & H3 & (mesh & H4 & _) & H5 & _).
      cbn [finalState]. by eapply (wellFormed_after s s' k m).
    + destruct k as [| |i].
      * by rewrite bodyCallback_rect in Hrun.
      * by rewrite bodyCallback_circle in Hrun.
      * pose proof (keyOf_verts b i Hk) as ->.
        destruct (verticesMeshes s !! ident b) as [m|] eqn:Hc.
        { by rewrite (bodyCallback_cached time b s m) in Hrun. }
        destruct (vertices (body b)) as [|first rest] eqn:Hv.
        { rewrite bodyCallback_no_vertex in Hrun by done.
          injection Hrun as <-. exact Hwf. }
        by rewrite (bodyCallback_first_sight time b s first rest) in Hrun.
  - rewrite bodyCallback_other by done. exact Hwf.
Qed.

Lemma wellFormed_execute time bodies s :
  wellFormed s -> wellFormed (finalState (execute time bodies s)).
Proof.
  revert s. induction bodies as [|b rest IH]; intros s Hwf; [done|].
  cbn [execute]. unfold bind.
  pose proof (wellFormed_callback time b s Hwf) as Hcb.
  destruct (bodyCallback time b s) as [[] s'|s']; cbn [finalState] in *.
  - by apply IH.
  - done.
Qed.

End VisualizerInvariant.

Section VisualizerPass.
Import Visualizer.

Implicit Types (s : RState) (b : Physics2DBody) (k : Key) (m : positive).

Lemma lookup_total_eq (ms ms' : gmap positive Mesh) m :
  ms' !! m = ms !! m -> ms' !!! m = ms !!! m.
Proof. intros H. by rewrite !lookup_total_alt, H. Qed.

Lemma lastColor_cons b rest k :
  lastColor (b :: rest) k =
  match lastColor rest k with
  | Some c => Some c
  | None => if decide (keyOf b = Some k) then Some (velocityColor b) else None
  end.
Proof. reflexivity. Qed.

Lemma lastColor_elem bodies b k :
  b ∈ bodies -> keyOf b = Some k -> is_Some (lastColor bodies k).
Proof.
  intros Hin Hk. induction bodies as [|b0 rest IH]; [by apply elem_of_nil in Hin|].
  rewrite lastColor_cons. apply elem_of_cons in Hin as [->|Hin].
  - destruct (lastColor rest k); [done|]. by rewrite decide_True.
  - destruct (IH Hin) as [c ->]. done.
Qed.

(** The pass as a whole, when it goes through: the meshes in use stay the
    same objects; the material of each holds the colour of the last body
    drawn with it, or the colour it had; the frame receives, in order, one
    instance per body of a known shape. *)
Lemma execute_spec time bodies s s' :
  wellFormed s -> execute time bodies s = Done tt s' ->
  (forall k m, meshOf s k = Some m ->
     meshOf s' k = Some m
     /\ baseColorFactor (meshes s' !!! m)
        = default (baseColorFactor (meshes s !!! m)) (lastColor bodies k))
  /\ (forall k c, lastColor bodies k = Some c ->
        exists m, meshOf s' k = Some m /\ baseColorFactor (meshes s' !!! m) = c)
  /\ frame s' = frame s ++ omap (instanceOf time s') bodies.
Proof.
  revert s. induction bodies as [|b rest IH]; intros s Hwf Hrun.
  { injection Hrun as <-. split; [done|]. split; [done|].
    cbn. by rewrite app_nil_r. }
  cbn [execute] in Hrun. unfold bind in Hrun.
  pose proof (wellFormed_callback time b s Hwf) as Hwf1.
  destruct (bodyCallback time b s) as [[] s1|s1] eqn:Hcb; [|done].
  cbn [finalState] in Hwf1.
  destruct (IH s1 Hwf1 Hrun) as (HA & HB & HC).
  destruct (keyOf b) as [kb|] eqn:Hk.
  - destruct (bodyCallback_spec time b s s1 kb Hwf Hk Hcb)
      as (mb & Hmb & Hold & Hother & (mesh & Hmesh & Hcol) & Hrest & Hframe).
    assert (Hcolb : baseColorFactor (meshes s1 !!! mb) = velocityColor b).
    { by rewrite (lookup_total_correct _ _ _ Hmesh). }
    assert (Hkeep : forall k m, meshOf s k = Some m -> meshOf s1 k = Some m).
    { intros k m Hm. destruct (decide (k = kb)) as [->|Hne].
      - destruct Hold as [Hs|[Hs _]]; congruence.
      - by rewrite Hother. }
    split; [|split].
    + intros k m Hm. pose proof (Hkeep k m Hm) as Hm1.
      destruct (HA k m Hm1) as [Hm' Hc']. split; [done|].
      rewrite Hc', lastColor_cons.
      destruct (lastColor rest k) as [c|]; [done|]. cbn [default].
      destruct (decide (keyOf b = Some k)) as [Heq|Hne]; cbn [default].
      * assert (kb = k) as -> by congruence.
        assert (m = mb) as -> by congruence. done.
      * assert (Hm_ne : m <> mb).
        { intros ->. apply Hne. rewrite Hk. f_equal.
          by apply (proj2 Hwf1 kb k mb). }
        f_equal. apply lookup_total_eq. by apply Hrest.
    + intros k c. rewrite lastColor_cons.
      destruct (lastColor rest k) as [c0|] eqn:Hlast.
      * intros [= <-]. by apply HB.
      * destruct (decide (keyOf b = Some k)) as [Heq|Hne]; [|done].
        intros [= <-]. assert (kb = k) as -> by congruence.
        destruct (HA k mb Hmb) as [Hm' Hc']. exists mb. split; [done|].
        by rewrite Hc', Hlast.
    + rewrite HC, Hframe, <- app_assoc. f_equal. cbn [omap list_omap].
      unfold instanceOf at 2. rewrite Hk.
      by rewrite (proj1 (HA kb mb Hmb)).
  - rewrite bodyCallback_other in Hcb by done. injection Hcb as <-.
    split; [|split].
    + intros k m Hm. destruct (HA k m Hm) as [Hm' Hc']. split; [done|].
      rewrite Hc', lastColor_cons. cbn [meshes].
      destruct (lastColor rest k); [done|]. by rewrite decide_False by congruence.
    + intros k c. rewrite lastColor_cons.
      destruct (lastColor rest k) as [c0|] eqn:Hlast.
      * intros [= <-]. by apply HB.
      * by rewrite decide_False by congruence.
    + rewrite HC. cbn [frame omap list_omap]. unfold instanceOf at 2.
      by rewrite Hk.
Qed.

(** The parameters the instances of a pass are drawn with are the ones
    the bodies and the time determine. *)
Lemma execute_params time bodies s s' :
  wellFormed s -> execute time bodies s = Done tt s' ->
  map (paramsOf s') (submitted s s') = expected time bodies.
Proof.
  intros Hwf Hrun.
  destruct (execute_spec time bodies s s' Hwf Hrun) as (_ & HB & HC).
  unfold submitted, expected. rewrite HC, drop_app_length.
  assert (Hsub : forall l : list Physics2DBody,
            (forall b, b ∈ l -> b ∈ bodies) ->
            map (paramsOf s') (omap (instanceOf time s') l)
            = omap (expectedOf time bodies) l).
  { induction l as [|b l IHl]; intros Hl; [done|].
    cbn [omap list_omap]. unfold instanceOf at 1, expectedOf at 1.
    assert (Hb : b ∈ bodies) by (apply Hl; by left).
    assert (Hl' : forall b0, b0 ∈ l -> b0 ∈ bodies)
      by (intros b0 H0; apply Hl; by right).
    destruct (keyOf b) as [k|] eqn:Hk; [|by apply IHl].
    destruct (lastColor_elem bodies b k Hb Hk) as [c Hc].
    destruct (HB k c Hc) as (m & Hm & Hcol).
    rewrite Hm, Hc. cbn [map]. rewrite IHl by done.
    f_equal. unfold paramsOf. cbn [i_mesh i_position i_orientation i_scale].
    by rewrite Hcol. }
  by apply Hsub.
Qed.

(** What a callback does to the cache and to the build observer: nothing,
    or one entry for a body that had none. *)
Lemma bodyCallback_cache time b s :
  let s' := finalState (bodyCallback time b s) in
  (verticesMeshes s' = verticesMeshes s /\ built s' = built s)
  \/ (keyOf b = Some (KVerts (ident b))
      /\ verticesMeshes s !! ident b = None
      /\ verticesMeshes s' = <[ident b := fresh (dom (meshes s))]> (verticesMeshes s)
      /\ built s' = built s ++ [ident b]).
Proof.
  cbv zeta. destruct (keyOf b) as [[| |i]|] eqn:Hk.
  - rewrite bodyCallback_rect by done. by left.
  - rewrite bodyCallback_circle by done. by left.
  - pose proof (keyOf_verts b i Hk) as ->.
    destruct (verticesMeshes s !! ident b) as [m|] eqn:Hc.
    { rewrite (bodyCallback_cached time b s m) by done. by left. }
    destruct (vertices (body b)) as [|first rest] eqn:Hv.
    { rewrite bodyCallback_no_vertex by done. by left. }
    rewrite (bodyCallback_first_sight time b s first rest) by done.
    right. by repeat split.
  - rewrite bodyCallback_other by done. by left.
Qed.

Lemma cacheInv_callback time b s :
  cacheInv s ->
  let s' := finalState (bodyCallback time b s) in
  cacheInv s'
  /\ built s `prefix_of` built s'
  /\ (forall i m, verticesMeshes s !! i = Some m -> verticesMeshes s' !! i = Some m).
Proof.
  intros [Hnd Hiff]. cbv zeta.
  destruct (bodyCallback_cache time b s) as [[Hc Hb]|(Hk & Hnone & Hc & Hb)];
    rewrite ?Hc, ?Hb.
  - split; [|split]; [|done|done]. split; [by rewrite Hb|].
    intros i. by rewrite Hb, Hc.
  - split; [|split].
    + split.
      * rewrite Hb. apply NoDup_app. split; [done|]. split; [|apply NoDup_singleton].
        intros i Hi Hin. apply list_elem_of_singleton in Hin as ->.
        apply Hiff in Hi. rewrite Hnone in Hi. by destruct Hi.
      * intros i. rewrite Hb, Hc, elem_of_app, list_elem_of_singleton, Hiff.
        rewrite lookup_insert_is_Some.
        destruct (decide (ident b = i)) as [->|Hne]; [by split; auto|].
        split.
        { intros [H|H]; [by right|congruence]. }
        intros [H|[_ H]]; [congruence|by left].
    + by apply prefix_app_r.
    + intros i m Hi. rewrite lookup_insert_ne; [done|]. congruence.
Qed.

Lemma cacheInv_execute time bodies s :
  cacheInv s ->
  let s' := finalState (execute time bodies s) in
  cacheInv s'
  /\ built s `prefix_of` built s'
  /\ (forall i m, verticesMeshes s !! i = Some m -> verticesMeshes s' !! i = Some m).
Proof.
  revert s. induction bodies as [|b rest IH]; intros s Hinv; [done|].
  cbv zeta. cbn [execute]. rewrite finalState_bind.
  destruct (cacheInv_callback time b s Hinv) as (Hinv1 & Hpre1 & Hmono1).
  destruct (bodyCallback time b s) as [[] s1|s1]; cbn [finalState] in *.
  - destruct (IH s1 Hinv1) as (Hinv2 & Hpre2 & Hmono2).
    split; [done|]. split; [by etrans|]. intros i m Hi. by apply Hmono2, Hmono1.
  - done.
Qed.

End VisualizerPass.

Section VisualizerClaims.
Import Visualizer.

Implicit Types (s : RState) (b : Physics2DBody) (k : Key) (m : positive).

Lemma init_unfold :
  let r := fresh (dom (∅ : gmap positive Mesh)) in
  let c := fresh (dom (<[r := rectangleMesh]> (∅ : gmap positive Mesh))) in
  init = mkRState (<[c := circleMeshValue]> (<[r := rectangleMesh]> ∅)) r c ∅
           (mkQuat 0 0 0 1) [] [].
Proof. reflexivity. Qed.

Lemma wellFormed_init : wellFormed init.
Proof.
  pose proof init_unfold as Hi. cbv zeta in Hi. rewrite Hi. clear Hi.
  set (r := fresh (dom (∅ : gmap positive Mesh))).
  set (c := fresh (dom (<[r := rectangleMesh]> (∅ : gmap positive Mesh)))).
  assert (Hcr : c <> r).
  { intros Heq. pose proof (is_fresh (dom (<[r := rectangleMesh]> (∅ : gmap positive Mesh)))) as Hf.
    fold c in Hf. rewrite Heq in Hf. apply Hf.
    apply elem_of_dom. by rewrite lookup_insert_eq. }
  split.
  - intros [| |i] m; cbn [meshOf rectMesh circleMesh verticesMeshes meshes].
    + intros [= <-]. by rewrite lookup_insert_ne, lookup_insert_eq.
    + intros [= <-]. by rewrite lookup_insert_eq.
    + by rewrite lookup_empty.
  - intros [| |i] [| |j] m;
      cbn [meshOf rectMesh circleMesh verticesMeshes]; rewrite ?lookup_empty;
      try done; congruence.
Qed.

Lemma cacheInv_init : cacheInv init.
Proof.
  pose proof init_unfold as Hi. cbv zeta in Hi. rewrite Hi. clear Hi.
  split; cbn [built verticesMeshes]; [apply NoDup_nil_2|].
  intros i. rewrite lookup_empty. split.
  - intros H. by apply elem_of_nil in H.
  - by intros [? ?].
Qed.

Lemma wellFormed_runFrames frames s :
  wellFormed s -> wellFormed (runFrames frames s).
Proof.
  revert s. induction frames as [|[time bodies] rest IH]; intros s Hwf; [done|].
  cbn [runFrames]. by apply IH, wellFormed_execute.
Qed.

Lemma cacheInv_runFrames frames s : cacheInv s -> cacheInv (runFrames frames s).
Proof.
  revert s. induction frames as [|[time bodies] rest IH]; intros s Hinv; [done|].
  cbn [runFrames]. apply IH.
  by destruct (cacheInv_execute time bodies s Hinv) as [? _].
Qed.

Lemma cache_mono_callback time b s i m :
  verticesMeshes s !! i = Some m ->
  verticesMeshes (finalState (bodyCallback time b s)) !! i = Some m.
Proof.
  intros Hi.
  destruct (bodyCallback_cache time b s) as [[-> _]|(_ & Hnone & -> & _)]; [done|].
  rewrite lookup_insert_ne; [done|]. congruence.
Qed.

(** A pass goes through when every [fromVertices] body in it has an
    outline mesh in the cache or at least one vertex. *)
Lemma execute_completes time bodies s :
  (forall b, b ∈ bodies -> keyOf b = Some (KVerts (ident b)) ->
     is_Some (verticesMeshes s !! ident b) \/ vertices (body b) <> []) ->
  exists s', execute time bodies s = Done tt s'.
Proof.
  revert s. induction bodies as [|b rest IH]; intros s Hall; [by exists s|].
  cbn [execute]. unfold bind.
  assert (Hcb : exists s1, bodyCallback time b s = Done tt s1).
  { destruct (keyOf b) as [[| |i]|] eqn:Hk.
    - rewrite bodyCallback_rect by done. by eexists.
    - rewrite bodyCallback_circle by done. by eexists.
    - pose proof (keyOf_verts b i Hk) as ->.
      destruct (verticesMeshes s !! ident b) as [m|] eqn:Hc.
      { rewrite (bodyCallback_cached time b s m) by done. by eexists. }
      destruct (vertices (body b)) as [|first tl] eqn:Hv.
      { destruct (Hall b) as [[? ?]|Hne]; [by left|done|congruence|done]. }
      rewrite (bodyCallback_first_sight time b s first tl) by done. by eexists.
    - rewrite bodyCallback_other by done. by eexists. }
  destruct Hcb as [s1 Hcb]. rewrite Hcb. apply IH.
  intros b0 Hin Hk0. destruct (Hall b0) as [[m Hm]|Hne]; [by right|done| |by right].
  left. exists m. pose proof (cache_mono_callback time b s (ident b0) m Hm) as H.
  by rewrite Hcb in H.
Qed.

(** C7: the parameters the debug pass submits are a function of the body
    states and the time. When a pass over [bodies] at [time] goes through
    from a state whose meshes are distinct objects, the position,
    orientation, scale and colour of the instances it has submitted are
    the list [expected time bodies], which is computed from the bodies and
    the time alone; running the pass once more on the same bodies at the
    same time goes through and submits the same parameters, and so does a
    pass from any other such state (another cache, other colours left in
    the materials, another scratch quaternion). *)
Theorem C7_pass_determined_by_bodies_and_time time bodies s s' :
  wellFormed s -> execute time bodies s = Done tt s' ->
  map (paramsOf s') (submitted s s') = expected time bodies
  /\ (exists s'',
        execute time bodies s' = Done tt s''
        /\ map (paramsOf s'') (submitted s' s'')
           = map (paramsOf s') (submitted s s'))
  /\ (forall s2 s2',
        wellFormed s2 -> execute time bodies s2 = Done tt s2' ->
        map (paramsOf s2') (submitted s2 s2')
        = map (paramsOf s') (submitted s s')).
Proof.
  intros Hwf Hrun.
  pose proof (execute_params time bodies s s' Hwf Hrun) as Hp.
  split; [done|]. split.
  - destruct (execute_spec time bodies s s' Hwf Hrun) as (_ & HB & _).
    destruct (execute_completes time bodies s') as [s'' Hrun2].
    { intros b Hin Hk. left.
      destruct (lastColor_elem bodies b _ Hin Hk) as [c Hc].
      destruct (HB _ c Hc) as (m & Hm & _). by exists m. }
    exists s''. split; [done|]. rewrite Hp.
    apply execute_params; [|done].
    pose proof (wellFormed_execute time bodies s Hwf) as Hwf'.
    by rewrite Hrun in Hwf'.
  - intros s2 s2' Hwf2 Hrun2. rewrite Hp. by apply execute_params.
Qed.

End VisualizerClaims.

Section VisualizerCache.
Import Visualizer.

Implicit Types (s : RState) (b : Physics2DBody) (k : Key) (m : positive).

Lemma C7_pass_determined_by_bodies_and_time_witness :
  exists s',
    execute 1 [rectBody; triangleBody] init = Done tt s'
    /\ map (paramsOf s') (submitted init s') = expected 1 [rectBody; triangleBody].
Proof.
  destruct (execute_completes 1 [rectBody; triangleBody] init) as [s' Hrun].
  { intros b Hin _. right.
    apply elem_of_cons in Hin as [->|Hin]; [done|].
    apply list_elem_of_singleton in Hin as ->. done. }
  exists s'. split; [exact Hrun|].
  exact (proj1 (C7_pass_determined_by_bodies_and_time 1 [rectBody; triangleBody]
                  init s' wellFormed_init Hrun)).
Defined.

Lemma keyOf_fromVertices b :
  type b = "fromVertices" -> keyOf b = Some (KVerts (ident b)).
Proof. unfold keyOf. by intros ->. Qed.

Lemma keyOf_rectangle b : type b = "rectangle" -> keyOf b = Some KRect.
Proof. unfold keyOf. by intros ->. Qed.

Lemma keyOf_circle b : type b = "circle" -> keyOf b = Some KCircle.
Proof. unfold keyOf. by intros ->. Qed.

(** Frame after frame the cache only grows and the builds only add up. *)
Lemma cache_kept_runFrames frames s :
  cacheInv s ->
  let s' := runFrames frames s in
  cacheInv s'
  /\ built s `prefix_of` built s'
  /\ (forall i m, verticesMeshes s !! i = Some m -> verticesMeshes s' !! i = Some m).
Proof.
  revert s. induction frames as [|[time bodies] rest IH]; intros s Hinv; [done|].
  cbv zeta. cbn [runFrames].
  destruct (cacheInv_execute time bodies s Hinv) as (Hinv1 & Hpre1 & Hmono1).
  cbv zeta in Hinv1, Hpre1, Hmono1.
  destruct (IH _ Hinv1) as (Hinv2 & Hpre2 & Hmono2). cbv zeta in Hinv2, Hpre2, Hmono2.
  split; [done|]. split; [by etrans|]. intros i m Hi. by apply Hmono2, Hmono1.
Qed.

(** A body that had its mesh before is not built for again. *)
Lemma cached_not_builtIn s s' (i : positive) :
  cacheInv s -> NoDup (built s') -> built s `prefix_of` built s' ->
  is_Some (verticesMeshes s !! i) -> i ∉ builtIn s s'.
Proof.
  intros [_ Hiff] Hnd [ext Hext] Hc. unfold builtIn.
  rewrite Hext, drop_app_length. rewrite Hext in Hnd.
  apply NoDup_app in Hnd as (_ & Hdisj & _). apply Hdisj. by apply Hiff.
Qed.

(** A body that had no mesh before and has one now was built for. *)
Lemma fresh_builtIn s s' (i : positive) :
  cacheInv s -> cacheInv s' -> built s `prefix_of` built s' ->
  verticesMeshes s !! i = None -> is_Some (verticesMeshes s' !! i) ->
  i ∈ builtIn s s'.
Proof.
  intros [_ Hiff] [_ Hiff'] [ext Hext] Hnone Hc. unfold builtIn.
  rewrite Hext, drop_app_length. apply Hiff' in Hc. rewrite Hext in Hc.
  apply elem_of_app in Hc as [Hc|Hc]; [|done].
  apply Hiff in Hc. rewrite Hnone in Hc. by destruct Hc.
Qed.

(** What a pass that goes through has done for a [fromVertices] body in
    it. *)
Lemma execute_outline time bodies s s' b :
  wellFormed s -> cacheInv s -> execute time bodies s = Done tt s' ->
  b ∈ bodies -> type b = "fromVertices" ->
  exists m mesh,
    verticesMeshes s' !! ident b = Some m
    /\ meshes s' !! m = Some mesh
    /\ mkInstance m (positionOf b) None (orientationOf b) ∈ submitted s s'
    /\ ident b ∈ built s'
    /\ (forall m0, verticesMeshes s !! ident b = Some m0 ->
          m = m0 /\ ident b ∉ builtIn s s')
    /\ (verticesMeshes s !! ident b = None -> ident b ∈ builtIn s s').
Proof.
  intros Hwf Hinv Hrun Hin Ht. apply keyOf_fromVertices in Ht.
  destruct (execute_spec time bodies s s' Hwf Hrun) as (_ & HB & HC).
  destruct (lastColor_elem bodies b _ Hin Ht) as [c Hc].
  destruct (HB _ c Hc) as (m & Hm & _). cbn [meshOf] in Hm.
  pose proof (wellFormed_execute time bodies s Hwf) as Hwf'.
  rewrite Hrun in Hwf'. cbn [finalState] in Hwf'.
  destruct (proj1 Hwf' (KVerts (ident b)) m Hm) as [mesh Hmesh].
  destruct (cacheInv_execute time bodies s Hinv) as (Hinv' & Hpre & Hmono).
  cbv zeta in Hinv', Hpre, Hmono. rewrite Hrun in Hinv', Hpre, Hmono.
  cbn [finalState] in Hinv', Hpre, Hmono.
  exists m, mesh. split; [done|]. split; [done|]. split; [|split; [|split]].
  - unfold submitted. rewrite HC, drop_app_length.
    apply list_elem_of_omap. exists b. split; [done|].
    unfold instanceOf. rewrite Ht. cbn [meshOf]. rewrite Hm.
    by rewrite (scaleOf_verts time b _ Ht).
  - apply (proj2 Hinv'). by exists m.
  - intros m0 Hm0. split.
    + apply Hmono in Hm0. congruence.
    + apply cached_not_builtIn; [done|apply Hinv'|done|by exists m0].
  - intros Hnone. apply fresh_builtIn; [done|done|done|done|by exists m].
Qed.

(** C8: the outline mesh of a [fromVertices] body. [getOrCreateVerticesMesh]
    gives a body that has a mesh in the cache that very mesh back and
    changes nothing; for a body that has none and has vertices it makes a
    new mesh object from the outline of the vertices, puts it into the
    store, caches it under the body and records the build. Over any number
    of frames from [init] no body has a mesh built twice, and a pass never
    drops or replaces a cache entry and only adds to the builds. A pass
    that goes through leaves every [fromVertices] body in it with a cached
    mesh that exists in the store and has submitted an instance of that
    mesh for the body, without a scale; for a body cached before the pass
    this is the mesh cached before and nothing is built for the body, for
    a body not cached before the build is recorded in this pass. Once a
    body is cached, any number of later frames keep its entry and build
    nothing for it. The callback submits the [fromVertices] instance
    without a scale, whereas rectangles and circles are submitted with
    their size times the pulse. *)
Theorem C8_outline_mesh_built_once_and_unscaled :
  (forall b s m,
      verticesMeshes s !! ident b = Some m ->
      getOrCreateVerticesMesh b s = Done m s)
  /\ (forall b s first rest,
        verticesMeshes s !! ident b = None ->
        vertices (body b) = first :: rest ->
        exists m,
          meshes s !! m = None
          /\ getOrCreateVerticesMesh b s =
             Done m
               (mkRState
                  (<[m := mkMesh (outlineVertices (vertices (body b)) first
                                    (position (body b)))
                            (length (vertices (body b)) + 1) "line-strip"
                            (mkVec3 0.0 1.0 0.2) "less-equal" (mkVec3 0.1 0.4 0.1)
                            "Vertices Visualization Mesh"]> (meshes s))
                  (rectMesh s) (circleMesh s)
                  (<[ident b := m]> (verticesMeshes s)) (tmpQuat s) (frame s)
                  (built s ++ [ident b])))
  /\ (forall frames, NoDup (built (runFrames frames init)))
  /\ (forall time bodies s,
        cacheInv s ->
        let s' := finalState (execute time bodies s) in
        NoDup (built s') /\ built s `prefix_of` built s'
        /\ (forall i m, verticesMeshes s !! i = Some m ->
                        verticesMeshes s' !! i = Some m))
  /\ (forall time bodies s s' b,
        wellFormed s -> cacheInv s -> execute time bodies s = Done tt s' ->
        b ∈ bodies -> type b = "fromVertices" ->
        exists m mesh,
          verticesMeshes s' !! ident b = Some m
          /\ meshes s' !! m = Some mesh
          /\ mkInstance m (positionOf b) None (orientationOf b) ∈ submitted s s'
          /\ ident b ∈ built s'
          /\ (forall m0, verticesMeshes s !! ident b = Some m0 ->
                m = m0 /\ ident b ∉ builtIn s s')
          /\ (verticesMeshes s !! ident b = None -> ident b ∈ builtIn s s'))
  /\ (forall frames s b m,
        cacheInv s -> verticesMeshes s !! ident b = Some m ->
        let s' := runFrames frames s in
        verticesMeshes s' !! ident b = Some m
        /\ NoDup (built s') /\ built s `prefix_of` built s'
        /\ ident b ∉ builtIn s s')
  /\ (forall time b s m,
        type b = "fromVertices" ->
        verticesMeshes s !! ident b = Some m ->
        exists s',
          bodyCallback time b s = Done tt s'
          /\ frame s' = frame s ++ [mkInstance m (positionOf b) None (orientationOf b)]
          /\ verticesMeshes s' = verticesMeshes s /\ built s' = built s)
  /\ (forall time b s first rest,
        type b = "fromVertices" ->
        verticesMeshes s !! ident b = None ->
        vertices (body b) = first :: rest ->
        let m := fresh (dom (meshes s)) in
        bodyCallback time b s =
        Done tt
          (mkRState
             (alter (withColor (velocityColor b)) m
                (<[m := mkMesh (outlineVertices (vertices (body b)) first
                                  (position (body b)))
                          (length (vertices (body b)) + 1) "line-strip"
                          (mkVec3 0.0 1.0 0.2) "less-equal" (mkVec3 0.1 0.4 0.1)
                          "Vertices Visualization Mesh"]> (meshes s)))
             (rectMesh s) (circleMesh s) (<[ident b := m]> (verticesMeshes s))
             (orientationOf b)
             (frame s ++ [mkInstance m (positionOf b) None (orientationOf b)])
             (built s ++ [ident b])))
  /\ (forall time b s s',
        type b = "fromVertices" ->
        bodyCallback time b s = Done tt s' ->
        exists m,
          verticesMeshes s' !! ident b = Some m
          /\ frame s' = frame s ++ [mkInstance m (positionOf b) None (orientationOf b)])
  /\ (forall time b s,
        type b = "rectangle" ->
        exists s',
          bodyCallback time b s = Done tt s'
          /\ frame s' = frame s ++
               [mkInstance (rectMesh s) (positionOf b)
                  (Some (mkVec3 (width b * pulse time) 1 (height b * pulse time)))
                  (orientationOf b)])
  /\ (forall time b s,
        type b = "circle" ->
        exists s',
          bodyCallback time b s = Done tt s'
          /\ frame s' = frame s ++
               [mkInstance (circleMesh s) (positionOf b)
                  (Some (mkVec3 (radius b * pulse time) 1 (radius b * pulse time)))
                  (orientationOf b)]).
Proof.
  split; [|split; [|split; [|split; [|split; [|split; [|split; [|split;
    [|split; [|split]]]]]]]]].
  - intros b s m Hm. unfold getOrCreateVerticesMesh. by rewrite Hm.
  - intros b s first rest Hnone Hv. exists (fresh (dom (meshes s))).
    split; [apply not_elem_of_dom, is_fresh|].
    unfold getOrCreateVerticesMesh. rewrite Hnone, Hv. reflexivity.
  - intros frames. apply (cacheInv_runFrames frames init cacheInv_init).
  - intros time bodies s Hinv. cbv zeta.
    destruct (cacheInv_execute time bodies s Hinv) as ([Hnd _] & Hpre & Hmono).
    by repeat split.
  - apply execute_outline.
  - intros frames s b m Hinv Hm. cbv zeta.
    destruct (cache_kept_runFrames frames s Hinv) as (Hinv' & Hpre & Hmono).
    cbv zeta in Hinv', Hpre, Hmono.
    split; [by apply Hmono|]. split; [apply Hinv'|]. split; [done|].
    apply cached_not_builtIn; [done|apply Hinv'|done|by exists m].
  - intros time b s m Ht Hm. apply keyOf_fromVertices in Ht.
    rewrite (bodyCallback_cached time b s m) by done. eexists.
    split; [reflexivity|]. by repeat split.
  - intros time b s first rest Ht Hnone Hv. apply keyOf_fromVertices in Ht.
    by apply (bodyCallback_first_sight time b s first rest).
  - intros time b s s' Ht Hrun. apply keyOf_fromVertices in Ht.
    destruct (verticesMeshes s !! ident b) as [m|] eqn:Hc.
    { rewrite (bodyCallback_cached time b s m) in Hrun by done.
      injection Hrun as <-. exists m. by split. }
    destruct (vertices (body b)) as [|first rest] eqn:Hv.
    { by rewrite bodyCallback_no_vertex in Hrun. }
    rewrite (bodyCallback_first_sight time b s first rest) in Hrun by done.
    cbv zeta in Hrun. injection Hrun as <-. eexists.
    cbn [verticesMeshes frame]. split; [by rewrite lookup_insert_eq|done].
  - intros time b s Ht. apply keyOf_rectangle in Ht.
    rewrite bodyCallback_rect by done. eexists. split; [reflexivity|].
    cbn [frame]. by rewrite (scaleOf_rect time b Ht).
  - intros time b s Ht. apply keyOf_circle in Ht.
    rewrite bodyCallback_circle by done. eexists. split; [reflexivity|].
    cbn [frame]. by rewrite (scaleOf_circle time b Ht).
Qed.

Lemma C8_outline_mesh_built_once_and_unscaled_witness :
  exists s1 s2 m mesh,
    execute 1 [rectBody; triangleBody] init = Done tt s1
    /\ verticesMeshes s1 !! ident triangleBody = Some m
    /\ meshes s1 !! m = Some mesh
    /\ mkInstance m (positionOf triangleBody) None (orientationOf triangleBody)
       ∈ submitted init s1
    /\ ident triangleBody ∈ builtIn init s1
    /\ execute 2 [triangleBody; rectBody] s1 = Done tt s2
    /\ verticesMeshes s2 !! ident triangleBody = Some m
    /\ mkInstance m (positionOf triangleBody) None (orientationOf triangleBody)
       ∈ submitted s1 s2
    /\ ident triangleBody ∉ builtIn s1 s2.
Proof.
  destruct C8_outline_mesh_built_once_and_unscaled
    as (_ & _ & _ & _ & Hpass & _).
  destruct (execute_completes 1 [rectBody; triangleBody] init) as [s1 Hrun1].
  { intros b Hin _. right.
    apply elem_of_cons in Hin as [->|Hin]; [done|].
    apply list_elem_of_singleton in Hin as ->. done. }
  assert (Hin1 : triangleBody ∈ [rectBody; triangleBody])
    by (apply elem_of_cons; right; apply elem_of_cons; by left).
  destruct (Hpass 1 [rectBody; triangleBody] init s1 triangleBody
              wellFormed_init cacheInv_init Hrun1 Hin1 eq_refl)
    as (m & mesh & Hc1 & Hm1 & Hsub1 & _ & _ & Hnew).
  assert (Hwf1 : wellFormed s1).
  { pose proof (wellFormed_execute 1 [rectBody; triangleBody] init wellFormed_init) as H.
    by rewrite Hrun1 in H. }
  assert (Hinv1 : cacheInv s1).
  { destruct (cacheInv_execute 1 [rectBody; triangleBody] init cacheInv_init) as [H _].
    by rewrite Hrun1 in H. }
  destruct (execute_completes 2 [triangleBody; rectBody] s1) as [s2 Hrun2].
  { intros b Hin Hk. apply elem_of_cons in Hin as [->|Hin]; [left; by exists m|].
    apply list_elem_of_singleton in Hin as ->. done. }
  assert (Hin2 : triangleBody ∈ [triangleBody; rectBody])
    by (apply elem_of_cons; by left).
  destruct (Hpass 2 [triangleBody; rectBody] s1 s2 triangleBody
              Hwf1 Hinv1 Hrun2 Hin2 eq_refl)
    as (m2 & mesh2 & Hc2 & _ & Hsub2 & _ & Hold & _).
  destruct (Hold m Hc1) as [-> Hnot].
  exists s1, s2, m, mesh.
  split; [exact Hrun1|]. split; [exact Hc1|]. split; [exact Hm1|].
  split; [exact Hsub1|]. split; [|split; [exact Hrun2|split; [exact Hc2|split;
    [exact Hsub2|exact Hnot]]]].
  apply Hnew. pose proof init_unfold as Hi. cbv zeta in Hi. rewrite Hi.
  apply lookup_empty.
Defined.

End VisualizerCache.

(** * Further properties of the tick *)

Section TickFrame.
Import BallSystem.

Implicit Types (s : State) (es : list Entity) (loc : Locals) (e : Entity).

(** The entity the callback leaves behind, field by field. *)
Lemma ballCallback_entity paddleState time rnd i e ball pb (transform : Vec3) loc :
  let r := positionOnPaddle paddleState rnd ball (body pb) loc in
  let ball2 := colorBySpeed time (magnitude (velocity r.1.2)) r.1.1 in
  (ballCallback paddleState time rnd i e ball pb transform loc).1 =
  mkEntity (Some ball2)
    (Some (withBody pb (curveMotion time ball2 (maintainSpeed r.1.1 r.1.2))))
    (Some transform)
    (match e_light e with
     | Some l => Some (mkPointLight (color ball2) (glowIntensity ball2) (lrange l))
     | None => None
     end)
    (e_paddle e) (e_bonusBall e)
    (if Rlt_dec 30 (c2 transform) then true else e_dead e)
    (e_damage e) (e_shadow e) (e_name e).
Proof.
  cbv zeta. unfold ballCallback.
  destruct (positionOnPaddle paddleState rnd ball (body pb) loc) as [[ball1 b1] loc1].
  cbn [fst snd]. by destruct (Rlt_dec 30 (c2 transform)).
Qed.

(** What a visit of the ball loop keeps of an entity. *)
Lemma ballVisit_frame paddleState time rnd i e loc :
  let e' := (ballVisit paddleState time rnd i e loc).1 in
  e_transform e' = e_transform e /\ e_paddle e' = e_paddle e
  /\ e_bonusBall e' = e_bonusBall e /\ e_damage e' = e_damage e
  /\ e_shadow e' = e_shadow e /\ e_name e' = e_name e
  /\ e_dead e' = e_dead e || (inBallQuery e && beyondLoss e)
  /\ inBallQuery e' = inBallQuery e
  /\ (inBallQuery e = false -> e' = e).
Proof.
  cbv zeta. unfold ballVisit, inBallQuery, beyondLoss.
  destruct (e_ball e) as [ball|] eqn:Hb;
    [|cbn; rewrite Hb; by rewrite orb_false_r].
  destruct (e_body e) as [pb|] eqn:Hp;
    [|cbn; rewrite Hb, Hp; by rewrite orb_false_r].
  destruct (e_transform e) as [t|] eqn:Ht;
    [|cbn; rewrite Hb, Hp, Ht; by rewrite orb_false_r].
  pose proof (ballCallback_entity paddleState time rnd i e ball pb t loc) as He.
  cbv zeta in He. rewrite He.
  cbn [e_transform e_paddle e_bonusBall e_damage e_shadow e_name e_dead e_ball e_body andb].
  repeat split; try done.
  destruct (Rlt_dec 30 (c2 t)); [by rewrite orb_true_r|by rewrite orb_false_r].
Qed.

(** Every entity of the store is, when the tick ends, what its visit by the
    ball loop made of it. *)
Lemma execute_lookup time flags rnd s i e :
  entities s !! i = Some e ->
  exists loc0,
    entities (finalState (execute time flags rnd s)) !! i
    = Some (ballVisit (paddleLoop (entities s) None) time rnd i e loc0).1.
Proof.
  intros Hi. rewrite execute_unfold. cbv zeta.
  set (ps := paddleLoop (entities s) None).
  set (loc := mkLocals 0 false 0 (drawn s) (tagged s)).
  destruct (ballLoop_lookup ps time rnd (entities s) 0 loc i e Hi) as [loc0 Hlk].
  destruct (afterLoop_spec flags rnd
              (bonusRequests (ballLoop ps time rnd 0 (entities s) loc).1) ps
              (ballLoop ps time rnd 0 (entities s) loc).2
              (mkState (ballLoop ps time rnd 0 (entities s) loc).1
                 (gameState s) (ballScene s)
                 (l_drawn (ballLoop ps time rnd 0 (entities s) loc).2)
                 (l_tagged (ballLoop ps time rnd 0 (entities s) loc).2)))
    as [(_ & _ & _ & _ & Hpre) _].
  cbn [entities] in Hpre. exists loc0.
  by eapply prefix_lookup_Some.
Qed.

Lemma execute_keeps time flags rnd s :
  let s' := finalState (execute time flags rnd s) in
  ballScene s' = ballScene s
  /\ level (gameState s') = level (gameState s)
  /\ levelStarting (gameState s') = levelStarting (gameState s)
  /\ (length (entities s) <= length (entities s'))%nat.
Proof.
  cbv zeta. rewrite execute_unfold. cbv zeta.
  set (ps := paddleLoop (entities s) None).
  set (loc := mkLocals 0 false 0 (drawn s) (tagged s)).
  pose proof (ballLoop_counts ps time rnd (entities s) 0 loc) as Hc.
  destruct (ballLoop ps time rnd 0 (entities s) loc) as [es1 loc1]. cbn [fst snd].
  destruct Hc as (_ & _ & Hlen).
  destruct (afterLoop_spec flags rnd (bonusRequests es1) ps loc1
              (mkState es1 (gameState s) (ballScene s) (l_drawn loc1)
                 (l_tagged loc1))) as [(Hb & _ & Hl & Hs & Hpre) _].
  cbv zeta in Hb, Hl, Hs, Hpre. cbn [ballScene gameState entities] in *.
  repeat split; try done.
  apply prefix_length in Hpre. lia.
Qed.

(** X2: a tick removes no entity and touches only what the ball query
    matches. Every entity of the store is still there at its index when
    the tick ends, raised or not; an entity the ball query does not match
    is exactly what it was; a matched one keeps its transform, paddle,
    bonus tag, damage, shadow light and name, and carries the dead tag
    afterwards exactly when it carried it before or its depth coordinate
    is beyond 30. *)
Theorem X2_tick_touches_only_balls time flags rnd s :
  let s' := finalState (execute time flags rnd s) in
  (length (entities s) <= length (entities s'))%nat
  /\ forall i e,
       entities s !! i = Some e ->
       exists e',
         entities s' !! i = Some e'
         /\ (inBallQuery e = false -> e' = e)
         /\ e_transform e' = e_transform e /\ e_paddle e' = e_paddle e
         /\ e_bonusBall e' = e_bonusBall e /\ e_damage e' = e_damage e
         /\ e_shadow e' = e_shadow e /\ e_name e' = e_name e
         /\ e_dead e' = e_dead e || (inBallQuery e && beyondLoss e).
Proof.
  cbv zeta. split; [apply execute_keeps|].
  intros i e Hi.
  destruct (execute_lookup time flags rnd s i e Hi) as [loc0 Hlk].
  pose proof (ballVisit_frame (paddleLoop (entities s) None) time rnd i e loc0) as Hf.
  cbv zeta in Hf. destruct Hf as (H1 & H2 & H3 & H4 & H5 & H6 & H7 & _ & H9).
  eexists. split; [exact Hlk|]. by repeat split.
Qed.

Lemma X2_tick_touches_only_balls_witness :
  entities (finalState (execute 0 (mkFlags false false) (fun _ => 0)
                          (oneBallState 29))) !! 0%nat = Some paddleEntity.
Proof.
  destruct (X2_tick_touches_only_balls 0 (mkFlags false false) (fun _ => 0)
              (oneBallState 29)) as [_ H].
  destruct (H 0%nat paddleEntity eq_refl) as (e' & Hi & Hsame & _).
  rewrite Hi. f_equal. by apply Hsame.
Defined.

(** X3: what a tick does to the game state and to the asset flag. The
    level, the starting flag and the flag of the loaded asset are never
    changed; [lives] never goes up and goes down by at most one; it stays
    as it is whenever a ball is counted alive. *)
Theorem X3_tick_game_state time flags rnd s :
  let s' := finalState (execute time flags rnd s) in
  level (gameState s') = level (gameState s)
  /\ levelStarting (gameState s') = levelStarting (gameState s)
  /\ ballScene s' = ballScene s
  /\ (lives (gameState s) - 1 <= lives (gameState s') <= lives (gameState s))%Z
  /\ (aliveBalls (entities s) <> 0%nat ->
      lives (gameState s') = lives (gameState s)).
Proof.
  cbv zeta.
  destruct (execute_keeps time flags rnd s) as (Hb & Hl & Hs & _).
  pose proof (execute_lives time flags rnd s) as Hlives. cbv zeta in Hlives.
  split; [done|]. split; [done|]. split; [done|]. split.
  - rewrite Hlives. destruct (_ && _ && _); lia.
  - intros Ha. rewrite Hlives.
    destruct (Nat.eqb_spec (aliveBalls (entities s)) 0) as [H0|_]; [done|].
    by rewrite andb_false_r.
Qed.

Lemma X3_tick_game_state_witness :
  lives (gameState (finalState (execute 0 (mkFlags false false) (fun _ => 0)
                                  (oneBallState 29)))) = 3%Z.
Proof.
  destruct (X3_tick_game_state 0 (mkFlags false false) (fun _ => 0)
              (oneBallState 29)) as (_ & _ & _ & _ & H).
  rewrite H; [reflexivity|].
  cbn [oneBallState entities aliveBalls]. rewrite beyondLoss_ballAt.
  destruct (Rlt_dec 30 29); [lra|]. cbn. lia.
Defined.

End TickFrame.

Section TickErrors.
Import BallSystem.

Implicit Types (s : State) (es : list Entity) (loc : Locals) (e : Entity).

Lemma completes_bind_total {St A B : Type} (m : M St A) (f : A -> M St B) (st : St) :
  (forall a st', completes (f a st') = true) ->
  completes (bind m f st) = completes (m st).
Proof. intros Hf. unfold bind. destruct (m st); [apply Hf|done]. Qed.

(** Before the asset is loaded the bonus pass goes through only when
    there is nothing to do. *)
Lemma bonusLoop_not_loaded flags rnd requests s :
  ballScene s = false ->
  completes (bonusLoop flags rnd requests s)
  = match requests with [] => true | _ :: _ => false end
  /\ (requests = [] -> bonusLoop flags rnd requests s = Done tt s).
Proof.
  intros Hb. destruct requests as [|t rest]; [done|].
  split; [|done]. cbn [bonusLoop]. unfold bind at 1.
  unfold bonusCallback, vec3_fromValues. cbv zeta. unfold bind.
  by rewrite spawnBall_not_loaded.
Qed.

(** The requests the bonus pass finds after the ball loop, from the store
    the tick started with. *)
Lemma ballLoop_requests paddleState time rnd i es loc :
  bonusRequests (ballLoop paddleState time rnd i es loc).1 = omap requestAfter es.
Proof.
  revert i loc. induction es as [|e es IH]; intros i loc; [done|].
  cbn [ballLoop].
  pose proof (ballVisit_frame paddleState time rnd i e loc) as Hf. cbv zeta in Hf.
  destruct (ballVisit paddleState time rnd i e loc) as [e1 loc1].
  cbn [fst] in Hf. destruct Hf as (Ht & _ & Hbb & _ & _ & _ & Hd & _).
  specialize (IH (S i) loc1).
  destruct (ballLoop paddleState time rnd (S i) es loc1) as [es2 loc2].
  cbn [fst] in *. unfold bonusRequests in *. cbn [omap list_omap].
  rewrite IH. unfold requestAfter at 2. by rewrite Hbb, Hd, Ht.
Qed.

Lemma respawn_raises_iff paddleState flags loc s :
  completes (respawn paddleState flags loc s) = false
  <-> paddleState = None /\ ballCount loc = 0%nat
      /\ levelStarting (gameState s) = false
      /\ ((if lostBall loc then 1 else 0) < lives (gameState s))%Z.
Proof.
  unfold respawn. destruct (Nat.eqb_spec (ballCount loc) 0) as [Hc|Hc].
  2: { cbn. split; [done|]. by intros (_ & ? & _). }
  set (s1 := if lostBall loc then loseLife s else s).
  assert (Hs1 : levelStarting (gameState s1) = levelStarting (gameState s)
                /\ lives (gameState s1)
                   = (lives (gameState s) - if lostBall loc then 1 else 0)%Z).
  { subst s1. destruct (lostBall loc); cbn; split; try done; lia. }
  destruct Hs1 as [-> Hl].
  destruct (levelStarting (gameState s)); cbn [negb andb completes].
  { split; [done|]. by intros (_ & _ & ? & _). }
  destruct (Z.ltb_spec 0 (lives (gameState s1))) as [Hpos|Hneg].
  - destruct paddleState as [paddle|]; cbn [completes].
    + unfold bind, ret.
      destruct (spawnBall_keeps (mkVec3 (px paddle) 1 23) None (ballShadows flags)
                  ∅ s1) as (r & s2 & -> & _).
      cbn. split; [done|]. by intros (? & _).
    + split; [|done]. intros _. repeat split; try done. lia.
  - cbn. split; [done|]. intros (_ & _ & _ & Hlt). lia.
Qed.

(** X1: when a tick raises. A tick ends in a [TypeError] in exactly two
    situations: the ball asset is not loaded while some entity is a bonus
    request (it carries [BonusBall] and a transform and is tagged dead,
    from before or by this tick's loss check); or the bonus pass went
    through, no entity carries a paddle, no ball is counted alive, the
    level is not starting and a life is left once the loss, if any, has
    been charged. In every other situation the tick completes. *)
Theorem X1_tick_raises_iff time flags rnd s :
  completes (execute time flags rnd s) = false
  <-> (ballScene s = false /\ omap requestAfter (entities s) <> [])
      \/ ((ballScene s = true \/ omap requestAfter (entities s) = [])
          /\ paddleLoop (entities s) None = None
          /\ aliveBalls (entities s) = 0%nat
          /\ levelStarting (gameState s) = false
          /\ ((if anyLost (entities s) then 1 else 0) < lives (gameState s))%Z).
Proof.
  rewrite execute_unfold. cbv zeta.
  set (ps := paddleLoop (entities s) None).
  pose proof (ballLoop_counts ps time rnd (entities s) 0
                (mkLocals 0 false 0 (drawn s) (tagged s))) as Hc.
  pose proof (ballLoop_requests ps time rnd 0 (entities s)
                (mkLocals 0 false 0 (drawn s) (tagged s))) as Hreq.
  destruct (ballLoop ps time rnd 0 (entities s) _) as [es1 loc1].
  cbn [fst snd] in *. destruct Hc as (Hc & Hlost & _).
  cbn [ballCount lostBall orb Nat.add] in Hc, Hlost. rewrite Hreq.
  set (s1 := mkState es1 (gameState s) (ballScene s) (l_drawn loc1) (l_tagged loc1)).
  assert (Hb1 : ballScene s1 = ballScene s) by reflexivity.
  assert (Hg1 : gameState s1 = gameState s) by reflexivity.
  assert (Hrest : forall s2, gameState s2 = gameState s ->
            completes ((respawn ps flags loc1 >> autoLaunch ps flags loc1) s2) = false
            <-> ps = None /\ aliveBalls (entities s) = 0%nat
                /\ levelStarting (gameState s) = false
                /\ ((if anyLost (entities s) then 1 else 0) < lives (gameState s))%Z).
  { intros s2 Hg. rewrite completes_bind_total.
    - rewrite respawn_raises_iff, Hg, Hc, Hlost. done.
    - intros [] st'. by destruct (autoLaunch_keeps ps flags loc1 st') as (? & -> & _). }
  unfold bind at 1. clearbody s1.
  destruct (ballScene s) eqn:Hb.
  - rewrite bonusLoop_loaded by done.
    match goal with |- completes (_ ?st) = false <-> _ => rewrite (Hrest st) end.
    2: { cbn [gameState]. exact Hg1. }
    split.
    + intros H. right. split; [by left|done].
    + intros [[? _]|[_ H]]; [done|done].
  - destruct (bonusLoop_not_loaded flags rnd (omap requestAfter (entities s)) s1 Hb1)
      as [Hcomp Hnil].
    destruct (omap requestAfter (entities s)) as [|t rest] eqn:Hr.
    + rewrite Hnil by done. rewrite (Hrest s1 Hg1).
      split; [intros H; right; split; [by right|done]|].
      intros [[_ ?]|[_ H]]; [done|done].
    + destruct (bonusLoop flags rnd (t :: rest) s1); [done|].
      cbn. split; [|done]. intros _. by left.
Qed.

End TickErrors.

Section BallLooks.
Import BallSystem.

Implicit Types (s : State) (es : list Entity) (loc : Locals) (e : Entity).

Lemma colorBySpeed_bounds time speed' ball :
  0 <= speed' ->
  let ball' := colorBySpeed time speed' ball in
  0.2 <= c0 (color ball') <= 0.8
  /\ 0 <= c1 (color ball') <= 1
  /\ c2 (color ball') = 1 - c0 (color ball')
  /\ 30 <= glowIntensity ball' <= 130.
Proof.
  intros Hs. cbv zeta. unfold colorBySpeed. cbn [color glowIntensity c0 c1 c2].
  pose proof (SIN_bound (time * 0.5)) as [Ha1 Ha2].
  pose proof (SIN_bound time) as [Hb1 Hb2].
  assert (Habs : 0 <= Rabs (sin (time * 0.5)) <= 1).
  { split; [apply Rabs_pos|apply Rabs_le; lra]. }
  assert (Hmin : 0 <= Rmin (speed' * 70) 200 <= 200).
  { split; [apply Rmin_glb; lra|apply Rmin_r]. }
  repeat split; lra.
Qed.

(** X5: the light of a ball follows the ball. Every entity that is in the
    store when a tick starts, is matched by the ball query and carries a
    point light has, when that tick ends, raised or not, that light in the
    colour and intensity of its ball, whatever the light showed before,
    its range unchanged; the colour has a first component in [0.2, 0.8], a
    second in [0, 1] and a third that completes the first to 1, the
    intensity lies in [30, 130]; in particular the light does not show the
    fiery colour [1.0, 0.4, 0.2], even if the bonus pass of an earlier tick
    had left it in that colour. Entities spawned during the tick are not
    among those the statement is about: the ball loop has run before they
    exist. *)
Theorem X5_light_follows_ball time flags rnd s i e l :
  entities s !! i = Some e -> inBallQuery e = true -> e_light e = Some l ->
  exists e' ball' l',
    entities (finalState (execute time flags rnd s)) !! i = Some e'
    /\ e_ball e' = Some ball' /\ e_light e' = Some l'
    /\ lcolor l' = color ball' /\ lintensity l' = glowIntensity ball'
    /\ lrange l' = lrange l
    /\ 0.2 <= c0 (color ball') <= 0.8 /\ 0 <= c1 (color ball') <= 1
    /\ c2 (color ball') = 1 - c0 (color ball')
    /\ 30 <= glowIntensity ball' <= 130
    /\ lcolor l' <> mkVec3 1.0 0.4 0.2.
Proof.
  intros Hi Hq Hl.
  destruct (execute_lookup time flags rnd s i e Hi) as [loc0 Hlk].
  unfold ballVisit in Hlk. unfold inBallQuery in Hq.
  destruct (e_ball e) as [ball|]; [|done].
  destruct (e_body e) as [pb|]; [|done].
  destruct (e_transform e) as [t|]; [|done].
  pose proof (ballCallback_entity (paddleLoop (entities s) None) time rnd i e
                ball pb t loc0) as He.
  cbv zeta in He. rewrite He, Hl in Hlk. clear He.
  set (r := positionOnPaddle (paddleLoop (entities s) None) rnd ball (body pb) loc0) in *.
  pose proof (colorBySpeed_bounds time (magnitude (velocity r.1.2)) r.1.1
                (magnitude_nonneg _)) as Hb.
  cbv zeta in Hb. destruct Hb as (H0 & H1 & H2 & H3).
  eexists _, _, _. split; [exact Hlk|].
  cbn [e_ball e_light lcolor lintensity lrange].
  split; [reflexivity|]. split; [reflexivity|].
  split; [reflexivity|]. split; [reflexivity|]. split; [reflexivity|].
  split; [exact H0|]. split; [exact H1|]. split; [exact H2|]. split; [exact H3|].
  intros Heq. cbn [lcolor] in Heq. rewrite Heq in H0. cbn [c0] in H0. lra.
Qed.

Lemma X5_light_follows_ball_witness :
  exists e' l',
    entities (finalState (execute 0 (mkFlags false false) (fun _ => 0)
                            (oneBallState 29))) !! 1%nat = Some e'
    /\ e_light e' = Some l' /\ lrange l' = 30.
Proof.
  destruct (X5_light_follows_ball 0 (mkFlags false false) (fun _ => 0)
              (oneBallState 29) 1%nat (ballAt 29)
              (mkPointLight (mkVec3 0.0 0.5 1.0) 45 30) eq_refl eq_refl eq_refl)
    as (e' & ball' & l' & Hi & _ & Hl & _ & _ & Hr & _).
  exists e', l'. split; [exact Hi|]. split; [exact Hl|exact Hr].
Defined.

(** X6: a waiting ball rides the paddle. For a waiting ball at rest, with
    a paddle that does not signal a launch, the callback puts the body at
    the paddle's [x] and depth 23, leaves it at rest (neither the floor nor
    the curve moves a waiting ball at rest), keeps the ball waiting with
    its speed, counts it as waiting and calls [Math.random()] not
    once. *)
Theorem X6_waiting_ball_rides_paddle paddle time rnd i e ball pb (transform : Vec3) loc :
  waitingForLaunch ball = true -> launch paddle = false ->
  velocity (body pb) = mkVec2 0 0 ->
  let '(e', loc') := ballCallback (Some paddle) time rnd i e ball pb transform loc in
  exists ball' pb',
    e_ball e' = Some ball' /\ e_body e' = Some pb'
    /\ waitingForLaunch ball' = true /\ speed ball' = speed ball
    /\ position (body pb') = mkVec2 (px paddle) 23
    /\ velocity (body pb') = mkVec2 0 0
    /\ waitingBallCount loc' = S (waitingBallCount loc)
    /\ l_drawn loc' = l_drawn loc.
Proof.
  intros Hw Hl Hv.
  unfold ballCallback, positionOnPaddle. rewrite Hw, Hl.
  assert (Hm : magnitude (velocity (Body_setPosition (body pb) (mkVec2 (px paddle) 23))) = 0).
  { cbn [Body_setPosition velocity]. rewrite Hv. by apply magnitude_zero_iff. }
  unfold maintainSpeed. rewrite Hm.
  destruct (Req_dec_T 0 0) as [_|Hne]; [|done].
  unfold curveMotion. cbn [colorBySpeed waitingForLaunch]. rewrite Hw.
  destruct (Rlt_dec 30 (c2 transform));
    cbn [e_ball e_body waitingBallCount l_drawn];
    eexists _, _; (split; [reflexivity|]); (split; [reflexivity|]);
    cbn [withBody body Body_setPosition position velocity waitingForLaunch speed];
    by repeat split.
Qed.

Lemma X6_waiting_ball_rides_paddle_witness :
  let '(e', loc') :=
    ballCallback (Some (mkPaddle 7 false)) 0 (fun _ => 0) 0 (ballAt 23)
      new_Ball
      (mkPhysics2DBody "circle" 0.8 0 1 0
         (mkMatterBody (mkVec2 0 23) (mkVec2 0 0)))
      (mkVec3 0 1 23) (mkLocals 0 false 0 0 []) in
  waitingBallCount loc' = 1%nat.
Proof.
  pose proof (X6_waiting_ball_rides_paddle (mkPaddle 7 false) 0 (fun _ => 0) 0%nat
                (ballAt 23) new_Ball
                (mkPhysics2DBody "circle" 0.8 0 1 0
                   (mkMatterBody (mkVec2 0 23) (mkVec2 0 0)))
                (mkVec3 0 1 23) (mkLocals 0 false 0 0 [])
                eq_refl eq_refl eq_refl) as H.
  destruct (ballCallback _ _ _ _ _ _ _ _ _) as [e' loc'].
  by destruct H as (? & ? & _ & _ & _ & _ & _ & _ & H & _).
Defined.

(** X7: which paddle steers the balls. The paddle a tick works with is
    the one of the first entity, in store order, that carries a paddle,
    and there is none exactly when no entity carries one; further paddles
    are ignored. *)
Theorem X7_first_paddle_wins es :
  paddleLoop es None = head (omap e_paddle es)
  /\ (paddleLoop es None = None <-> Forall (fun e => e_paddle e = None) es)
  /\ (forall pre e post paddle,
        es = pre ++ e :: post ->
        Forall (fun e0 => e_paddle e0 = None) pre ->
        e_paddle e = Some paddle ->
        paddleLoop es None = Some paddle).
Proof.
  assert (Hhead : forall l, paddleLoop l None = head (omap e_paddle l)).
  { induction l as [|e l IH]; [done|]. cbn [paddleLoop omap list_omap].
    destruct (e_paddle e); [done|exact IH]. }
  split; [apply Hhead|]. split.
  - induction es as [|e es IH]; [done|]. cbn [paddleLoop].
    destruct (e_paddle e) as [p|] eqn:Hp.
    + split; [done|]. intros HF. apply Forall_cons in HF as [HF _]. congruence.
    + rewrite IH. split.
      * intros HF. by apply Forall_cons.
      * intros HF. by apply Forall_cons in HF as [_ HF].
  - intros pre e post paddle -> Hpre He. induction pre as [|e0 pre IH].
    + cbn [app paddleLoop]. by rewrite He.
    + apply Forall_cons in Hpre as [H0 Hpre]. cbn [app paddleLoop].
      rewrite H0. by apply IH.
Qed.

Lemma X7_first_paddle_wins_witness :
  paddleLoop [requestEntity; paddleEntity; paddleEntity] None
  = Some (mkPaddle 2 false).
Proof.
  destruct (X7_first_paddle_wins [requestEntity; paddleEntity; paddleEntity])
    as (_ & _ & H).
  apply (H [requestEntity] paddleEntity [paddleEntity]); [done| |done].
  by apply Forall_cons.
Defined.

End BallLooks.

Section Spawning.
Import BallSystem.

Implicit Types (s : State) (es : list Entity) (loc : Locals) (e : Entity).

Lemma normFactor_zero : normFactor (mkVec3 0 0 0) = 0.
Proof.
  unfold normFactor. cbn [c0 c1 c2].
  destruct (Rlt_dec 0 (0 * 0 + 0 * 0 + 0 * 0)) as [H|_]; [lra|ring].
Qed.

(** X8: launching along the zero vector. [launchBall] with a direction
    whose three components are zero divides by nothing: the array stays
    zero, the store is unchanged, the body is set to rest, and the ball is
    marked as launched all the same. *)
Theorem X8_launch_with_zero_direction ball (b : MatterBody) (d : positive)
    (h : gmap positive Vec3) :
  h !! d = Some (mkVec3 0 0 0) ->
  launchBall ball b d h =
  (mkBall false (speed ball) (glowIntensity ball) (color ball),
   Body_setVelocity b (mkVec2 0 0), h).
Proof.
  intros Hd. pose proof (launchBall_unfold ball b d h) as Hu. cbv zeta in Hu.
  rewrite Hu, (lookup_total_correct _ _ _ Hd), normFactor_zero.
  assert (Hz : scaled (scaled (mkVec3 0 0 0) 0) (speed ball) = mkVec3 0 0 0).
  { unfold scaled. cbn [c0 c1 c2]. f_equal; ring. }
  rewrite Hz. cbn [c0 c2]. by rewrite insert_id.
Qed.

Lemma X8_launch_with_zero_direction_witness :
  (launchBall new_Ball (mkMatterBody (mkVec2 1 2) (mkVec2 3 4)) 1
     {[1%positive := mkVec3 0 0 0]}).1.2
  = mkMatterBody (mkVec2 1 2) (mkVec2 0 0).
Proof.
  rewrite (X8_launch_with_zero_direction new_Ball
             (mkMatterBody (mkVec2 1 2) (mkVec2 3 4)) 1
             {[1%positive := mkVec3 0 0 0]}); [reflexivity|].
  apply lookup_singleton_eq.
Defined.

(** X9: what [spawnBall] makes. Before the asset is loaded it returns
    [undefined] and leaves the state as it is. Once it is loaded it
    returns the new entity, which it appends to the store and which
    carries: the position as its transform; a circle body of radius 0.8,
    without friction and fully elastic, at the position's first and third
    coordinates; a ball whose speed is 0.5 + 0.04 * level; a light of the
    ball's colour and glow with range 30; damage 1; no dead tag. Without a
    direction the ball waits at rest and no array is touched. With a
    direction the ball is in flight, the velocity of the body is made of
    elements 0 and 2 of the direction array as the launch has left it, and
    no other array is touched. *)
Theorem X9_spawnBall_contract (pos : Vec3) (vel : option positive) castShadow
    (h : gmap positive Vec3) s :
  (ballScene s = false ->
   spawnBall pos vel castShadow h s = Done (None, h) s)
  /\ (ballScene s = true ->
      exists h' ball pb,
        spawnBall pos vel castShadow h s =
        Done (Some (length (entities s)), h')
          (mkState
             (entities s ++
              [mkEntity (Some ball) (Some pb) (Some pos)
                 (Some (mkPointLight (color ball) (glowIntensity ball) 30))
                 None false false (Some 1%Z)
                 (if castShadow then true else false) "The Ball"])
             (gameState s) (ballScene s) (drawn s) (tagged s))
        /\ speed ball = 0.5 + IZR (level (gameState s)) * 0.04
        /\ shape pb = "circle" /\ radius pb = 0.8 /\ friction pb = 0
        /\ restitution pb = 1 /\ frictionAir pb = 0
        /\ position (body pb) = mkVec2 (c0 pos) (c2 pos)
        /\ (vel = None ->
            waitingForLaunch ball = true /\ velocity (body pb) = mkVec2 0 0
            /\ h' = h)
        /\ (forall d, vel = Some d ->
              waitingForLaunch ball = false
              /\ velocity (body pb) = mkVec2 (c0 (h' !!! d)) (c2 (h' !!! d))
              /\ (forall r : positive, r <> d -> h' !! r = h !! r))).
Proof.
  split; [apply spawnBall_not_loaded|].
  intros Hb. unfold spawnBall. rewrite Hb. cbn [negb].
  destruct vel as [d|].
  - pose proof (launchBall_unfold
                  (mkBall (waitingForLaunch new_Ball)
                     (0.5 + IZR (level (gameState s)) * 0.04)
                     (glowIntensity new_Ball) (color new_Ball))
                  (body (new_Physics2DBody (c0 pos) (c2 pos) 0.8 0 1 0))
                  d h) as Hu.
    cbv zeta in Hu. rewrite Hu. clear Hu.
    eexists _, _, _. split; [reflexivity|].
    cbn [speed shape radius friction restitution frictionAir withBody body
         new_Physics2DBody Body_setVelocity position velocity waitingForLaunch].
    repeat (split; [reflexivity|]). split; [done|].
    intros d0 [= <-]. split; [reflexivity|].
    rewrite lookup_total_insert_eq. split; [reflexivity|].
    intros r Hr. by rewrite lookup_insert_ne.
  - eexists _, _, _. split; [reflexivity|].
    cbn [speed shape radius friction restitution frictionAir withBody body
         new_Physics2DBody position velocity waitingForLaunch new_Ball].
    repeat (split; [reflexivity|]). split; [done|]. done.
Qed.

Lemma X9_spawnBall_contract_witness :
  exists h' ball pb,
    spawnBall (mkVec3 5 1 23) (Some 1%positive) false
      {[1%positive := mkVec3 1 0 (-1)]} paddleOnlyState =
    Done (Some 1%nat, h')
      (mkState
         ([paddleEntity] ++
          [mkEntity (Some ball) (Some pb) (Some (mkVec3 5 1 23))
             (Some (mkPointLight (color ball) (glowIntensity ball) 30))
             None false false (Some 1%Z) false "The Ball"])
         (mkGameState 3 0 false) true 0 [])
    /\ waitingForLaunch ball = false
    /\ velocity (body pb) = mkVec2 (c0 (h' !!! 1%positive)) (c2 (h' !!! 1%positive)).
Proof.
  destruct (X9_spawnBall_contract (mkVec3 5 1 23) (Some 1%positive) false
              {[1%positive := mkVec3 1 0 (-1)]} paddleOnlyState) as [_ H].
  destruct (H eq_refl)
    as (h' & ball & pb & Hrun & _ & _ & _ & _ & _ & _ & _ & _ & Hfly).
  exists h', ball, pb. split; [exact Hrun|].
  destruct (Hfly 1%positive eq_refl) as (Hw & Hv & _). by split.
Defined.

Lemma ballLoop_no_balls paddleState time rnd i es loc :
  Forall (fun e => inBallQuery e = false) es ->
  ballLoop paddleState time rnd i es loc = (es, loc).
Proof.
  revert i loc. induction es as [|e es IH]; intros i loc HF; [done|].
  apply Forall_cons in HF as [He HF]. cbn [ballLoop].
  rewrite ballVisit_outside by done. by rewrite IH.
Qed.

Lemma requestAfter_none es :
  Forall (fun e => e_bonusBall e && e_dead e = false) es ->
  Forall (fun e => inBallQuery e = false) es ->
  omap requestAfter es = [].
Proof.
  induction es as [|e es IH]; intros H1 H2; [done|].
  apply Forall_cons in H1 as [Hb H1]. apply Forall_cons in H2 as [Hq H2].
  cbn [omap list_omap]. unfold requestAfter at 1. rewrite Hq. cbn [andb].
  rewrite orb_false_r, Hb. by apply IH.
Qed.

(** X10: a tick on a store without balls. When no entity is matched by the
    ball query or by the bonus query, there is a paddle, the asset is
    loaded, the level is not starting and a life is left, the tick
    completes, changes neither the game state nor an existing entity, draws
    no random number and spawns a waiting ball at rest above the first
    paddle, at [[paddle.x, 1, 23]]; with [lucasMode] set, it spawns a
    second such ball at the same place in the same tick. *)
Theorem X10_tick_without_balls time flags rnd s paddle :
  Forall (fun e => inBallQuery e = false) (entities s) ->
  Forall (fun e => e_bonusBall e && e_dead e = false) (entities s) ->
  paddleLoop (entities s) None = Some paddle ->
  ballScene s = true ->
  levelStarting (gameState s) = false ->
  (0 < lives (gameState s))%Z ->
  let ball := waitingBallAt (level (gameState s)) (ballShadows flags)
                (mkVec3 (px paddle) 1 23) in
  execute time flags rnd s =
  Done tt
    (mkState
       (entities s ++ ball :: (if lucasMode flags then [ball] else []))
       (gameState s) (ballScene s) (drawn s) (tagged s)).
Proof.
  intros Hq Hr Hp Hb Hs Hl ball. rewrite execute_unfold. cbv zeta.
  rewrite Hp, ballLoop_no_balls by done. cbn [fst snd l_drawn l_tagged].
  assert (Hreq : bonusRequests (entities s) = []).
  { pose proof (ballLoop_requests (Some paddle) time rnd 0 (entities s)
                  (mkLocals 0 false 0 (drawn s) (tagged s))) as H.
    rewrite ballLoop_no_balls in H by done. cbn [fst] in H.
    rewrite H. by apply requestAfter_none. }
  rewrite Hreq. cbn [bonusLoop]. unfold bind at 1, ret at 1.
  unfold bind at 1. unfold respawn.
  cbn [ballCount lostBall Nat.eqb gameState]. rewrite Hs. cbn [negb andb].
  destruct (Z.ltb_spec 0 (lives (gameState s))) as [_|Hn]; [|lia].
  unfold bind at 1. rewrite spawnBall_waiting by done.
  unfold ret at 1. cbn [entities gameState ballScene drawn tagged].
  unfold autoLaunch. cbn [waitingBallCount Nat.eqb].
  destruct (lucasMode flags); cbn [andb].
  - unfold bind, ret. rewrite spawnBall_waiting by done.
    cbn [entities gameState ballScene drawn tagged].
    rewrite <- app_assoc. destruct s; reflexivity.
  - unfold ret. destruct s; reflexivity.
Qed.

Lemma X10_tick_without_balls_witness :
  execute 0 (mkFlags false true) (fun _ => 0) paddleOnlyState =
  Done tt
    (mkState
       ([paddleEntity] ++
        [waitingBallAt 0 false (mkVec3 2 1 23); waitingBallAt 0 false (mkVec3 2 1 23)])
       (mkGameState 3 0 false) true 0 []).
Proof.
  apply (X10_tick_without_balls 0 (mkFlags false true) (fun _ => 0)
           paddleOnlyState (mkPaddle 2 false)).
  - by apply Forall_cons.
  - by apply Forall_cons.
  - reflexivity.
  - reflexivity.
  - reflexivity.
  - reflexivity.
Defined.

End Spawning.

Section BonusSpeed.
Import BallSystem.

Implicit Types (s : State) (e : Entity).

(** X11: a bonus ball is in flight from the start. With the asset loaded,
    the bonus callback draws two random numbers and appends one ball, which
    is in flight (it never waits on the paddle) at the speed of the level;
    when both random numbers are exactly 0.5 the direction it is launched
    along is the zero vector, and the ball is in flight at rest. *)
Theorem X11_bonus_ball_in_flight flags rnd (transform : Vec3) s :
  ballScene s = true ->
  exists e ball pb,
    bonusCallback flags rnd transform s =
    Done tt (mkState (entities s ++ [e]) (gameState s) (ballScene s)
               (S (S (drawn s))) (tagged s))
    /\ e_ball e = Some ball /\ e_body e = Some pb
    /\ waitingForLaunch ball = false
    /\ speed ball = 0.5 + IZR (level (gameState s)) * 0.04
    /\ position (body pb) = mkVec2 (c0 transform) (c2 transform)
    /\ (rnd (drawn s) = 0.5 -> rnd (S (drawn s)) = 0.5 ->
        velocity (body pb) = mkVec2 0 0).
Proof.
  intros Hb. rewrite bonusCallback_loaded by done.
  eexists _, _, _. split; [reflexivity|].
  unfold bonusBallFor. cbn [e_ball e_body waitingForLaunch speed body velocity].
  split; [reflexivity|]. split; [reflexivity|]. split; [reflexivity|].
  split; [reflexivity|]. split; [reflexivity|].
  intros -> ->.
  replace (mkVec3 (0.5 * 2.0 - 1.0) 0 (- (0.5 * 2.0 - 1.0))) with (mkVec3 0 0 0)
    by (f_equal; lra).
  rewrite normFactor_zero. unfold scaled.
  cbn [c0 c1 c2 body velocity]. f_equal; ring.
Qed.

Lemma X11_bonus_ball_in_flight_witness :
  exists e ball pb,
    bonusCallback (mkFlags false false) (fun _ => 0.5) (mkVec3 5 7 10) requestState =
    Done tt (mkState ([paddleEntity; requestEntity] ++ [e]) (mkGameState 3 0 true)
               true 2 [])
    /\ e_ball e = Some ball /\ e_body e = Some pb
    /\ waitingForLaunch ball = false /\ velocity (body pb) = mkVec2 0 0.
Proof.
  destruct (X11_bonus_ball_in_flight (mkFlags false false) (fun _ => 0.5)
              (mkVec3 5 7 10) requestState eq_refl)
    as (e & ball & pb & Hrun & Hb & Hp & Hw & _ & _ & Hz).
  exists e, ball, pb. split; [exact Hrun|]. split; [exact Hb|].
  split; [exact Hp|]. split; [exact Hw|]. by apply Hz.
Defined.

End BonusSpeed.

(** * Further properties of the debug visualisation *)

Section VisualizerLooks.
Import Visualizer.

Implicit Types (s : RState) (b : Physics2DBody) (k : Key) (m : positive).

Lemma orZero_id (o : option R) : orZero o = default 0 o.
Proof. destruct o as [a|]; [|done]. cbn. by destruct (Req_dec_T a 0). Qed.

(** X12: the colour of an outline. The colour drawn for a body has a first
    component [t] in [0, 1], the second is [1 - t] and the third is 0.2;
    [t] is a tenth of the planar speed, capped at 1. A body without a
    velocity, or at rest, is drawn in [0, 1, 0.2]; a body at speed 10 or
    more is drawn in [1, 0, 0.2]. *)
Theorem X12_velocity_colour b :
  let c := velocityColor b in
  let v := default (mkVec2 0 0) (velocity (body b)) in
  0 <= c0 c <= 1 /\ c1 c = 1 - c0 c /\ c2 c = 0.2
  /\ c0 c = Rmin (magnitude v / 10) 1
  /\ (v = mkVec2 0 0 -> c = mkVec3 0 (1.0 - 0) 0.2)
  /\ (10 <= magnitude v -> c = mkVec3 1.0 (1.0 - 1.0) 0.2).
Proof.
  cbv zeta. unfold velocityColor. rewrite !orZero_id.
  assert (Hv : mkVec2 (default 0 (option_map vx (velocity (body b))))
                 (default 0 (option_map vy (velocity (body b))))
               = default (mkVec2 0 0) (velocity (body b))).
  { destruct (velocity (body b)) as [[x y]|]; reflexivity. }
  rewrite Hv. set (v := default (mkVec2 0 0) (velocity (body b))).
  pose proof (magnitude_nonneg v) as Hm. cbn [c0 c1 c2].
  assert (Hmin : 0 <= Rmin (magnitude v / 10) 1.0 <= 1).
  { split; [apply Rmin_glb; lra|]. eapply Rle_trans; [apply Rmin_r|lra]. }
  split; [exact Hmin|]. split; [lra|]. split; [reflexivity|].
  split; [f_equal; lra|]. split.
  - intros Hz. assert (H0 : magnitude v = 0) by (by apply magnitude_zero_iff).
    rewrite H0. rewrite Rmin_left by lra. f_equal; lra.
  - intros H10. rewrite Rmin_right by lra. reflexivity.
Qed.

Lemma X12_velocity_colour_witness : velocityColor triangleBody = mkVec3 0 (1.0 - 0) 0.2.
Proof.
  destruct (X12_velocity_colour triangleBody) as (_ & _ & _ & _ & H & _).
  by apply H.
Defined.

Lemma pulse_bounds time : 0.95 <= pulse time <= 1.05.
Proof. unfold pulse. pose proof (SIN_bound (time * 5)). lra. Qed.

(** X13: the pulse stays within five percent. A rectangle is submitted
    with the scale [[width * p, 1, height * p]] and a circle with
    [[radius * p, 1, radius * p]], where the factor [p] lies in
    [0.95, 1.05] whatever the time; for a size that is not negative the
    scale lies between 0.95 and 1.05 times the size. *)
Theorem X13_pulse_within_five_percent time b s :
  0 <= width b -> 0 <= height b -> 0 <= radius b ->
  (type b = "rectangle" ->
   exists s' sc,
     bodyCallback time b s = Done tt s'
     /\ frame s' = frame s ++ [mkInstance (rectMesh s) (positionOf b) (Some sc)
                                 (orientationOf b)]
     /\ c1 sc = 1
     /\ 0.95 * width b <= c0 sc <= 1.05 * width b
     /\ 0.95 * height b <= c2 sc <= 1.05 * height b)
  /\ (type b = "circle" ->
      exists s' sc,
        bodyCallback time b s = Done tt s'
        /\ frame s' = frame s ++ [mkInstance (circleMesh s) (positionOf b) (Some sc)
                                    (orientationOf b)]
        /\ c1 sc = 1 /\ c0 sc = c2 sc
        /\ 0.95 * radius b <= c0 sc <= 1.05 * radius b).
Proof.
  intros Hw Hh Hr. pose proof (pulse_bounds time) as Hp. split.
  - intros Ht. apply keyOf_rectangle in Ht.
    rewrite bodyCallback_rect by done. rewrite (scaleOf_rect time b Ht).
    eexists _, _. split; [reflexivity|]. cbn [frame c0 c1 c2].
    split; [reflexivity|]. split; [reflexivity|].
    assert (Hpw : 0 <= (pulse time - 0.95) * width b) by (apply Rmult_le_pos; lra).
    assert (Hpw' : 0 <= (1.05 - pulse time) * width b) by (apply Rmult_le_pos; lra).
    assert (Hph : 0 <= (pulse time - 0.95) * height b) by (apply Rmult_le_pos; lra).
    assert (Hph' : 0 <= (1.05 - pulse time) * height b) by (apply Rmult_le_pos; lra).
    cbn [c0 c2]. repeat split; lra.
  - intros Ht. apply keyOf_circle in Ht.
    rewrite bodyCallback_circle by done. rewrite (scaleOf_circle time b Ht).
    eexists _, _. split; [reflexivity|]. cbn [frame c0 c1 c2].
    split; [reflexivity|]. split; [reflexivity|]. split; [reflexivity|].
    assert (Hpr : 0 <= (pulse time - 0.95) * radius b) by (apply Rmult_le_pos; lra).
    assert (Hpr' : 0 <= (1.05 - pulse time) * radius b) by (apply Rmult_le_pos; lra).
    cbn [c0 c2]. split; lra.
Qed.

Lemma X13_pulse_within_five_percent_witness :
  exists s' sc,
    bodyCallback 3 rectBody init = Done tt s'
    /\ frame s' = frame init ++ [mkInstance (rectMesh init) (positionOf rectBody)
                                   (Some sc) (orientationOf rectBody)]
    /\ c1 sc = 1.
Proof.
  destruct (X13_pulse_within_five_percent 3 rectBody init) as [H _].
  - cbn. lra.
  - cbn. lra.
  - cbn. lra.
  - destruct (H eq_refl) as (s' & sc & Hrun & Hf & H1 & _).
    exists s', sc. split; [exact Hrun|]. split; [exact Hf|exact H1].
Defined.




End VisualizerLooks.

Section VisualizerMeshes.
Import Visualizer.

Implicit Types (s : RState) (b : Physics2DBody) (k : Key) (m : positive).


(** What one callback does to the mesh store: nothing, a new colour for
    one mesh, or one new outline mesh with its colour set. *)
Lemma bodyCallback_meshes time b s :
  let s' := finalState (bodyCallback time b s) in
  meshes s' = meshes s
  \/ (exists m, meshes s' = alter (withColor (velocityColor b)) m (meshes s))
  \/ (exists m first rest,
        meshes s !! m = None /\ vertices (body b) = first :: rest
        /\ meshes s' =
           alter (withColor (velocityColor b)) m
             (<[m := mkMesh (outlineVertices (vertices (body b)) first
                               (position (body b)))
                       (length (vertices (body b)) + 1) "line-strip"
                       (mkVec3 0.0 1.0 0.2) "less-equal" (mkVec3 0.1 0.4 0.1)
                       "Vertices Visualization Mesh"]> (meshes s))).
Proof.
  cbv zeta. destruct (keyOf b) as [[| |i]|] eqn:Hk.
  - rewrite bodyCallback_rect by done. right. left. by eexists.
  - rewrite bodyCallback_circle by done. right. left. by eexists.
  - pose proof (keyOf_verts b i Hk) as ->.
    destruct (verticesMeshes s !! ident b) as [m|] eqn:Hc.
    { rewrite (bodyCallback_cached time b s m) by done. right. left. by eexists. }
    destruct (vertices (body b)) as [|first rest] eqn:Hv.
    { rewrite bodyCallback_no_vertex by done. by left. }
    rewrite (bodyCallback_first_sight time b s first rest) by done.
    right. right. exists (fresh (dom (meshes s))), first, rest.
    split; [apply not_elem_of_dom, is_fresh|]. split; [done|]. by rewrite Hv.
  - rewrite bodyCallback_other by done. by left.
Qed.

Lemma groundStrip_withColor c mesh :
  groundStrip mesh -> groundStrip (withColor c mesh).
Proof. by intros (? & ? & ? & ? & ?). Qed.

Lemma Forall_map_ground (f : nat -> Vec3) (l : list nat) :
  (forall i, c1 (f i) = 0) -> Forall (fun v => c1 v = 0) (map f l).
Proof.
  intros Hf. induction l as [|a l IH]; [apply Forall_nil_2|].
  cbn [map]. apply Forall_cons. by split.
Qed.

Lemma groundStrip_rectangle : groundStrip rectangleMesh.
Proof.
  unfold groundStrip, rectangleMesh.
  cbn [m_drawCount m_vertices m_topology m_name].
  split; [reflexivity|]. split; [reflexivity|]. split; [|split; [done|done]].
  repeat (apply Forall_cons; split; [cbn [c1]; lra|]). apply Forall_nil_2.
Qed.

Lemma groundStrip_circle : groundStrip circleMeshValue.
Proof.
  unfold groundStrip, circleMeshValue.
  cbn [m_drawCount m_vertices m_topology m_name].
  split; [by rewrite length_map, length_seq|]. split; [reflexivity|].
  split; [by apply Forall_map_ground|].
  split; [intros _; by rewrite length_map, length_seq|done].
Qed.

Lemma groundStrip_built (verts : list Vec2) (first pos : Vec2) rest :
  verts = first :: rest ->
  groundStrip
    (mkMesh (outlineVertices verts first pos) (length verts + 1) "line-strip"
       (mkVec3 0.0 1.0 0.2) "less-equal" (mkVec3 0.1 0.4 0.1)
       "Vertices Visualization Mesh").
Proof.
  intros ->. unfold groundStrip, outlineVertices.
  cbn [m_drawCount m_vertices m_topology m_name].
  split; [by rewrite length_app, length_map|]. split; [reflexivity|].
  split; [|split; [done|]].
  - apply Forall_app. split.
    + generalize (first :: rest). intros l.
      induction l as [|a l IH]; [apply Forall_nil_2|].
      cbn [map]. apply Forall_cons. by split.
    + apply Forall_cons. split; [reflexivity|apply Forall_nil_2].
  - intros _. rewrite last_snoc. reflexivity.
Qed.

Lemma meshes_callback_invariant time b s :
  (forall m mesh, meshes s !! m = Some mesh -> groundStrip mesh) ->
  let s' := finalState (bodyCallback time b s) in
  (forall m mesh, meshes s' !! m = Some mesh -> groundStrip mesh)
  /\ (forall m mesh, meshes s !! m = Some mesh ->
        exists c, meshes s' !! m = Some (withColor c mesh)).
Proof.
  intros Hinv. cbv zeta.
  assert (Hid : forall mesh, withColor (baseColorFactor mesh) mesh = mesh)
    by (by intros []).
  destruct (bodyCallback_meshes time b s)
    as [->|[[m0 ->]|(m0 & first & rest & Hnone & Hv & ->)]].
  - split; [done|]. intros m mesh Hm. exists (baseColorFactor mesh).
    by rewrite Hid.
  - split.
    + intros m mesh Hm. apply lookup_alter_Some in Hm
        as [(-> & mesh0 & H0 & ->)|[_ H0]].
      * apply groundStrip_withColor. by eapply Hinv.
      * by eapply Hinv.
    + intros m mesh Hm. destruct (decide (m0 = m)) as [->|Hne].
      * exists (velocityColor b). by rewrite lookup_alter_eq, Hm.
      * exists (baseColorFactor mesh). by rewrite lookup_alter_ne, Hid.
  - split.
    + intros m mesh Hm. apply lookup_alter_Some in Hm
        as [(-> & mesh0 & H0 & ->)|[Hne H0]].
      * rewrite lookup_insert_eq in H0. injection H0 as <-.
        apply groundStrip_withColor. by eapply groundStrip_built.
      * rewrite lookup_insert_ne in H0 by done. by eapply Hinv.
    + intros m mesh Hm. assert (Hne : m0 <> m) by congruence.
      exists (baseColorFactor mesh).
      by rewrite lookup_alter_ne, lookup_insert_ne, Hid.
Qed.

Lemma meshes_execute_invariant time bodies s :
  (forall m mesh, meshes s !! m = Some mesh -> groundStrip mesh) ->
  let s' := finalState (execute time bodies s) in
  (forall m mesh, meshes s' !! m = Some mesh -> groundStrip mesh)
  /\ (forall m mesh, meshes s !! m = Some mesh ->
        exists c, meshes s' !! m = Some (withColor c mesh)).
Proof.
  revert s. induction bodies as [|b rest IH]; intros s Hinv.
  { cbn. split; [done|]. intros m [] Hm. by eexists. }
  cbv zeta. cbn [execute]. rewrite finalState_bind.
  destruct (meshes_callback_invariant time b s Hinv) as [Hinv1 Hfro1].
  cbv zeta in Hinv1, Hfro1.
  destruct (bodyCallback time b s) as [[] s1|s1]; cbn [finalState] in *.
  - destruct (IH s1 Hinv1) as [Hinv2 Hfro2]. cbv zeta in Hinv2, Hfro2.
    split; [done|]. intros m mesh Hm.
    destruct (Hfro1 m mesh Hm) as [c1' H1].
    destruct (Hfro2 m _ H1) as [c2' H2]. exists c2'. by rewrite H2.
  - done.
Qed.

Lemma meshes_init_invariant m mesh :
  meshes init !! m = Some mesh -> groundStrip mesh.
Proof.
  pose proof init_unfold as Hi. cbv zeta in Hi. rewrite Hi. cbn [meshes].
  intros Hm. apply lookup_insert_Some in Hm as [[_ <-]|[_ Hm]];
    [apply groundStrip_circle|].
  apply lookup_insert_Some in Hm as [[_ <-]|[_ Hm]];
    [apply groundStrip_rectangle|by rewrite lookup_empty in Hm].
Qed.

(** X15: every mesh is a strip in the ground plane. After any number of
    frames from [init], each pass going through or raising, every mesh
    object the system holds (the rectangle, the ring, the outlines built
    for [fromVertices] bodies) is a line strip whose vertices all have
    height 0 and whose draw count is its number of vertices; the ring has
    17 vertices; the rectangle and every outline built for a body end on
    the vertex they start from. *)
Theorem X15_every_mesh_is_a_ground_strip frames m mesh :
  meshes (runFrames frames init) !! m = Some mesh -> groundStrip mesh.
Proof.
  assert (H : forall s, (forall m mesh, meshes s !! m = Some mesh -> groundStrip mesh) ->
              forall m mesh, meshes (runFrames frames s) !! m = Some mesh ->
                             groundStrip mesh).
  { induction frames as [|[time bodies] rest IH]; intros s Hinv; [done|].
    cbn [runFrames]. apply IH.
    by destruct (meshes_execute_invariant time bodies s Hinv) as [? _]. }
  apply H. apply meshes_init_invariant.
Qed.

Lemma X15_every_mesh_is_a_ground_strip_witness :
  groundStrip rectangleMesh.
Proof.
  apply (X15_every_mesh_is_a_ground_strip [] (rectMesh init) rectangleMesh).
  pose proof init_unfold as Hi. cbv zeta in Hi. rewrite Hi.
  cbn [runFrames meshes rectMesh].
  rewrite lookup_insert_ne, lookup_insert_eq; [done|].
  intros Heq.
  pose proof (is_fresh (dom (<[fresh (dom (∅ : gmap positive Mesh)) := rectangleMesh]>
                              (∅ : gmap positive Mesh)))) as Hf.
  rewrite Heq in Hf. apply Hf. apply elem_of_dom. by rewrite lookup_insert_eq.
Defined.

(** X16: a pass changes nothing of a mesh but its colour. Whether it goes
    through or raises, a pass keeps every mesh object of the store, with
    the vertices, draw count, topology, depth test, emissive factor and
    name it had; only the base colour may differ. The outline cached for a
    body therefore keeps the vertices it was built with, wherever the body
    has moved since. *)
Theorem X16_pass_only_recolours_meshes time bodies s m mesh :
  meshes s !! m = Some mesh ->
  exists mesh',
    meshes (finalState (execute time bodies s)) !! m = Some mesh'
    /\ m_vertices mesh' = m_vertices mesh /\ m_drawCount mesh' = m_drawCount mesh
    /\ m_topology mesh' = m_topology mesh /\ depthCompare mesh' = depthCompare mesh
    /\ emissiveFactor mesh' = emissiveFactor mesh /\ m_name mesh' = m_name mesh.
Proof.
  assert (H : forall bodies s, forall m mesh, meshes s !! m = Some mesh ->
              exists c, meshes (finalState (execute time bodies s)) !! m
                        = Some (withColor c mesh)).
  { clear. intros bodies. induction bodies as [|b rest IH]; intros s m mesh Hm.
    { exists (baseColorFactor mesh). cbn. by destruct mesh. }
    cbn [execute]. rewrite finalState_bind.
    assert (H1 : exists c, meshes (finalState (bodyCallback time b s)) !! m
                           = Some (withColor c mesh)).
    { assert (Hid : withColor (baseColorFactor mesh) mesh = mesh) by (by destruct mesh).
      destruct (bodyCallback_meshes time b s)
        as [->|[[m0 ->]|(m0 & first & tl & Hnone & Hv & ->)]].
      - exists (baseColorFactor mesh). by rewrite Hid.
      - destruct (decide (m0 = m)) as [->|Hne].
        + exists (velocityColor b). by rewrite lookup_alter_eq, Hm.
        + exists (baseColorFactor mesh). by rewrite lookup_alter_ne, Hid.
      - assert (Hne : m0 <> m) by congruence. exists (baseColorFactor mesh).
        by rewrite lookup_alter_ne, lookup_insert_ne, Hid. }
    destruct H1 as [c H1].
    destruct (bodyCallback time b s) as [[] s1|s1]; cbn [finalState] in *.
    - destruct (IH s1 m _ H1) as [c' H2]. exists c'. by rewrite H2.
    - by exists c. }
  intros Hm. destruct (H bodies s m mesh Hm) as [c Hc].
  exists (withColor c mesh). split; [exact Hc|]. by repeat split.
Qed.

Lemma X16_pass_only_recolours_meshes_witness :
  exists mesh',
    meshes (finalState (execute 1 [rectBody; triangleBody] init)) !! rectMesh init
    = Some mesh'
    /\ m_vertices mesh' = m_vertices rectangleMesh.
Proof.
  assert (Hm : meshes init !! rectMesh init = Some rectangleMesh).
  { pose proof init_unfold as Hi. cbv zeta in Hi. rewrite Hi.
    cbn [meshes rectMesh].
    rewrite lookup_insert_ne, lookup_insert_eq; [done|].
    intros Heq.
    pose proof (is_fresh (dom (<[fresh (dom (∅ : gmap positive Mesh)) := rectangleMesh]>
                                (∅ : gmap positive Mesh)))) as Hf.
    rewrite Heq in Hf. apply Hf. apply elem_of_dom. by rewrite lookup_insert_eq. }
  destruct (X16_pass_only_recolours_meshes 1 [rectBody; triangleBody] init
              (rectMesh init) rectangleMesh Hm) as (mesh' & Hl & Hv & _).
  exists mesh'. split; [exact Hl|exact Hv].
Defined.

End VisualizerMeshes.

Section VisualizerSharing.
Import Visualizer.

Implicit Types (s : RState) (b : Physics2DBody) (k : Key) (m : positive).

Lemma lastColor_app_last pre b post k :
  keyOf b = Some k ->
  Forall (fun b' => keyOf b' <> Some k) post ->
  lastColor (pre ++ b :: post) k = Some (velocityColor b).
Proof.
  intros Hk Hpost.
  assert (Hnone : lastColor post k = None).
  { induction post as [|b' post IH]; [done|].
    apply Forall_cons in Hpost as [Hb' Hpost]. rewrite lastColor_cons, IH by done.
    by rewrite decide_False. }
  induction pre as [|b0 pre IH].
  - cbn [app]. rewrite lastColor_cons, Hnone. by rewrite decide_True.
  - cbn [app]. rewrite lastColor_cons, IH. done.
Qed.

(** X17: the shared materials show the last body. When a pass goes
    through, from a state whose meshes are distinct objects, the two
    shared meshes are the objects they were, and the material of the
    rectangle mesh holds the colour of the last rectangle of the pass, so
    that every rectangle of the frame is drawn in that colour; the same
    holds of the circle mesh and the last circle. *)
Theorem X17_shared_material_shows_last_body time s s' pre b post :
  wellFormed s -> execute time (pre ++ b :: post) s = Done tt s' ->
  rectMesh s' = rectMesh s /\ circleMesh s' = circleMesh s
  /\ (type b = "rectangle" ->
      Forall (fun b' => type b' <> "rectangle") post ->
      baseColorFactor (meshes s' !!! rectMesh s') = velocityColor b)
  /\ (type b = "circle" ->
      Forall (fun b' => type b' <> "circle") post ->
      baseColorFactor (meshes s' !!! circleMesh s') = velocityColor b).
Proof.
  intros Hwf Hrun.
  destruct (execute_spec time (pre ++ b :: post) s s' Hwf Hrun) as (HA & HB & _).
  assert (Hr : rectMesh s' = rectMesh s).
  { destruct (HA KRect (rectMesh s) eq_refl) as [H _]. by injection H. }
  assert (Hc : circleMesh s' = circleMesh s).
  { destruct (HA KCircle (circleMesh s) eq_refl) as [H _]. by injection H. }
  split; [done|]. split; [done|]. split.
  - intros Ht Hpost. apply keyOf_rectangle in Ht.
    assert (Hlast : lastColor (pre ++ b :: post) KRect = Some (velocityColor b)).
    { apply lastColor_app_last; [done|].
      eapply Forall_impl; [exact Hpost|]. intros b' Hb' Hk. apply Hb'.
      destruct (keyOf_cases b') as [[_ H]|[[H _]|[[H _]|[H _]]]]; try congruence.
      by apply String.eqb_eq. }
    destruct (HB KRect _ Hlast) as (m & Hm & Hcol). cbn [meshOf] in Hm.
    injection Hm as <-. exact Hcol.
  - intros Ht Hpost. apply keyOf_circle in Ht.
    assert (Hlast : lastColor (pre ++ b :: post) KCircle = Some (velocityColor b)).
    { apply lastColor_app_last; [done|].
      eapply Forall_impl; [exact Hpost|]. intros b' Hb' Hk. apply Hb'.
      destruct (keyOf_cases b') as [[H _]|[(_ & _ & H)|[[H _]|[H _]]]]; try congruence.
      by apply String.eqb_eq. }
    destruct (HB KCircle _ Hlast) as (m & Hm & Hcol). cbn [meshOf] in Hm.
    injection Hm as <-. exact Hcol.
Qed.

Lemma X17_shared_material_shows_last_body_witness :
  exists s',
    execute 1 ([] ++ rectBody :: [triangleBody]) init = Done tt s'
    /\ baseColorFactor (meshes s' !!! rectMesh s') = velocityColor rectBody.
Proof.
  destruct (execute_completes 1 ([] ++ rectBody :: [triangleBody]) init)
    as [s' Hrun].
  { intros b Hin _. right. cbn [app] in Hin.
    apply elem_of_cons in Hin as [->|Hin]; [done|].
    apply list_elem_of_singleton in Hin as ->. done. }
  exists s'. split; [exact Hrun|].
  destruct (X17_shared_material_shows_last_body 1 init s' [] rectBody
              [triangleBody] wellFormed_init Hrun) as (_ & _ & H & _).
  apply H; [reflexivity|]. apply Forall_cons. split; [done|apply Forall_nil_2].
Defined.

Lemma keyOf_verts_type b i :
  keyOf b = Some (KVerts i) -> type b = "fromVertices" /\ i = ident b.
Proof.
  intros Hk. split; [|by apply keyOf_verts].
  destruct (keyOf_cases b) as [[H _]|[[H _]|[(_ & _ & _ & H)|[H _]]]];
    try congruence.
  by apply String.eqb_eq.
Qed.

Lemma cache_none_callback time b s i :
  verticesMeshes s !! i = None ->
  keyOf b <> Some (KVerts i) ->
  verticesMeshes (finalState (bodyCallback time b s)) !! i = None.
Proof.
  intros Hi Hk.
  destruct (bodyCallback_cache time b s) as [[-> _]|(Hkb & _ & -> & _)]; [done|].
  rewrite lookup_insert_ne; [done|]. congruence.
Qed.

(** X18: when a pass raises. A pass raises only at a [fromVertices] body
    that has no vertex and no outline mesh in the cache when the pass
    starts; and it does raise when the pass holds such a body and no body
    before it is drawn with that body's outline mesh. The failing callback
    adds nothing to the frame, to the cache or to the builds. *)
Theorem X18_pass_raises_on_vertexless_first_sight time bodies s :
  (completes (execute time bodies s) = false ->
   exists b, b ∈ bodies /\ type b = "fromVertices"
             /\ vertices (body b) = []
             /\ verticesMeshes s !! ident b = None)
  /\ (forall pre b post,
        bodies = pre ++ b :: post ->
        type b = "fromVertices" -> vertices (body b) = [] ->
        verticesMeshes s !! ident b = None ->
        Forall (fun b' => type b' = "fromVertices" -> ident b' <> ident b) pre ->
        completes (execute time bodies s) = false)
  /\ (forall b, type b = "fromVertices" -> vertices (body b) = [] ->
        verticesMeshes s !! ident b = None ->
        exists s',
          bodyCallback time b s = Threw s'
          /\ frame s' = frame s /\ verticesMeshes s' = verticesMeshes s
          /\ built s' = built s /\ meshes s' = meshes s).
Proof.
  split; [|split].
  - revert s. induction bodies as [|b0 rest IH]; intros s Hraise; [done|].
    cbn [execute] in Hraise. unfold bind in Hraise.
    destruct (bodyCallback time b0 s) as [[] s1|s1] eqn:Hcb.
    + destruct (IH s1 Hraise) as (b & Hin & Ht & Hv & Hc).
      exists b. split; [by right|]. split; [done|]. split; [done|].
      destruct (verticesMeshes s !! ident b) as [m|] eqn:Hs; [|done].
      pose proof (cache_mono_callback time b0 s (ident b) m Hs) as Hm.
      rewrite Hcb in Hm. cbn [finalState] in Hm. congruence.
    + exists b0. split; [by left|].
      destruct (keyOf b0) as [[| |i]|] eqn:Hk.
      * by rewrite bodyCallback_rect in Hcb.
      * by rewrite bodyCallback_circle in Hcb.
      * destruct (keyOf_verts_type b0 i Hk) as [Ht ->]. split; [done|].
        destruct (verticesMeshes s !! ident b0) as [m|] eqn:Hc.
        { by rewrite (bodyCallback_cached time b0 s m) in Hcb. }
        destruct (vertices (body b0)) as [|first tl] eqn:Hv; [done|].
        by rewrite (bodyCallback_first_sight time b0 s first tl) in Hcb.
      * by rewrite bodyCallback_other in Hcb.
  - intros pre b post -> Ht Hv Hc Hpre. revert s Hc.
    induction pre as [|b0 pre IH]; intros s Hc.
    + cbn [app execute]. unfold bind.
      rewrite bodyCallback_no_vertex by (by try apply keyOf_fromVertices). done.
    + apply Forall_cons in Hpre as [H0 Hpre]. cbn [app execute]. unfold bind.
      pose proof (cache_none_callback time b0 s (ident b) Hc) as Hnone.
      destruct (bodyCallback time b0 s) as [[] s1|s1]; [|done].
      cbn [finalState] in Hnone. apply IH; [done|]. apply Hnone.
      intros Hk. apply keyOf_verts_type in Hk as [Ht0 Hi]. by apply H0.
  - intros b Ht Hv Hc. rewrite bodyCallback_no_vertex
      by (by try apply keyOf_fromVertices).
    eexists. split; [reflexivity|]. by repeat split.
Qed.

Lemma X18_pass_raises_on_vertexless_first_sight_witness :
  completes
    (execute 1
       [rectBody;
        mkPhysics2DBody 9 "fromVertices" 0 0 0 (mkMatterBody (mkVec2 0 0) 0 None [])]
       init) = false.
Proof.
  destruct (X18_pass_raises_on_vertexless_first_sight 1
              [rectBody;
               mkPhysics2DBody 9 "fromVertices" 0 0 0
                 (mkMatterBody (mkVec2 0 0) 0 None [])] init) as (_ & H & _).
  apply (H [rectBody]
           (mkPhysics2DBody 9 "fromVertices" 0 0 0
              (mkMatterBody (mkVec2 0 0) 0 None [])) []);
    [reflexivity|reflexivity|reflexivity| |].
  - pose proof init_unfold as Hi. cbv zeta in Hi. rewrite Hi.
    cbn [verticesMeshes]. apply lookup_empty.
  - apply Forall_cons. split; [done|apply Forall_nil_2].
Defined.

End VisualizerSharing.

Section TickWithBall.
Import BallSystem.

Implicit Types (s : State) (e : Entity).

(** X19: a tick with a ball alive. With the asset loaded, [lucasMode] off
    and at least one ball counted alive, the tick completes whether or not
    there is a paddle, leaves the game state as it is, and adds to the
    store exactly one bonus ball per bonus request, in store order of the
    requests, a request being an entity that carries [BonusBall] and a
    transform and is tagged dead, from before or by the loss check of this
    tick; each bonus ball costs two random numbers. *)
Theorem X19_tick_with_a_ball_alive time flags rnd s :
  ballScene s = true -> lucasMode flags = false ->
  aliveBalls (entities s) <> 0%nat ->
  let r := ballLoop (paddleLoop (entities s) None) time rnd 0 (entities s)
             (mkLocals 0 false 0 (drawn s) (tagged s)) in
  execute time flags rnd s =
  Done tt
    (mkState
       (r.1 ++ bonusBalls (level (gameState s)) (ballShadows flags) rnd
                 (l_drawn r.2) (omap requestAfter (entities s)))
       (gameState s) (ballScene s)
       (l_drawn r.2 + 2 * length (omap requestAfter (entities s)))%nat
       (l_tagged r.2)).
Proof.
  intros Hb Hlucas Ha. cbv zeta. rewrite execute_unfold. cbv zeta.
  set (ps := paddleLoop (entities s) None).
  pose proof (ballLoop_counts ps time rnd (entities s) 0
                (mkLocals 0 false 0 (drawn s) (tagged s))) as Hc.
  pose proof (ballLoop_requests ps time rnd 0 (entities s)
                (mkLocals 0 false 0 (drawn s) (tagged s))) as Hreq.
  destruct (ballLoop ps time rnd 0 (entities s) _) as [es1 loc1].
  cbn [fst snd] in *. destruct Hc as (Hc & _ & _).
  cbn [ballCount Nat.add] in Hc. rewrite Hreq.
  unfold bind at 1. rewrite bonusLoop_loaded by done.
  cbn [entities gameState ballScene drawn tagged].
  unfold bind at 1. unfold respawn. rewrite Hc.
  destruct (Nat.eqb_spec (aliveBalls (entities s)) 0) as [H0|_]; [done|].
  unfold autoLaunch. rewrite Hlucas. reflexivity.
Qed.

Lemma X19_tick_with_a_ball_alive_witness :
  completes (execute 0 (mkFlags false false) (fun _ => 0) (oneBallState 29)) = true.
Proof.
  rewrite (X19_tick_with_a_ball_alive 0 (mkFlags false false) (fun _ => 0)
             (oneBallState 29)); [reflexivity|reflexivity|reflexivity|].
  cbn [oneBallState entities aliveBalls]. rewrite beyondLoss_ballAt.
  destruct (Rlt_dec 30 29); [lra|]. cbn. lia.
Defined.

End TickWithBall.
